(** * Outbreak-risk assessment: a shallow embedding of [app.py]

    The Python functions of the risk pipeline ([compute_risk_level],
    [get_region_aqi], [get_hospitals_for_region], [generate_recommendations],
    the two prediction routes and the dashboard aggregation) are transcribed
    as Rocq functions.  Python [float] is IEEE binary64, modelled by Rocq's
    primitive [float]; Python [int] is [Z]; a Python exception is the [Raise]
    branch of [result]; the table of predictions is the list of its rows,
    threaded through the routes.

    The account routes ([register], [login], [logout]) and the overview
    page [index] are transcribed over the table of users and the session.

    Left out: the [login_required] check of the prediction routes and the
    dashboard (they are modelled for a logged-in user), the rendering of
    templates (a page is the record of its template variables), and
    failures of the database other than the two the pipeline can meet: an
    integer column holds 64 bits, and a NaN is stored as NULL in a float
    column.  The classifier, [float()] on strings
    and the password hashing of [werkzeug.security] are parameters of the
    routes. *)

From Stdlib Require Import ZArith List String Ascii Bool Lia Floats.
From Stdlib Require Import DecimalString Permutation Sorted.
Import ListNotations.

Set Warnings "-inexact-float".
Local Open Scope string_scope.
Local Open Scope Z_scope.

(** ** Exceptions *)

Inductive exn : Type :=
| ZeroDivisionError
| KeyError (key : string)
| ValueError
| TypeError
| OverflowError.

Inductive result (A : Type) : Type :=
| Ok (a : A)
| Raise (e : exn).
Arguments Ok {A} a.
Arguments Raise {A} e.

Definition bind {A B : Type} (r : result A) (k : A -> result B) : result B :=
  match r with
  | Ok a => k a
  | Raise e => Raise e
  end.

Notation "x <- r ;; k" := (bind r (fun x => k))
  (at level 61, r at next level, right associativity).

(** ** Python floats *)

(** [x / y] on floats: [ZeroDivisionError] when the divisor compares equal
    to zero (either sign), the IEEE quotient otherwise. *)
Definition float_truediv (x y : float) : result float :=
  if (y =? 0)%float then Raise ZeroDivisionError else Ok (x / y)%float.

(** [max(a, b)] keeps [a] unless [b > a]. *)
Definition py_max (a b : float) : float :=
  if (a <? b)%float then b else a.

(** The binary64 value nearest to the rational [n / d], ties to even: the
    IEEE division of the two integers taken as exact values. *)
Definition float_of_ratio (neg : bool) (n d : positive) : float :=
  SF2Prim (SFdiv prec emax (S754_finite neg n 0) (S754_finite false d 0)).

(** [n / d] for [d > 0], rounded to the nearest integer, ties to even. *)
Definition round_half_even (n d : Z) : Z :=
  let q := n / d in
  match 2 * (n mod d) ?= d with
  | Lt => q
  | Gt => q + 1
  | Eq => if Z.even q then q else q + 1
  end.

(** [round(x, ndigits)] for [ndigits >= 0]: the exact value of [x] is
    rounded to [ndigits] decimals (ties to even) and the decimal result is
    converted back to the nearest float; NaN and the infinities round to
    themselves and a zero result keeps the sign of [x]. *)
Definition py_round (x : float) (ndigits : Z) : float :=
  match Prim2SF x with
  | S754_finite s m e =>
      let scale := 10 ^ ndigits in
      let n := if 0 <=? e then Zpos m * 2 ^ e * scale
               else round_half_even (Zpos m * scale) (2 ^ (- e)) in
      match n with
      | Zpos k => float_of_ratio s k (Z.to_pos scale)
      | _ => if s then (-0)%float else 0%float
      end
  | _ => x
  end.

(** [int(x)]: truncation towards zero; NaN and the infinities raise. *)
Definition py_int (x : float) : result Z :=
  match Prim2SF x with
  | S754_nan => Raise ValueError
  | S754_infinity _ => Raise OverflowError
  | S754_zero _ => Ok 0
  | S754_finite s m e =>
      let a := if 0 <=? e then Zpos m * 2 ^ e else Zpos m / 2 ^ (- e) in
      Ok (if s then - a else a)
  end.

(** [float(n)] for an [int]: the nearest float, [OverflowError] when it is
    out of range. *)
Definition float_of_int (n : Z) : result float :=
  match binary_normalize prec emax n 0 false with
  | S754_infinity _ => Raise OverflowError
  | f => Ok (SF2Prim f)
  end.

(** [float(n)] for an [int] below [2^53] in absolute value: exact. *)
Definition float_of_small_int (n : Z) : float :=
  if n <? 0 then (- of_uint63 (Uint63.of_Z (- n)))%float
  else of_uint63 (Uint63.of_Z n).

(** [a / b] on two [int]s: the correctly rounded quotient.  As in the
    interpreter, operands that are exact as floats are divided as floats;
    larger ones go through the exact quotient, which may overflow. *)
Definition int_truediv (a b : Z) : result float :=
  if b =? 0 then Raise ZeroDivisionError
  else if (Z.abs a <? 2 ^ 53) && (Z.abs b <? 2 ^ 53) then
    Ok (float_of_small_int a / float_of_small_int b)%float
  else if a =? 0 then Ok (if b <? 0 then (-0)%float else 0%float)
  else
    let q := float_of_ratio (xorb (a <? 0) (b <? 0))
               (Z.to_pos (Z.abs a)) (Z.to_pos (Z.abs b)) in
    if is_infinity q then Raise OverflowError else Ok q.

(** ** Python strings

    A [string] is read as a sequence of code points below 256, one [ascii]
    each. *)

(** [str.isspace] on one code point: TAB..CR, FS..US, space, NEL, NBSP. *)
Definition is_space (c : ascii) : bool :=
  let n := N_of_ascii c in
  (((9 <=? n) && (n <=? 13)) || ((28 <=? n) && (n <=? 32))
   || (n =? 133) || (n =? 160))%N.

(** [str.lower] on one code point: A..Z and the Latin-1 capitals. *)
Definition lower_char (c : ascii) : ascii :=
  let n := N_of_ascii c in
  if (((65 <=? n) && (n <=? 90))
      || ((192 <=? n) && (n <=? 222) && negb (n =? 215)))%N
  then ascii_of_N (n + 32) else c.

Fixpoint lower (s : string) : string :=
  match s with
  | EmptyString => EmptyString
  | String c r => String (lower_char c) (lower r)
  end.

Fixpoint lstrip (s : string) : string :=
  match s with
  | EmptyString => EmptyString
  | String c r => if is_space c then lstrip r else s
  end.

Definition reverse (s : string) : string :=
  string_of_list_ascii (rev (list_ascii_of_string s)).

Definition rstrip (s : string) : string := reverse (lstrip (reverse s)).

Definition strip (s : string) : string := rstrip (lstrip s).

(** [str(n)] and [f"{n}"] for an [int]. *)
Definition str_of_int (n : Z) : string := NilZero.string_of_int (Z.to_int n).

(** [s or default]: the empty string and [None] are falsy. *)
Definition str_or (s : option string) (default : string) : string :=
  match s with
  | None | Some EmptyString => default
  | Some s => s
  end.

(** [d.get(k)] on a dict kept as an association list in insertion order. *)
Fixpoint dict_get {V : Type} (d : list (string * V)) (k : string) : option V :=
  match d with
  | [] => None
  | (k', v) :: rest => if String.eqb k' k then Some v else dict_get rest k
  end.

Definition dict_get_default {V : Type} (d : list (string * V)) (k : string)
    (default : V) : V :=
  match dict_get d k with
  | Some v => v
  | None => default
  end.

(** [x] is not NaN. *)
Definition is_number (x : float) : bool := (x =? x)%float.

(** A zero or a finite non-zero value. *)
Definition SF_finite (x : spec_float) : bool :=
  match x with
  | S754_zero _ | S754_finite _ _ _ => true
  | _ => false
  end.

Definition is_finite_float (f : float) : bool := SF_finite (Prim2SF f).

(** ** Risk tiering *)

(** [compute_risk_level], app.py lines 79-86. *)
Definition compute_risk_level (probability : float) : string :=
  if (probability <? 0.3)%float then "Low"
  else if (probability <? 0.7)%float then "Medium"
  else "High".

(** A probability, as the oracle contract has it: a float in [[0, 1]]. *)
Definition in_unit_interval (p : float) : bool :=
  ((0 <=? p) && (p <=? 1))%float.

(** ** Context lookups *)

Definition sample_data : list (string * Z) :=
  [("surat", 130); ("ahmedabad", 160); ("mumbai", 140); ("delhi", 220);
   ("pune", 110)].

(** [get_region_aqi], app.py lines 89-120. *)
Definition get_region_aqi (region : option string) : Z * string :=
  let region_key := lower (strip (str_or region "unknown")) in
  let aqi := dict_get_default sample_data region_key 90 in
  let category :=
    if aqi <=? 50 then "Good"
    else if aqi <=? 100 then "Satisfactory"
    else if aqi <=? 200 then "Moderate"
    else if aqi <=? 300 then "Poor"
    else if aqi <=? 400 then "Very Poor"
    else "Severe" in
  (aqi, category).

(** The breakpoint table of the specification: [<= 50] Good, [<= 100]
    Satisfactory, [<= 200] Moderate, [<= 300] Poor, [<= 400] Very Poor,
    Severe above. *)
Definition aqi_breakpoints (aqi_value : Z) : string :=
  if aqi_value <=? 50 then "Good"
  else if aqi_value <=? 100 then "Satisfactory"
  else if aqi_value <=? 200 then "Moderate"
  else if aqi_value <=? 300 then "Poor"
  else if aqi_value <=? 400 then "Very Poor"
  else "Severe".

(** The normalized lookup key of a region: trimmed, then lowercased. *)
Definition normalize (region : string) : string := lower (strip region).

Record hospital : Type := {
  name : string;
  phone : string;
  address : string
}.

Definition hospitals_map : list (string * list hospital) :=
  [("surat",
    [ {| name := "New Civil Hospital, Surat";
         phone := "+91-261-XYZ-0001";
         address := "Ring Road, Surat" |};
      {| name := "SMIMER Hospital";
         phone := "+91-261-XYZ-0002";
         address := "Dumas Road, Surat" |} ]);
   ("ahmedabad",
    [ {| name := "Civil Hospital, Ahmedabad";
         phone := "+91-79-XYZ-0001";
         address := "Asarwa, Ahmedabad" |};
      {| name := "Sardar Vallabhbhai Patel Hospital";
         phone := "+91-79-XYZ-0002";
         address := "Ellisbridge, Ahmedabad" |} ])].

(** [get_hospitals_for_region], app.py lines 123-158. *)
Definition get_hospitals_for_region (region : option string) : list hospital :=
  let region_key := lower (strip (str_or region "unknown")) in
  dict_get_default hospitals_map region_key [].

(** ** Recommendation synthesis *)

(** The [features] dict the two routes build: four floats. *)
Record features : Type := {
  fever_cases : float;
  cough_cases : float;
  diarrhea_cases : float;
  region_population : float
}.

(** The scan of [max(d, key=d.get)]: the current best key is replaced only
    by a later key whose value is strictly greater. *)
Fixpoint max_scan (best : string) (best_val : float)
    (rest : list (string * float)) : string :=
  match rest with
  | [] => best
  | (k, v) :: rest' =>
      if (best_val <? v)%float then max_scan k v rest'
      else max_scan best best_val rest'
  end.

(** [max(d, key=d.get)] over a dict in insertion order; an empty dict
    raises [ValueError]. *)
Definition max_key (d : list (string * float)) : result string :=
  match d with
  | [] => Raise ValueError
  | (k, v) :: rest => Ok (max_scan k v rest)
  end.

(** [l.append(x)]. *)
Definition list_append {A : Type} (l : list A) (x : A) : list A :=
  (l ++ [x])%list.

(** [generate_recommendations], app.py lines 161-257.  [suggestions] is
    the list the source appends to, threaded through the five stages. *)
Definition generate_recommendations (risk_level : string) (region : string)
    (features : features) (aqi_value : option Z) (aqi_category : string)
    (hospital_count : Z) : result (list string) :=
  let fever := fever_cases features in
  let cough := cough_cases features in
  let diarrhea := diarrhea_cases features in
  let pop := py_max (region_population features) 1 in
  fever_q <- float_truediv fever pop ;;
  let fever_rate := (fever_q * 10000)%float in
  cough_q <- float_truediv cough pop ;;
  let cough_rate := (cough_q * 10000)%float in
  diarrhea_q <- float_truediv diarrhea pop ;;
  let diarrhea_rate := (diarrhea_q * 10000)%float in
  let rates :=
    [("Fever", fever_rate); ("Cough", cough_rate);
     ("Diarrhea", diarrhea_rate)] in
  top_symptom <- max_key rates ;;
  let suggestions : list string := [] in
  let suggestions :=
    if (risk_level =? "High")%string then
      list_append
        (list_append suggestions
           ("Immediately alert public health authorities for " ++ region
            ++ " and activate outbreak response protocols."))
        "Escalate testing capacity and prepare isolation facilities for high-risk patients."
    else if (risk_level =? "Medium")%string then
      list_append
        (list_append suggestions
           ("Enable enhanced surveillance in " ++ region
            ++ " with daily case tracking at ward/zone level."))
        "Review hospital readiness (beds, oxygen, ICU) in anticipation of a possible surge."
    else
      list_append suggestions
        ("Maintain routine surveillance in " ++ region
         ++ " while focusing on early case reporting.") in
  let suggestions :=
    if (top_symptom =? "Fever")%string then
      list_append suggestions
        "Investigate clusters of fever in schools, hostels and workplaces; run fever screening camps."
    else if (top_symptom =? "Cough")%string then
      list_append suggestions
        "Strengthen respiratory hygiene measures: masks in crowded places, cough etiquette, ventilation checks."
    else
      list_append suggestions
        "Investigate water and food safety, test local water sources, and promote use of safe drinking water." in
  let suggestions :=
    match aqi_value with
    | Some aqi =>
        if aqi >? 200 then
          list_append suggestions
            ("Air quality in " ++ region ++ " is " ++ aqi_category
             ++ " (AQI " ++ str_of_int aqi
             ++ "). Advise masks outdoors and limit exposure for vulnerable groups.")
        else if aqi >? 100 then
          list_append suggestions
            ("Air quality in " ++ region ++ " is " ++ aqi_category
             ++ " (AQI " ++ str_of_int aqi
             ++ "). Consider public advisories for people with asthma and heart disease.")
        else
          list_append suggestions
            ("Air quality in " ++ region ++ " is " ++ aqi_category
             ++ " (AQI " ++ str_of_int aqi
             ++ "). Maintain current environmental controls.")
    | None => suggestions
    end in
  let suggestions :=
    if hospital_count =? 0 then
      list_append suggestions
        "No mapped hospitals found for this region. Maintain an updated health facility directory to improve response time."
    else if (hospital_count <=? 2)
            && ((risk_level =? "Medium") || (risk_level =? "High"))%string then
      list_append suggestions
        ("Limited hospital coverage (" ++ str_of_int hospital_count
         ++ " known facilities). Prepare referral pathways to nearby districts.")
    else
      list_append suggestions
        "Coordinate with listed hospitals to ensure triage, isolation, and referral protocols are clearly defined." in
  let suggestions :=
    list_append suggestions
      "Standardize daily data reporting (same time, same fields) to improve model reliability and early warning accuracy." in
  Ok suggestions.

(** *** The stages, as the specification lists them

    Stage 1, the tier-driven directive. *)
Definition tier_directive (risk_level region : string) : list string :=
  if (risk_level =? "High")%string then
    ["Immediately alert public health authorities for " ++ region
     ++ " and activate outbreak response protocols.";
     "Escalate testing capacity and prepare isolation facilities for high-risk patients."]
  else if (risk_level =? "Medium")%string then
    ["Enable enhanced surveillance in " ++ region
     ++ " with daily case tracking at ward/zone level.";
     "Review hospital readiness (beds, oxygen, ICU) in anticipation of a possible surge."]
  else
    ["Maintain routine surveillance in " ++ region
     ++ " while focusing on early case reporting."].

(** Stage 2, the dominant-symptom directive. *)
Definition fever_item : string :=
  "Investigate clusters of fever in schools, hostels and workplaces; run fever screening camps.".
Definition cough_item : string :=
  "Strengthen respiratory hygiene measures: masks in crowded places, cough etiquette, ventilation checks.".
Definition diarrhea_item : string :=
  "Investigate water and food safety, test local water sources, and promote use of safe drinking water.".

Definition symptom_items : list string :=
  [fever_item; cough_item; diarrhea_item].

Definition symptom_directive (top_symptom : string) : string :=
  if (top_symptom =? "Fever")%string then fever_item
  else if (top_symptom =? "Cough")%string then cough_item
  else diarrhea_item.

(** Stage 3, the air-quality directive. *)
Definition air_directive (region aqi_category : string) (aqi_value : Z)
    : string :=
  "Air quality in " ++ region ++ " is " ++ aqi_category ++ " (AQI "
  ++ str_of_int aqi_value
  ++ (if aqi_value >? 200 then
        "). Advise masks outdoors and limit exposure for vulnerable groups."
      else if aqi_value >? 100 then
        "). Consider public advisories for people with asthma and heart disease."
      else "). Maintain current environmental controls.").

(** Stage 4, the facility-coverage directive. *)
Definition facility_directive (risk_level : string) (facility_count : Z)
    : string :=
  if facility_count =? 0 then
    "No mapped hospitals found for this region. Maintain an updated health facility directory to improve response time."
  else if (facility_count <=? 2)
          && ((risk_level =? "Medium") || (risk_level =? "High"))%string then
    "Limited hospital coverage (" ++ str_of_int facility_count
    ++ " known facilities). Prepare referral pathways to nearby districts."
  else
    "Coordinate with listed hospitals to ensure triage, isolation, and referral protocols are clearly defined.".

(** Stage 5, the data-quality directive. *)
Definition data_quality_item : string :=
  "Standardize daily data reporting (same time, same fields) to improve model reliability and early warning accuracy.".

(** [rate = (count / max(population, 1)) * 10000]. *)
Definition rate (count population : float) : float :=
  (count / py_max population 1 * 10000)%float.

(** The symptom with the highest rate, the earlier one on a tie. *)
Definition dominant_symptom (fever_rate cough_rate diarrhea_rate : float)
    : string :=
  if ((cough_rate <=? fever_rate) && (diarrhea_rate <=? fever_rate))%float
  then "Fever"
  else if (diarrhea_rate <=? cough_rate)%float then "Cough"
  else "Diarrhea".

(** The key [generate_recommendations] selects, by its own scan. *)
Definition top_symptom (x : features) : string :=
  max_scan "Fever" (rate (fever_cases x) (region_population x))
    [("Cough", rate (cough_cases x) (region_population x));
     ("Diarrhea", rate (diarrhea_cases x) (region_population x))].

(** An observation the synthesizer is specified for: finite counts and a
    population that is a number. *)
Definition observation_ok (x : features) : bool :=
  is_finite_float (fever_cases x) && is_finite_float (cough_cases x)
  && is_finite_float (diarrhea_cases x) && is_number (region_population x).

(** [s] is one of the three symptom items. *)
Definition is_symptom_item (s : string) : bool :=
  existsb (String.eqb s) symptom_items.

(** ** The record store *)

(** A row of the [Prediction] table, app.py lines 49-63.  The primary key
    is the row's position in the store (rows are only ever appended) and
    the timestamp column, filled by the database clock, is left out.  The
    [region] and [probability] columns may hold NULL, which is [None]. *)
Module Prediction.
Record t : Type := {
  user_id : Z;
  region : option string;
  fever_cases : Z;
  cough_cases : Z;
  diarrhea_cases : Z;
  region_population : Z;
  prediction : Z;
  probability : option float;
  risk_level : string;
  aqi_value : Z;
  aqi_category : string
}.
End Prediction.

(** An INTEGER column of SQLite holds a signed 64-bit integer. *)
Definition int64 (n : Z) : bool := (- 2 ^ 63 <=? n) && (n <? 2 ^ 63).

(** What a Float column keeps of a value: SQLite stores a NaN as NULL. *)
Definition db_real (f : option float) : option float :=
  match f with
  | Some x => if is_number x then Some x else None
  | None => None
  end.

(** The row as the table holds it. *)
Definition db_row (row : Prediction.t) : Prediction.t :=
  {| Prediction.user_id := Prediction.user_id row;
     Prediction.region := Prediction.region row;
     Prediction.fever_cases := Prediction.fever_cases row;
     Prediction.cough_cases := Prediction.cough_cases row;
     Prediction.diarrhea_cases := Prediction.diarrhea_cases row;
     Prediction.region_population := Prediction.region_population row;
     Prediction.prediction := Prediction.prediction row;
     Prediction.probability := db_real (Prediction.probability row);
     Prediction.risk_level := Prediction.risk_level row;
     Prediction.aqi_value := Prediction.aqi_value row;
     Prediction.aqi_category := Prediction.aqi_category row |}.

(** [db.session.add(row); db.session.commit()].  The driver refuses a
    count outside 64 bits with [OverflowError] and the table is left as it
    was.  The other integer columns are always in range: the user id is
    read from the table of users, the flag is 0 or 1 and the AQI value
    comes from the table of [get_region_aqi]. *)
Definition db_add (store : list Prediction.t) (row : Prediction.t)
    : result (list Prediction.t) :=
  if int64 (Prediction.fever_cases row) && int64 (Prediction.cough_cases row)
     && int64 (Prediction.diarrhea_cases row)
     && int64 (Prediction.region_population row)
  then Ok (list_append store (db_row row))
  else Raise OverflowError.

(** ** The prediction routes *)

(** A value of the JSON body. *)
Inductive jvalue : Type :=
| JNull
| JBool (b : bool)
| JInt (n : Z)
| JFloat (f : float)
| JStr (s : string)
| JCompound.

(** The JSON body of [/api/predict], in the documented request shape:
    [None] is an absent key, and ["region"], when present, is [null]
    ([Some None]) or a string. *)
Record api_data : Type := {
  data_region : option (option string);
  data_fever_cases : option jvalue;
  data_cough_cases : option jvalue;
  data_diarrhea_cases : option jvalue;
  data_region_population : option jvalue
}.

(** [request.form] of [/predict]: every value is a string, [None] is an
    absent key. *)
Record form_data : Type := {
  form_region : option string;
  form_fever_cases : option string;
  form_cough_cases : option string;
  form_diarrhea_cases : option string;
  form_region_population : option string
}.

Inductive http_method : Type := GET | POST.

(** What a view function answers. *)
Inductive response (A : Type) : Type :=
| Success (a : A)                        (* status 200 *)
| Error (status : Z) (body : string)      (* an explicit error return *)
| ErrorOf (status : Z) (prefix : string) (e : exn)
                                          (* the body ends with [str(e)] *)
| Unhandled (e : exn).                    (* the exception leaves the view *)
Arguments Success {A} a.
Arguments Error {A} status body.
Arguments ErrorOf {A} status prefix e.
Arguments Unhandled {A} e.

(** The JSON answer of [/api/predict]. *)
Record api_result : Type := {
  res_prediction : Z;
  res_probability : float;
  res_risk_level : string;
  res_aqi_value : Z;
  res_aqi_category : string;
  res_hospitals : list hospital;
  res_suggestions : list string
}.

(** The template variables of [predict.html]. *)
Record predict_page : Type := {
  page_prediction : option Z;
  page_probability : option float;
  page_risk_level : option string;
  page_suggestions : list string;
  page_aqi_value : option Z;
  page_aqi_category : option string;
  page_hospitals : list hospital;
  page_region : option string
}.

(** [d[key]]. *)
Definition dict_item {V : Type} (v : option V) (key : string) : result V :=
  match v with
  | Some v => Ok v
  | None => Raise (KeyError key)
  end.

(** [f"{s}"] for a string or [None]. *)
Definition format_str (s : option string) : string :=
  match s with
  | Some s => s
  | None => "None"
  end.

Section Routes.

(** [float(s)] on a string: [None] stands for its [ValueError]. *)
Variable float_of_str : string -> option float.

(** [load_model()]: [None] when no model file exists, else the scorer
    [model.predict_proba(np.array([[a, b, c, d]]))[0][1]]. *)
Variable load_model : option (float -> float -> float -> float -> result float).

(** [current_user.id]. *)
Variable current_user_id : Z.

Definition float_of_string (s : string) : result float :=
  match float_of_str s with
  | Some f => Ok f
  | None => Raise ValueError
  end.

(** [float(v)] on a JSON value. *)
Definition py_float (v : jvalue) : result float :=
  match v with
  | JNull | JCompound => Raise TypeError
  | JBool b => Ok (if b then 1%float else 0%float)
  | JInt n => float_of_int n
  | JFloat f => Ok f
  | JStr s => float_of_string s
  end.

(** The [try] block of [api_predict], app.py lines 502-507. *)
Definition api_parse (data : api_data)
    : result (option string * features) :=
  let region :=
    match data_region data with
    | Some r => r
    | None => Some "Unknown"
    end in
  v <- dict_item (data_fever_cases data) "fever_cases" ;;
  fever_cases <- py_float v ;;
  v <- dict_item (data_cough_cases data) "cough_cases" ;;
  cough_cases <- py_float v ;;
  v <- dict_item (data_diarrhea_cases data) "diarrhea_cases" ;;
  diarrhea_cases <- py_float v ;;
  v <- dict_item (data_region_population data) "region_population" ;;
  region_population <- py_float v ;;
  Ok (region,
      {| fever_cases := fever_cases; cough_cases := cough_cases;
         diarrhea_cases := diarrhea_cases;
         region_population := region_population |}).

(** Lines 513-550 of [api_predict] and 432-471 of [predict]: scoring,
    tiering, lookups, synthesis and the construction of the row. *)
Definition assess
    (model : float -> float -> float -> float -> result float)
    (region : option string) (x : features)
    : result (Prediction.t * api_result) :=
  proba <- model (fever_cases x) (cough_cases x) (diarrhea_cases x)
             (region_population x) ;;
  let prediction_val := if (0.5 <? proba)%float then 1 else 0 in
  let risk_level := compute_risk_level proba in
  let probability_percent := py_round (proba * 100)%float 2 in
  let '(aqi_value, aqi_category) := get_region_aqi region in
  let hospitals := get_hospitals_for_region region in
  suggestions <-
    generate_recommendations risk_level (format_str region) x
      (Some aqi_value) aqi_category (Z.of_nat (List.length hospitals)) ;;
  fever_int <- py_int (fever_cases x) ;;
  cough_int <- py_int (cough_cases x) ;;
  diarrhea_int <- py_int (diarrhea_cases x) ;;
  population_int <- py_int (region_population x) ;;
  let pred_row :=
    {| Prediction.user_id := current_user_id;
       Prediction.region := region;
       Prediction.fever_cases := fever_int;
       Prediction.cough_cases := cough_int;
       Prediction.diarrhea_cases := diarrhea_int;
       Prediction.region_population := population_int;
       Prediction.prediction := prediction_val;
       Prediction.probability := Some probability_percent;
       Prediction.risk_level := risk_level;
       Prediction.aqi_value := aqi_value;
       Prediction.aqi_category := aqi_category |} in
  Ok (pred_row,
      {| res_prediction := prediction_val;
         res_probability := probability_percent;
         res_risk_level := risk_level;
         res_aqi_value := aqi_value;
         res_aqi_category := aqi_category;
         res_hospitals := hospitals;
         res_suggestions := suggestions |}).

(** [api_predict], app.py lines 491-566: the answer and the store after
    the request. *)
Definition api_predict (store : list Prediction.t) (data : api_data)
    : response api_result * list Prediction.t :=
  match load_model with
  | None => (Error 500 "Model not trained", store)
  | Some model =>
      match api_parse data with
      | Raise (KeyError k) =>
          (Error 400 ("Missing field: '" ++ k ++ "'"), store)
      | Raise ValueError => (Error 400 "Invalid numeric values", store)
      | Raise e => (Unhandled e, store)
      | Ok (region, x) =>
          match assess model region x with
          | Raise e => (Unhandled e, store)
          | Ok (pred_row, res) =>
              match db_add store pred_row with
              | Raise e => (Unhandled e, store)
              | Ok store' => (Success res, store')
              end
          end
      end
  end.

(** The reading of the form in [predict], app.py lines 424-430. *)
Definition form_parse (form : form_data) : result (string * features) :=
  let region :=
    match strip (match form_region form with Some r => r | None => EmptyString end)
    with
    | EmptyString => "Unknown"
    | r => r
    end in
  v <- dict_item (form_fever_cases form) "fever_cases" ;;
  fever_cases <- float_of_string v ;;
  v <- dict_item (form_cough_cases form) "cough_cases" ;;
  cough_cases <- float_of_string v ;;
  v <- dict_item (form_diarrhea_cases form) "diarrhea_cases" ;;
  diarrhea_cases <- float_of_string v ;;
  v <- dict_item (form_region_population form) "region_population" ;;
  region_population <- float_of_string v ;;
  Ok (region,
      {| fever_cases := fever_cases; cough_cases := cough_cases;
         diarrhea_cases := diarrhea_cases;
         region_population := region_population |}).

(** The [try] block of [predict] up to the construction of the row,
    app.py lines 423-471. *)
Definition form_assess
    (model : float -> float -> float -> float -> result float)
    (form : form_data) : result (Prediction.t * api_result) :=
  parsed <- form_parse form ;;
  let '(region, x) := parsed in
  assess model (Some region) x.

(** The whole [try] block, app.py lines 423-473: the row is added and
    committed inside it. *)
Definition form_submit
    (model : float -> float -> float -> float -> result float)
    (store : list Prediction.t) (form : form_data)
    : result (Prediction.t * api_result * list Prediction.t) :=
  assessed <- form_assess model form ;;
  let '(pred_row, res) := assessed in
  store' <- db_add store pred_row ;;
  Ok (pred_row, res, store').

(** [predict], app.py lines 405-488. *)
Definition predict (store : list Prediction.t) (method : http_method)
    (form : form_data) : response predict_page * list Prediction.t :=
  match load_model with
  | None =>
      (Error 500 "Model not trained yet. Please train model first.", store)
  | Some model =>
      match method with
      | GET =>
          (Success
             {| page_prediction := None; page_probability := None;
                page_risk_level := None; page_suggestions := [];
                page_aqi_value := None; page_aqi_category := None;
                page_hospitals := []; page_region := None |},
           store)
      | POST =>
          match form_submit model store form with
          | Raise e => (ErrorOf 400 "Error in prediction: " e, store)
          | Ok (pred_row, res, store') =>
              (Success
                 {| page_prediction := Some (res_prediction res);
                    page_probability := Some (res_probability res);
                    page_risk_level := Some (res_risk_level res);
                    page_suggestions := res_suggestions res;
                    page_aqi_value := Some (res_aqi_value res);
                    page_aqi_category := Some (res_aqi_category res);
                    page_hospitals := res_hospitals res;
                    page_region := Prediction.region pred_row |},
               store')
          end
      end
  end.

End Routes.

(** An instance of [float(s)] for the examples: it reads a string of
    decimal digits as the nearest float to that integer (infinity when it
    is out of range) and rejects every other string (the built-in accepts
    more spellings). *)
Fixpoint digits_value (s : string) (acc : Z) : option Z :=
  match s with
  | EmptyString => Some acc
  | String c r =>
      let n := Z.of_N (N_of_ascii c) in
      if (48 <=? n) && (n <=? 57) then digits_value r (10 * acc + (n - 48))
      else None
  end.

Definition float_of_digits (s : string) : option float :=
  match s with
  | EmptyString => None
  | _ =>
      match digits_value s 0 with
      | Some n => Some (SF2Prim (binary_normalize prec emax n 0 false))
      | None => None
      end
  end.

(** The first failure of the four numeric fields of a JSON body, read in
    the order fever, cough, diarrhea, population: a missing key is a
    [KeyError] naming it, a value [float()] refuses is that refusal. *)
Definition field_offence (float_of_str : string -> option float)
    (v : option jvalue) (key : string) : option exn :=
  match v with
  | None => Some (KeyError key)
  | Some j =>
      match py_float float_of_str j with
      | Ok _ => None
      | Raise e => Some e
      end
  end.

Definition first_offence (float_of_str : string -> option float)
    (data : api_data) : option exn :=
  match field_offence float_of_str (data_fever_cases data) "fever_cases" with
  | Some e => Some e
  | None =>
  match field_offence float_of_str (data_cough_cases data) "cough_cases" with
  | Some e => Some e
  | None =>
  match field_offence float_of_str (data_diarrhea_cases data)
          "diarrhea_cases" with
  | Some e => Some e
  | None =>
      field_offence float_of_str (data_region_population data)
        "region_population"
  end end end.

(** The same for the form, whose values are strings. *)
Definition form_field_offence (float_of_str : string -> option float)
    (v : option string) (key : string) : option exn :=
  match v with
  | None => Some (KeyError key)
  | Some s =>
      match float_of_str s with
      | Some _ => None
      | None => Some ValueError
      end
  end.

Definition form_first_offence (float_of_str : string -> option float)
    (form : form_data) : option exn :=
  match form_field_offence float_of_str (form_fever_cases form)
          "fever_cases" with
  | Some e => Some e
  | None =>
  match form_field_offence float_of_str (form_cough_cases form)
          "cough_cases" with
  | Some e => Some e
  | None =>
  match form_field_offence float_of_str (form_diarrhea_cases form)
          "diarrhea_cases" with
  | Some e => Some e
  | None =>
      form_field_offence float_of_str (form_region_population form)
        "region_population"
  end end end.

(** The body of a 400 answer of [/api/predict]. *)
Definition validation_message (e : exn) : string :=
  match e with
  | KeyError k => "Missing field: '" ++ k ++ "'"
  | _ => "Invalid numeric values"
  end.

(** All four features are zero or finite: [int()] accepts them. *)
Definition features_finite (x : features) : bool :=
  is_finite_float (fever_cases x) && is_finite_float (cough_cases x)
  && is_finite_float (diarrhea_cases x) && is_finite_float (region_population x).

(** The four truncated counts fit the INTEGER columns. *)
Definition count_int64 (v : float) : bool :=
  match py_int v with
  | Ok n => int64 n
  | Raise _ => false
  end.

Definition features_int64 (x : features) : bool :=
  count_int64 (fever_cases x) && count_int64 (cough_cases x)
  && count_int64 (diarrhea_cases x) && count_int64 (region_population x).

(** A scorer for the examples: it answers [p] whatever the features. *)
Definition constant_model (p : float)
    : float -> float -> float -> float -> result float :=
  fun _ _ _ _ => Ok p.

(** A JSON body with all five keys. *)
Definition json_body (region : string) (fever cough diarrhea population : jvalue)
    : api_data :=
  {| data_region := Some (Some region);
     data_fever_cases := Some fever;
     data_cough_cases := Some cough;
     data_diarrhea_cases := Some diarrhea;
     data_region_population := Some population |}.

(** A request to one of the two routes, by the user [uid]. *)
Inductive call : Type :=
| ApiPredict (uid : Z) (data : api_data)
| FormPredict (uid : Z) (method : http_method) (form : form_data).

(** The store after one request, and after a sequence of requests from
    the empty store. *)
Definition serve (float_of_str : string -> option float)
    (load_model : option (float -> float -> float -> float -> result float))
    (store : list Prediction.t) (c : call) : list Prediction.t :=
  match c with
  | ApiPredict uid data =>
      snd (api_predict float_of_str load_model uid store data)
  | FormPredict uid method form =>
      snd (predict float_of_str load_model uid store method form)
  end.

Definition serve_all (float_of_str : string -> option float)
    (load_model : option (float -> float -> float -> float -> result float))
    (calls : list call) : list Prediction.t :=
  fold_left (serve float_of_str load_model) calls [].

(** *** Rounding, as the specification words it

    [k] is the integer nearest to [n / d], for [d > 0]: within one half,
    and the even one when [n / d] lies halfway between two integers. *)
Definition nearest_integer (n d k : Z) : Prop :=
  2 * Z.abs (n - k * d) <= d /\
  (2 * Z.abs (n - k * d) = d -> Z.even k = true).

(** [y] is [x] rounded to [ndigits] decimal places: the exact value of a
    finite [x], which is [m * 2^e], lies nearest to the decimal
    [k / 10^ndigits], and [y] is the float nearest to that decimal (a zero
    with the sign of [x] when [k] is 0).  A zero, an infinity and NaN are
    their own roundings. *)
Definition rounded_to (ndigits : Z) (x y : float) : Prop :=
  match Prim2SF x with
  | S754_finite s m e =>
      exists k,
        nearest_integer (Zpos m * 10 ^ ndigits * 2 ^ Z.max e 0)
          (2 ^ Z.max (- e) 0) k /\
        y = match k with
            | Zpos k' => float_of_ratio s k' (Z.to_pos (10 ^ ndigits))
            | _ => if s then (-0)%float else 0%float
            end
  | _ => y = x
  end.

(** A row whose tier and flag agree. *)
Definition tier_consistent (row : Prediction.t) : Prop :=
  (Prediction.risk_level row = "High" -> Prediction.prediction row = 1) /\
  (Prediction.risk_level row = "Low" -> Prediction.prediction row = 0).

(** ** Dashboard aggregation *)

(** The inner dict [{"Low": 0, "Medium": 0, "High": 0}] of [region_stats]. *)
Record tier_counts : Type := {
  Low : Z;
  Medium : Z;
  High : Z
}.

Definition no_counts : tier_counts := {| Low := 0; Medium := 0; High := 0 |}.

(** [counts[level] += 1]: a level outside the three keys is a [KeyError]. *)
Definition count_level (counts : tier_counts) (level : string)
    : result tier_counts :=
  if (level =? "Low")%string then
    Ok {| Low := Low counts + 1; Medium := Medium counts; High := High counts |}
  else if (level =? "Medium")%string then
    Ok {| Low := Low counts; Medium := Medium counts + 1; High := High counts |}
  else if (level =? "High")%string then
    Ok {| Low := Low counts; Medium := Medium counts; High := High counts + 1 |}
  else Raise (KeyError level).

(** [region_stats[region][level] += 1] on the [defaultdict], kept in
    insertion order: a new region is added at the end. *)
Fixpoint stats_count (region_stats : list (string * tier_counts))
    (region level : string) : result (list (string * tier_counts)) :=
  match region_stats with
  | [] =>
      counts <- count_level no_counts level ;;
      Ok [(region, counts)]
  | (r, counts) :: rest =>
      if (r =? region)%string then
        counts' <- count_level counts level ;;
        Ok ((r, counts') :: rest)
      else
        rest' <- stats_count rest region level ;;
        Ok ((r, counts) :: rest')
  end.

(** The loop of app.py lines 358-360. *)
Fixpoint count_predictions (predictions : list Prediction.t)
    (region_stats : list (string * tier_counts))
    : result (list (string * tier_counts)) :=
  match predictions with
  | [] => Ok region_stats
  | p :: rest =>
      let region := str_or (Prediction.region p) "Unknown" in
      region_stats' <-
        stats_count region_stats region (Prediction.risk_level p) ;;
      count_predictions rest region_stats'
  end.

(** An entry of [region_summary]. *)
Record summary : Type := {
  region : string;
  total_predictions : Z;
  high_count : Z;
  high_percent : float
}.

(** The body of the loop of app.py lines 368-383, for one label and its
    counts. *)
Definition summarize (entry : string * tier_counts) : result summary :=
  let '(r, counts) := entry in
  let total := Low counts + Medium counts + High counts in
  let high := High counts in
  high_percent <-
    (if total >? 0 then
       q <- int_truediv high total ;;
       Ok (q * 100)%float
     else Ok 0%float) ;;
  Ok {| region := r;
        total_predictions := total;
        high_count := high;
        high_percent := py_round high_percent 1 |}.

Fixpoint map_result {A B : Type} (f : A -> result B) (l : list A)
    : result (list B) :=
  match l with
  | [] => Ok []
  | x :: rest =>
      y <- f x ;;
      rest' <- map_result f rest ;;
      Ok (y :: rest')
  end.

(** [lambda x: (-x["high_percent"], -x["total_predictions"])]. *)
Definition sort_key (x : summary) : float * Z :=
  ((- high_percent x)%float, - total_predictions x).

(** [a < b] on two such tuples: the first components decide unless they
    compare equal. *)
Definition key_lt (a b : float * Z) : bool :=
  if (fst a =? fst b)%float then snd a <? snd b
  else (fst a <? fst b)%float.

(** [list.sort(key=...)]: a stable sort that only asks [<] of the keys. *)
Fixpoint insert_by {A K : Type} (lt : K -> K -> bool) (key : A -> K)
    (x : A) (sorted : list A) : list A :=
  match sorted with
  | [] => [x]
  | y :: rest =>
      if lt (key y) (key x) then y :: insert_by lt key x rest
      else x :: y :: rest
  end.

Fixpoint sort_by {A K : Type} (lt : K -> K -> bool) (key : A -> K)
    (l : list A) : list A :=
  match l with
  | [] => []
  | x :: rest => insert_by lt key x (sort_by lt key rest)
  end.

(** The region aggregation of [dashboard], app.py lines 357-385, over the
    rows of one user. *)
Definition region_summary (predictions : list Prediction.t)
    : result (list summary) :=
  region_stats <- count_predictions predictions [] ;;
  region_summary <- map_result summarize region_stats ;;
  Ok (sort_by key_lt sort_key region_summary).

(** The template variables of [dashboard.html]. *)
Record dashboard_page : Type := {
  page_labels : list string;
  page_low_counts : list Z;
  page_medium_counts : list Z;
  page_high_counts : list Z;
  page_recent_predictions : list Prediction.t;
  page_region_summary : list summary
}.

(** [dashboard], app.py lines 351-402; the query returns the user's rows
    in insertion order. *)
Definition dashboard (current_user_id : Z) (store : list Prediction.t)
    : result dashboard_page :=
  let predictions :=
    filter (fun p => Prediction.user_id p =? current_user_id) store in
  region_stats <- count_predictions predictions [] ;;
  let labels := map fst region_stats in
  let low_counts := map (fun e => Low (snd e)) region_stats in
  let medium_counts := map (fun e => Medium (snd e)) region_stats in
  let high_counts := map (fun e => High (snd e)) region_stats in
  region_summary <- map_result summarize region_stats ;;
  let region_summary := sort_by key_lt sort_key region_summary in
  let recent_predictions := firstn 20 (rev predictions) in
  Ok {| page_labels := labels;
        page_low_counts := low_counts;
        page_medium_counts := medium_counts;
        page_high_counts := high_counts;
        page_recent_predictions := recent_predictions;
        page_region_summary := region_summary |}.

(** The region a row is grouped under. *)
Definition label (p : Prediction.t) : string :=
  str_or (Prediction.region p) "Unknown".

(** The tier of a row is one of the three the pipeline writes. *)
Definition valid_tier (p : Prediction.t) : bool :=
  ((Prediction.risk_level p =? "Low") || (Prediction.risk_level p =? "Medium")
   || (Prediction.risk_level p =? "High"))%string.

(** How many rows are grouped under [r], and how many of them are High. *)
Definition region_total (r : string) (predictions : list Prediction.t) : Z :=
  Z.of_nat (List.length (filter (fun p => (label p =? r)%string) predictions)).

Definition region_high (r : string) (predictions : list Prediction.t) : Z :=
  Z.of_nat
    (List.length
       (filter (fun p => ((label p =? r) && (Prediction.risk_level p =? "High"))%string)
          predictions)).

(** The percentage the dashboard shows: [(high / total) * 100] rounded to
    one decimal, [0.0] when there is no row. *)
Definition rounded_percent (high total : Z) : result float :=
  if total >? 0 then
    q <- int_truediv high total ;;
    Ok (py_round (q * 100)%float 1)
  else Ok 0%float.

(** The regions of a list of rows, each once, in order of first
    appearance. *)
Fixpoint distinct_labels (seen : list string) (predictions : list Prediction.t)
    : list string :=
  match predictions with
  | [] => seen
  | p :: rest =>
      if existsb (String.eqb (label p)) seen then distinct_labels seen rest
      else distinct_labels (seen ++ [label p]) rest
  end.

(** [a] may stand before [b] on the dashboard: a greater rounded
    percentage, or the same and at least as many rows. *)
Definition summary_before (a b : summary) : Prop :=
  (high_percent b <? high_percent a)%float = true
  \/ ((high_percent a =? high_percent b)%float = true
      /\ total_predictions b <= total_predictions a).

(** [a] and [b] have the same rounded percentage and the same total. *)
Definition same_rank (a b : summary) : bool :=
  (high_percent a =? high_percent b)%float
  && (total_predictions a =? total_predictions b).

(** What one summary says of the rows [predictions]. *)
Definition summary_ok (predictions : list Prediction.t) (s : summary) : Prop :=
  total_predictions s = region_total (region s) predictions /\
  high_count s = region_high (region s) predictions /\
  rounded_percent (high_count s) (total_predictions s) = Ok (high_percent s).

(** Rows for the examples: only the region and the tier matter to the
    aggregation. *)
Definition example_row (region level : string) : Prediction.t :=
  {| Prediction.user_id := 1;
     Prediction.region := Some region;
     Prediction.fever_cases := 0;
     Prediction.cough_cases := 0;
     Prediction.diarrhea_cases := 0;
     Prediction.region_population := 1;
     Prediction.prediction := if (level =? "High")%string then 1 else 0;
     Prediction.probability := Some 0%float;
     Prediction.risk_level := level;
     Prediction.aqi_value := 90;
     Prediction.aqi_category := "Satisfactory" |}.

Definition two_regions : list Prediction.t :=
  (repeat (example_row "A" "High") 23 ++ repeat (example_row "A" "Low") 5
   ++ repeat (example_row "B" "High") 32 ++ repeat (example_row "B" "Low") 7)%list.

(** ** Notions used by the proofs *)

(** On floats other than NaN, comparison is the lexicographic order of
    this triple: class (negative infinity, negative, zero, positive,
    positive infinity), then exponent, then mantissa. *)
Definition SFrank (x : spec_float) : Z * Z * Z :=
  match x with
  | S754_nan => (0, 0, 0)
  | S754_zero _ => (0, 0, 0)
  | S754_infinity true => (-2, 0, 0)
  | S754_infinity false => (2, 0, 0)
  | S754_finite true m e => (-1, - e, Zneg m)
  | S754_finite false m e => (1, e, Zpos m)
  end.

Definition lex3 (a b : Z * Z * Z) : comparison :=
  let '(a1, a2, a3) := a in
  let '(b1, b2, b3) := b in
  match a1 ?= b1 with
  | Eq => match a2 ?= b2 with
          | Eq => a3 ?= b3
          | c => c
          end
  | c => c
  end.

Definition fcompare (x y : float) : option comparison :=
  SFcompare (Prim2SF x) (Prim2SF y).

(** The keys whose percentage is a number. *)
Definition key_good (k : float * Z) : Prop := is_number (fst k) = true.

(** The counts of one entry agree with the rows [seen] so far. *)
Definition entry_ok (seen : list Prediction.t) (e : string * tier_counts) : Prop :=
  High (snd e) = region_high (fst e) seen /\
  Low (snd e) + Medium (snd e) + High (snd e) = region_total (fst e) seen.

(** [a] may stand before [b] in a list sorted by [key]: [b] is not less. *)
Definition not_after {A K : Type} (lt : K -> K -> bool) (key : A -> K)
    (a b : A) : Prop :=
  lt (key b) (key a) = false.

(** ** Accounts

    A row of the [User] table, app.py lines 34-46.  The primary key is
    assigned by the database: one more than the number of rows, as no row
    is ever deleted. *)
Module User.
Record t : Type := {
  id : Z;
  name : string;
  email : string;
  password_hash : string
}.
End User.

(** [request.form] of the two account pages; [None] is an absent key. *)
Record account_form : Type := {
  form_name : option string;
  form_email : option string;
  form_password : option string
}.

(** The table of users and the user id the session cookie carries. *)
Record accounts : Type := {
  users : list User.t;
  session : option Z
}.

(** What an account view answers: a redirect to an endpoint or a rendered
    template, and the messages it flashed (text, category). *)
Inductive view : Type :=
| Redirect (endpoint : string)
| Render (template : string).

Record answer : Type := {
  body : view;
  flashed : list (string * string)
}.

(** [form.get(key, "")]. *)
Definition form_get (v : option string) : string :=
  match v with
  | Some s => s
  | None => EmptyString
  end.

(** [not s] on a string. *)
Definition str_not (s : string) : bool :=
  match s with
  | EmptyString => true
  | _ => false
  end.

(** [load_user], app.py lines 67-69: [User.query.get(user_id)]. *)
Definition load_user (users : list User.t) (user_id : Z) : option User.t :=
  find (fun u => User.id u =? user_id) users.

(** [current_user]: the user the session names, if it exists. *)
Definition current_user (db : accounts) : option User.t :=
  match session db with
  | Some user_id => load_user (users db) user_id
  | None => None
  end.

Definition is_authenticated (db : accounts) : bool :=
  match current_user db with
  | Some _ => true
  | None => false
  end.

(** [User.query.filter_by(email=email).first()]. *)
Definition user_by_email (users : list User.t) (email : string)
    : option User.t :=
  find (fun u => (User.email u =? email)%string) users.

Section Accounts.

(** [werkzeug.security]: [generate_password_hash] draws a salt, which is an
    argument here; [check_password_hash] takes the stored hash and the
    candidate password. *)
Variable generate_password_hash : string -> string -> string.
Variable check_password_hash : string -> string -> bool.

(** [User.set_password], app.py lines 42-43. *)
Definition set_password (user : User.t) (password salt : string) : User.t :=
  {| User.id := User.id user;
     User.name := User.name user;
     User.email := User.email user;
     User.password_hash := generate_password_hash password salt |}.

(** [User.check_password], app.py lines 45-46. *)
Definition check_password (user : User.t) (password : string) : bool :=
  check_password_hash (User.password_hash user) password.

(** [register], app.py lines 261-288; [salt] is the salt drawn by
    [set_password]. *)
Definition register (db : accounts) (method : http_method)
    (form : account_form) (salt : string) : answer * accounts :=
  if is_authenticated db then
    ({| body := Redirect "index"; flashed := [] |}, db)
  else
    match method with
    | POST =>
        let name := strip (form_get (form_name form)) in
        let email := lower (strip (form_get (form_email form))) in
        let password := form_get (form_password form) in
        if str_not email || str_not password then
          ({| body := Redirect "register";
              flashed := [("Email and password are required.", "danger")] |},
           db)
        else
          match user_by_email (users db) email with
          | Some existing =>
              ({| body := Redirect "login";
                  flashed :=
                    [("Email is already registered. Please login.",
                      "warning")] |},
               db)
          | None =>
              let user :=
                {| User.id := Z.of_nat (List.length (users db)) + 1;
                   User.name := str_or (Some name) email;
                   User.email := email;
                   User.password_hash := EmptyString |} in
              let user := set_password user password salt in
              ({| body := Redirect "login";
                  flashed :=
                    [("Registration successful. Please login.", "success")] |},
               {| users := list_append (users db) user;
                  session := session db |})
          end
    | GET => ({| body := Render "register.html"; flashed := [] |}, db)
    end.

(** [login], app.py lines 291-309. *)
Definition login (db : accounts) (method : http_method) (form : account_form)
    : answer * accounts :=
  if is_authenticated db then
    ({| body := Redirect "index"; flashed := [] |}, db)
  else
    match method with
    | POST =>
        let email := lower (strip (form_get (form_email form))) in
        let password := form_get (form_password form) in
        match user_by_email (users db) email with
        | Some user =>
            if check_password user password then
              ({| body := Redirect "index";
                  flashed := [("Logged in successfully.", "success")] |},
               {| users := users db; session := Some (User.id user) |})
            else
              ({| body := Redirect "login";
                  flashed := [("Invalid email or password.", "danger")] |},
               db)
        | None =>
            ({| body := Redirect "login";
                flashed := [("Invalid email or password.", "danger")] |},
             db)
        end
    | GET => ({| body := Render "login.html"; flashed := [] |}, db)
    end.

(** [logout], app.py lines 312-317.  For an anonymous visitor
    [login_required] answers with the login manager's redirect to
    [login_view] and its default message. *)
Definition logout (db : accounts) : answer * accounts :=
  if is_authenticated db then
    ({| body := Redirect "login";
        flashed := [("You have been logged out.", "info")] |},
     {| users := users db; session := None |})
  else
    ({| body := Redirect "login";
        flashed := [("Please log in to access this page.", "message")] |},
     db).

End Accounts.

(** A request to one of the account routes. *)
Inductive account_call : Type :=
| Register (method : http_method) (form : account_form) (salt : string)
| Login (method : http_method) (form : account_form)
| Logout.

Definition account_step (generate_password_hash : string -> string -> string)
    (check_password_hash : string -> string -> bool)
    (db : accounts) (c : account_call) : accounts :=
  match c with
  | Register method form salt =>
      snd (register generate_password_hash db method form salt)
  | Login method form => snd (login check_password_hash db method form)
  | Logout => snd (logout db)
  end.

Definition no_accounts : accounts := {| users := []; session := None |}.

(** The table the invariants speak of: the ids are the positions, and the
    emails are distinct, non-empty and in normal form. *)
Definition users_ok (us : list User.t) : Prop :=
  NoDup (map User.email us) /\
  (forall i u, nth_error us i = Some u -> User.id u = Z.of_nat i + 1) /\
  Forall (fun u => User.email u <> EmptyString
                   /\ normalize (User.email u) = User.email u) us.

(** ** The overview page *)

(** The template variables of [index.html]. *)
Record index_page : Type := {
  index_total_predictions : Z;
  index_high_risk_count : Z;
  index_region_count : Z;
  index_recent_predictions : list Prediction.t
}.

Inductive index_view : Type :=
| Landing
| Overview (page : index_page).

(** Equality of two values of the [region] column; [NULL] is [None]. *)
Definition region_eqb (a b : option string) : bool :=
  match a, b with
  | None, None => true
  | Some x, Some y => (x =? y)%string
  | _, _ => false
  end.

(** [SELECT DISTINCT]: every value once, [NULL] being a value. *)
Fixpoint distinct (l : list (option string)) : list (option string) :=
  match l with
  | [] => []
  | x :: rest =>
      if existsb (region_eqb x) rest then distinct rest
      else x :: distinct rest
  end.

(** [index], app.py lines 321-348. *)
Definition index (current_user : option User.t) (store : list Prediction.t)
    : index_view :=
  match current_user with
  | None => Landing
  | Some user =>
      let base_query :=
        filter (fun p => Prediction.user_id p =? User.id user) store in
      let total_predictions := Z.of_nat (List.length base_query) in
      let high_risk_count :=
        Z.of_nat
          (List.length
             (filter (fun p => (Prediction.risk_level p =? "High")%string)
                base_query)) in
      let region_count :=
        Z.of_nat (List.length (distinct (map Prediction.region base_query))) in
      let recent_predictions := firstn 5 (rev base_query) in
      Overview
        {| index_total_predictions := total_predictions;
           index_high_risk_count := high_risk_count;
           index_region_count := region_count;
           index_recent_predictions := recent_predictions |}
  end.

(** ** Further notions of the statements *)

(** The three tiers in their order. *)
Definition tier_rank (risk_level : string) : Z :=
  if (risk_level =? "Low")%string then 0
  else if (risk_level =? "Medium")%string then 1
  else 2.

(** How many rows grouped under [r] have the tier [level]. *)
Definition region_level (r level : string) (predictions : list Prediction.t)
    : Z :=
  Z.of_nat
    (List.length
       (filter
          (fun p => ((label p =? r) && (Prediction.risk_level p =? level))%string)
          predictions)).

Definition sum_Z (l : list Z) : Z := fold_right Z.add 0 l.

(** The rows of one user, as the queries of the two pages select them. *)
Definition rows_of (user_id : Z) (store : list Prediction.t)
    : list Prediction.t :=
  filter (fun p => Prediction.user_id p =? user_id) store.

(** The user a request to a prediction route comes from. *)
Definition caller (c : call) : Z :=
  match c with
  | ApiPredict uid _ => uid
  | FormPredict uid _ _ => uid
  end.

(** The air-quality stage for a value that may be [None]. *)
Definition air_stage (region aqi_category : string) (aqi_value : option Z)
    : list string :=
  match aqi_value with
  | Some aqi => [air_directive region aqi_category aqi]
  | None => []
  end.

(** The counts of one entry agree with the rows [seen], tier by tier. *)
Definition entry_levels (seen : list Prediction.t) (e : string * tier_counts)
    : Prop :=
  Low (snd e) = region_level (fst e) "Low" seen /\
  Medium (snd e) = region_level (fst e) "Medium" seen /\
  High (snd e) = region_level (fst e) "High" seen.

(** * Examples *)

Example round_2675 : py_round 2.675 2 = 2.67%float.
Proof. reflexivity. Qed.

Example round_tie_even : py_round 0.125 2 = 0.12%float.
Proof. reflexivity. Qed.

Example round_57 : py_round (0.57 * 100) 2 = 57%float.
Proof. reflexivity. Qed.

Example int_trunc : py_int (-3.99) = Ok (-3).
Proof. reflexivity. Qed.

Example truediv_third : int_truediv 1 3 = Ok 0.3333333333333333%float.
Proof. reflexivity. Qed.

Example truediv_large :
  int_truediv (2 ^ 70 + 1) (-3) = Ok (-3.935305402391371e+20)%float.
Proof. reflexivity. Qed.

Example strip_lower : lower (strip "  SuRat	 ") = "surat".
Proof. reflexivity. Qed.

Example str_of_int_neg : str_of_int (-15) = "-15".
Proof. reflexivity. Qed.

Example tier_boundaries :
  map compute_risk_level [0.2999; 0.30; 0.6999; 0.70; 1.0; 0.0]%float
  = ["Low"; "Medium"; "Medium"; "High"; "High"; "Low"].
Proof. reflexivity. Qed.

Example recommendations_surat :
  generate_recommendations "High" "Surat"
    {| fever_cases := 50; cough_cases := 10; diarrhea_cases := 5;
       region_population := 10000 |} (Some 130) "Moderate" 2
  = Ok
      ["Immediately alert public health authorities for Surat and activate outbreak response protocols.";
       "Escalate testing capacity and prepare isolation facilities for high-risk patients.";
       "Investigate clusters of fever in schools, hostels and workplaces; run fever screening camps.";
       "Air quality in Surat is Moderate (AQI 130). Consider public advisories for people with asthma and heart disease.";
       "Limited hospital coverage (2 known facilities). Prepare referral pathways to nearby districts.";
       "Standardize daily data reporting (same time, same fields) to improve model reliability and early warning accuracy."].
Proof. reflexivity. Qed.

Example float_of_digits_130 : float_of_digits "130" = Some 130%float.
Proof. reflexivity. Qed.

Example float_of_digits_abc : float_of_digits "abc" = None.
Proof. reflexivity. Qed.

(** The end-to-end scenarios of the specification, with a scorer that
    answers 0.82. *)
Example scenario_surat :
  exists res row,
    api_predict float_of_digits (Some (constant_model 0.82)) 7 []
      (json_body "Surat" (JInt 50) (JInt 10) (JInt 5) (JInt 10000))
    = (Success res, [row])
    /\ res_prediction res = 1
    /\ res_probability res = 82%float
    /\ res_risk_level res = "High"
    /\ res_aqi_value res = 130
    /\ res_aqi_category res = "Moderate"
    /\ List.length (res_hospitals res) = 2%nat
    /\ List.length (res_suggestions res) = 6%nat
    /\ In fever_item (res_suggestions res)
    /\ Prediction.region row = Some "Surat"
    /\ Prediction.region_population row = 10000.
Proof.
  eexists. eexists. split; [vm_compute; reflexivity|].
  cbn. repeat split; auto.
Qed.

Example scenario_unmapped_region :
  exists res row,
    api_predict float_of_digits (Some (constant_model 0.82)) 7 []
      (json_body "Nowhereville" (JInt 50) (JInt 10) (JInt 5) (JInt 10000))
    = (Success res, [row])
    /\ res_aqi_value res = 90
    /\ res_aqi_category res = "Satisfactory"
    /\ res_hospitals res = []
    /\ In (facility_directive "High" 0) (res_suggestions res).
Proof.
  eexists. eexists. split; [vm_compute; reflexivity|].
  cbn. repeat split; auto 10.
Qed.

Example scenario_form :
  exists page row,
    predict float_of_digits (Some (constant_model 0.82)) 7 [] POST
      {| form_region := Some "  Surat ";
         form_fever_cases := Some "50";
         form_cough_cases := Some "10";
         form_diarrhea_cases := Some "5";
         form_region_population := Some "10000" |}
    = (Success page, [row])
    /\ page_prediction page = Some 1
    /\ page_region page = Some "Surat"
    /\ page_aqi_value page = Some 130.
Proof.
  eexists. eexists. split; [vm_compute; reflexivity|].
  cbn. repeat split.
Qed.

Example scenario_null_field :
  api_predict float_of_digits (Some (constant_model 0.82)) 7 []
    (json_body "Surat" JNull (JInt 10) (JInt 5) (JInt 10000))
  = (Unhandled TypeError, []).
Proof. reflexivity. Qed.

Example scenario_nan_count :
  api_predict float_of_digits (Some (constant_model 0.82)) 7 []
    (json_body "Surat" (JFloat nan) (JInt 10) (JInt 5) (JInt 10000))
  = (Unhandled ValueError, []).
Proof. reflexivity. Qed.

Example sort_is_stable :
  sort_by Z.ltb fst [(2, "a"); (1, "b"); (2, "c"); (1, "d")]
  = [(1, "b"); (1, "d"); (2, "a"); (2, "c")].
Proof. reflexivity. Qed.

(** A count of [2^63] does not fit the INTEGER column: the commit is
    refused, the API lets the [OverflowError] escape, the form route
    answers 400, and nothing is stored. *)
Example scenario_count_overflow :
  api_predict float_of_digits (Some (constant_model 0.82)) 7 []
    (json_body "Surat" (JInt (2 ^ 63)) (JInt 10) (JInt 5) (JInt 10000))
  = (Unhandled OverflowError, [])
  /\ predict float_of_digits (Some (constant_model 0.82)) 7 [] POST
       {| form_region := Some "Surat";
          form_fever_cases := Some "9223372036854775808";
          form_cough_cases := Some "10"; form_diarrhea_cases := Some "5";
          form_region_population := Some "10000" |}
     = (ErrorOf 400 "Error in prediction: " OverflowError, []).
Proof. split; vm_compute; reflexivity. Qed.

(** A NaN score is answered as NaN and stored as NULL. *)
Example scenario_nan_score :
  exists res row,
    api_predict float_of_digits (Some (constant_model nan)) 7 []
      (json_body "Surat" (JInt 50) (JInt 10) (JInt 5) (JInt 10000))
    = (Success res, [row])
    /\ is_number (res_probability res) = false
    /\ Prediction.probability row = None.
Proof.
  eexists. eexists. split; [vm_compute; reflexivity|]. split; reflexivity.
Qed.

(** * Facts about binary64

    ** Comparison *)

Lemma lex3_antisym a b : lex3 b a = CompOpp (lex3 a b).
Proof.
  destruct a as [[a1 a2] a3], b as [[b1 b2] b3]; simpl.
  rewrite (Z.compare_antisym a1 b1), (Z.compare_antisym a2 b2), (Z.compare_antisym a3 b3).
  destruct (a1 ?= b1), (a2 ?= b2), (a3 ?= b3); reflexivity.
Qed.

Lemma lex3_eq a b : lex3 a b = Eq <-> a = b.
Proof.
  destruct a as [[a1 a2] a3], b as [[b1 b2] b3]; simpl.
  destruct (Z.compare_spec a1 b1); [|split; [discriminate | intros [=]; lia] ..].
  destruct (Z.compare_spec a2 b2); [|split; [discriminate | intros [=]; lia] ..].
  destruct (Z.compare_spec a3 b3); [|split; [discriminate | intros [=]; lia] ..].
  subst; tauto.
Qed.

Lemma lex3_lt a b :
  lex3 a b = Lt <->
  let '(a1, a2, a3) := a in
  let '(b1, b2, b3) := b in
  a1 < b1 \/ (a1 = b1 /\ (a2 < b2 \/ (a2 = b2 /\ a3 < b3))).
Proof.
  destruct a as [[a1 a2] a3], b as [[b1 b2] b3]; simpl.
  destruct (Z.compare_spec a1 b1) as [E1|E1|E1];
    [ destruct (Z.compare_spec a2 b2) as [E2|E2|E2];
      [ rewrite Z.compare_lt_iff | | ] | | ];
    (split; [ try discriminate; intros; lia | intros; try reflexivity; lia ]).
Qed.

Lemma lex3_trans a b c : lex3 a b = Lt -> lex3 b c = Lt -> lex3 a c = Lt.
Proof.
  rewrite !lex3_lt.
  destruct a as [[a1 a2] a3], b as [[b1 b2] b3], c as [[c1 c2] c3]. lia.
Qed.

Lemma SFcompare_rank x y :
  x <> S754_nan -> y <> S754_nan ->
  SFcompare x y = Some (lex3 (SFrank x) (SFrank y)).
Proof.
  intros Hx Hy.
  destruct x as [[|]|[|]| |[|] mx ex], y as [[|]|[|]| |[|] my ey];
    try congruence; try reflexivity; simpl.
  rewrite Z.compare_opp, (Z.compare_antisym ex ey).
  destruct (ex ?= ey); reflexivity.
Qed.

Lemma is_number_spec x : is_number x = true <-> Prim2SF x <> S754_nan.
Proof.
  unfold is_number. rewrite eqb_spec. unfold SFeqb.
  destruct (Prim2SF x) eqn:E.
  1,2,4: rewrite SFcompare_rank by discriminate;
    rewrite (proj2 (lex3_eq _ _) eq_refl); split; [discriminate | reflexivity].
  simpl. split; [discriminate | congruence].
Qed.

Lemma fcompare_number x y :
  is_number x = true -> is_number y = true ->
  fcompare x y = Some (lex3 (SFrank (Prim2SF x)) (SFrank (Prim2SF y))).
Proof.
  rewrite !is_number_spec. apply SFcompare_rank.
Qed.

Lemma fcompare_some_number x y c :
  fcompare x y = Some c -> is_number x = true /\ is_number y = true.
Proof.
  unfold fcompare. rewrite !is_number_spec. intros H.
  split; intros E; rewrite E in H; [|destruct (Prim2SF x)]; discriminate.
Qed.

Lemma ltb_fcompare x y : (x <? y)%float = true <-> fcompare x y = Some Lt.
Proof.
  rewrite ltb_spec. unfold SFltb, fcompare.
  destruct (SFcompare _ _) as [[| |]|]; split; congruence.
Qed.

Lemma leb_fcompare x y :
  (x <=? y)%float = true <-> fcompare x y = Some Lt \/ fcompare x y = Some Eq.
Proof.
  rewrite leb_spec. unfold SFleb, fcompare.
  destruct (SFcompare _ _) as [[| |]|]; split; intros; try tauto; try congruence.
  all: destruct H; congruence.
Qed.

Lemma eqb_fcompare x y : (x =? y)%float = true <-> fcompare x y = Some Eq.
Proof.
  rewrite eqb_spec. unfold SFeqb, fcompare.
  destruct (SFcompare _ _) as [[| |]|]; split; congruence.
Qed.

Lemma fcompare_antisym x y c :
  fcompare x y = Some c -> fcompare y x = Some (CompOpp c).
Proof.
  intros H. destruct (fcompare_some_number _ _ _ H) as [Hx Hy].
  rewrite fcompare_number in * by assumption.
  rewrite lex3_antisym. congruence.
Qed.

Lemma fcompare_lt_trans x y z :
  fcompare x y = Some Lt -> fcompare y z = Some Lt -> fcompare x z = Some Lt.
Proof.
  intros H1 H2.
  destruct (fcompare_some_number _ _ _ H1) as [Hx Hy].
  destruct (fcompare_some_number _ _ _ H2) as [_ Hz].
  rewrite fcompare_number in * by assumption.
  f_equal. apply lex3_trans with (SFrank (Prim2SF y)); congruence.
Qed.

Lemma fcompare_eq_l x y z c :
  fcompare x y = Some Eq -> fcompare y z = Some c -> fcompare x z = Some c.
Proof.
  intros H1 H2.
  destruct (fcompare_some_number _ _ _ H1) as [Hx Hy].
  destruct (fcompare_some_number _ _ _ H2) as [_ Hz].
  rewrite fcompare_number in * by assumption.
  injection H1 as H1. apply lex3_eq in H1. rewrite H1. exact H2.
Qed.

Lemma fcompare_eq_r x y z c :
  fcompare x y = Some c -> fcompare y z = Some Eq -> fcompare x z = Some c.
Proof.
  intros H1 H2.
  destruct (fcompare_some_number _ _ _ H1) as [Hx Hy].
  destruct (fcompare_some_number _ _ _ H2) as [_ Hz].
  rewrite fcompare_number in * by assumption.
  injection H2 as H2. apply lex3_eq in H2. rewrite <- H2. exact H1.
Qed.

Lemma fcompare_total x y :
  is_number x = true -> is_number y = true -> exists c, fcompare x y = Some c.
Proof. intros Hx Hy. rewrite fcompare_number by assumption. eauto. Qed.

Lemma leb_number x y :
  (x <=? y)%float = true -> is_number x = true /\ is_number y = true.
Proof.
  rewrite leb_fcompare. intros [H|H]; exact (fcompare_some_number _ _ _ H).
Qed.

Lemma ltb_number x y :
  (x <? y)%float = true -> is_number x = true /\ is_number y = true.
Proof. rewrite ltb_fcompare. apply fcompare_some_number. Qed.

Lemma ltb_false_leb x y :
  is_number x = true -> is_number y = true ->
  (x <? y)%float = false -> (y <=? x)%float = true.
Proof.
  intros Hx Hy H. apply leb_fcompare.
  destruct (fcompare_total x y Hx Hy) as [c Hc].
  pose proof (fcompare_antisym _ _ _ Hc) as Hc'.
  destruct c; simpl in Hc'; auto.
  apply ltb_fcompare in Hc. congruence.
Qed.

Lemma leb_ltb_false x y : (y <=? x)%float = true -> (x <? y)%float = false.
Proof.
  rewrite leb_fcompare. intros H.
  destruct (x <? y)%float eqn:E; [|reflexivity].
  apply ltb_fcompare, fcompare_antisym in E. simpl in E.
  destruct H; congruence.
Qed.

Lemma ltb_leb_trans x y z :
  (x <? y)%float = true -> (y <=? z)%float = true -> (x <? z)%float = true.
Proof.
  rewrite !ltb_fcompare, leb_fcompare. intros H [H'|H'].
  - eapply fcompare_lt_trans; eassumption.
  - eapply fcompare_eq_r; eassumption.
Qed.

Lemma leb_ltb_trans x y z :
  (x <=? y)%float = true -> (y <? z)%float = true -> (x <? z)%float = true.
Proof.
  rewrite !ltb_fcompare, leb_fcompare. intros [H|H] H'.
  - eapply fcompare_lt_trans; eassumption.
  - eapply fcompare_eq_l; eassumption.
Qed.

Lemma leb_trans x y z :
  (x <=? y)%float = true -> (y <=? z)%float = true -> (x <=? z)%float = true.
Proof.
  rewrite !leb_fcompare. intros [H|H] [H'|H'].
  - left. eapply fcompare_lt_trans; eassumption.
  - left. eapply fcompare_eq_r; eassumption.
  - left. eapply fcompare_eq_l; eassumption.
  - right. eapply fcompare_eq_l; eassumption.
Qed.

Lemma ltb_asym x y : (x <? y)%float = true -> (y <? x)%float = false.
Proof.
  intros H. apply leb_ltb_false. apply leb_fcompare. left. now apply ltb_fcompare.
Qed.


Lemma leb_ltb_false_conv x y : (x <? y)%float = true -> (y <=? x)%float = false.
Proof.
  intros H. destruct (y <=? x)%float eqn:E; [|reflexivity].
  apply leb_ltb_false in E. congruence.
Qed.

Lemma leb_false_ltb x y :
  is_number x = true -> is_number y = true ->
  (x <=? y)%float = false -> (y <? x)%float = true.
Proof.
  intros Hx Hy H. destruct (y <? x)%float eqn:E; [reflexivity|].
  apply (ltb_false_leb y x Hy Hx) in E. congruence.
Qed.

Lemma ltb_leb x y : (x <? y)%float = true -> (x <=? y)%float = true.
Proof. rewrite ltb_fcompare, leb_fcompare. auto. Qed.

Lemma ltb_trans x y z :
  (x <? y)%float = true -> (y <? z)%float = true -> (x <? z)%float = true.
Proof. intros H1 H2. apply (ltb_leb_trans x y z H1), ltb_leb, H2. Qed.

(** ** Operations that never produce NaN *)

Lemma shr_1_nonneg mrs : 0 <= shr_m mrs -> 0 <= shr_m (shr_1 mrs).
Proof.
  destruct mrs as [m r s]; simpl.
  destruct m as [|[p|p|]|[p|p|]]; simpl; lia.
Qed.

Lemma iter_pos_shr_1_nonneg p mrs :
  0 <= shr_m mrs -> 0 <= shr_m (iter_pos shr_1 p mrs).
Proof.
  revert mrs. induction p as [p IH|p IH|]; intros mrs H; simpl.
  - apply IH, IH, shr_1_nonneg, H.
  - apply IH, IH, H.
  - apply shr_1_nonneg, H.
Qed.

Lemma shr_fexp_nonneg m e l :
  0 <= m -> 0 <= shr_m (fst (shr_fexp prec emax m e l)).
Proof.
  intros H. unfold shr_fexp, shr.
  assert (H0 : 0 <= shr_m (shr_record_of_loc m l))
    by (destruct l as [|[| |]]; exact H).
  destruct (fexp prec emax (Zdigits2 m + e) - e); simpl; auto.
  apply iter_pos_shr_1_nonneg, H0.
Qed.

Lemma round_nearest_even_nonneg m l : 0 <= m -> 0 <= round_nearest_even m l.
Proof.
  intros H. destruct l as [|[| |]]; simpl; try lia.
  destruct (Z.even m); lia.
Qed.

Lemma binary_round_aux_not_nan s m e l :
  0 <= m -> binary_round_aux prec emax s m e l <> S754_nan.
Proof.
  intros H. unfold binary_round_aux.
  pose proof (shr_fexp_nonneg m e l H) as H1.
  destruct (shr_fexp prec emax m e l) as [mrs' e'].
  simpl in H1.
  pose proof (shr_fexp_nonneg _ e' loc_Exact
                (round_nearest_even_nonneg _ (loc_of_shr_record mrs') H1)) as H2.
  destruct (shr_fexp prec emax _ e' loc_Exact) as [mrs'' e''].
  simpl in H2.
  destruct (shr_m mrs''); try discriminate; [|lia].
  destruct (e'' <=? emax - prec); discriminate.
Qed.

Lemma binary_round_not_nan s m e : binary_round prec emax s m e <> S754_nan.
Proof.
  unfold binary_round.
  destruct (shl_align m e _) as [mz ez].
  apply binary_round_aux_not_nan. lia.
Qed.

Lemma binary_normalize_not_nan m e sz :
  binary_normalize prec emax m e sz <> S754_nan.
Proof.
  destruct m; simpl; try discriminate; apply binary_round_not_nan.
Qed.

Lemma SFdiv_core_nonneg m1 e1 m2 e2 :
  0 <= fst (fst (SFdiv_core_binary prec emax (Zpos m1) e1 (Zpos m2) e2)).
Proof.
  unfold SFdiv_core_binary.
  set (s := _ - _ - _).
  set (m' := match s with Z0 => _ | Zpos _ => _ | Zneg _ => _ end).
  assert (Hm : 0 <= m').
  { subst m'. destruct s; try lia. apply Z.shiftl_nonneg. lia. }
  pose proof (Z.div_eucl_eq m' (Zpos m2) ltac:(lia)) as E.
  pose proof (Z.mod_pos_bound m' (Zpos m2) ltac:(lia)) as B.
  pose proof (Z.div_pos m' (Zpos m2) Hm ltac:(lia)) as Q.
  unfold Z.modulo, Z.div in *.
  destruct (Z.div_eucl m' (Zpos m2)) as [q r]. simpl. exact Q.
Qed.

Lemma SFdiv_not_nan x y :
  SF_finite x = true -> y <> S754_nan -> (forall s, y <> S754_zero s) ->
  SFdiv prec emax x y <> S754_nan.
Proof.
  intros Hx Hy Hz.
  destruct x as [sx|sx| |sx mx ex]; try discriminate;
    destruct y as [sy|sy| |sy my ey]; try congruence; try discriminate;
    try (exfalso; eapply Hz; reflexivity).
  simpl.
  pose proof (SFdiv_core_nonneg mx ex my ey) as H.
  destruct (SFdiv_core_binary _ _ _ _ _ _) as [[mz ez] lz]. simpl in H.
  apply binary_round_aux_not_nan, H.
Qed.

Lemma SFmul_finite_not_nan x s m e :
  x <> S754_nan -> SFmul prec emax x (S754_finite s m e) <> S754_nan.
Proof.
  intros Hx. destruct x as [sx|sx| |sx mx ex]; try congruence; try discriminate.
  simpl. apply binary_round_aux_not_nan. lia.
Qed.

Lemma SFopp_not_nan x : x <> S754_nan -> SFopp x <> S754_nan.
Proof. destruct x; simpl; congruence. Qed.

Lemma SFldexp_not_nan x e : x <> S754_nan -> SFldexp prec emax x e <> S754_nan.
Proof.
  destruct x; simpl; try congruence. intros _. apply binary_round_not_nan.
Qed.

Lemma SF2Prim_not_nan x : x <> S754_nan -> Prim2SF (SF2Prim x) <> S754_nan.
Proof.
  intros Hx.
  destruct x as [[|]|[|]| |s m e]; try congruence;
    try (vm_compute; discriminate).
  unfold SF2Prim.
  assert (H : Prim2SF (Z.ldexp (of_uint63 (Uint63.of_Z (Z.pos m))) e) <> S754_nan).
  { unfold Z.ldexp. rewrite ldshiftexp_spec. apply SFldexp_not_nan.
    rewrite of_uint63_spec. apply binary_normalize_not_nan. }
  destruct s; [rewrite opp_spec; apply SFopp_not_nan|]; exact H.
Qed.

(** ** Small integers are exact as floats *)

Lemma digits2_pos_bounds m :
  2 ^ (Zpos (digits2_pos m) - 1) <= Zpos m < 2 ^ Zpos (digits2_pos m).
Proof.
  induction m as [m IH|m IH|]; cbn [digits2_pos];
    try (rewrite Pos2Z.inj_succ;
         replace (Z.succ (Zpos (digits2_pos m)) - 1) with (Zpos (digits2_pos m)) by lia;
         rewrite Z.pow_succ_r by lia;
         replace (2 ^ Zpos (digits2_pos m))
           with (2 * 2 ^ (Zpos (digits2_pos m) - 1)) in *
           by (rewrite <- Z.pow_succ_r by lia; f_equal; lia);
         lia).
  simpl. lia.
Qed.

Lemma digits2_pos_iter_xO m k :
  digits2_pos (Pos.iter xO m k) = (digits2_pos m + k)%positive.
Proof.
  induction k using Pos.peano_ind.
  - simpl. lia.
  - rewrite Pos.iter_succ. cbn [digits2_pos]. rewrite IHk. lia.
Qed.

Lemma binary_round_aux_exact s mz ez :
  Zpos (digits2_pos mz) = 53 -> -1074 <= ez <= 971 ->
  binary_round_aux prec emax s (Zpos mz) ez loc_Exact = S754_finite s mz ez.
Proof.
  intros Hd He.
  assert (Hs : shr_fexp prec emax (Zpos mz) ez loc_Exact
               = ({| shr_m := Zpos mz; shr_r := false; shr_s := false |}, ez)).
  { unfold shr_fexp, fexp, SpecFloat.emin. cbn [Zdigits2]. rewrite Hd.
    change prec with 53. change emax with 1024.
    replace (Z.max (53 + ez - 53) (3 - 1024 - 53) - ez) with 0 by lia.
    reflexivity. }
  unfold binary_round_aux. rewrite Hs. cbn [shr_m loc_of_shr_record round_nearest_even].
  rewrite Hs. cbn [shr_m].
  change prec with 53. change emax with 1024.
  destruct (Z.leb_spec ez (1024 - 53)); [reflexivity | lia].
Qed.

Lemma binary_normalize_small m :
  Zpos m < 2 ^ 53 ->
  exists mz ez, binary_normalize prec emax (Zpos m) 0 false = S754_finite false mz ez.
Proof.
  intros Hm. cbn [binary_normalize]. unfold binary_round.
  pose proof (digits2_pos_bounds m) as [Hlo Hhi].
  assert (Hd : Zpos (digits2_pos m) <= 53).
  { destruct (Z_le_gt_dec (Zpos (digits2_pos m)) 53) as [|G]; [assumption|].
    exfalso.
    assert (2 ^ 53 <= 2 ^ (Zpos (digits2_pos m) - 1))
      by (apply Z.pow_le_mono_r; lia).
    lia. }
  unfold shl_align, fexp, SpecFloat.emin.
  change prec with 53 in *. change emax with 1024 in *.
  replace (Z.max (Zpos (digits2_pos m) + 0 - 53) (3 - 1024 - 53))
    with (Zpos (digits2_pos m) - 53) by lia.
  destruct (Zpos (digits2_pos m) - 53 - 0) as [|k|k] eqn:Ek; try lia.
  - eexists. eexists. apply (binary_round_aux_exact false m 0); lia.
  - eexists. eexists.
    apply (binary_round_aux_exact false (Pos.iter xO m k)
             (Zpos (digits2_pos m) - 53)); [|lia].
    rewrite digits2_pos_iter_xO. lia.
Qed.

Lemma float_of_small_int_shape n :
  Z.abs n < 2 ^ 53 ->
  SF_finite (Prim2SF (float_of_small_int n)) = true /\
  (n <> 0 -> forall s, Prim2SF (float_of_small_int n) <> S754_zero s).
Proof.
  intros Hn. unfold float_of_small_int.
  assert (W : forall k, 0 <= k < 2 ^ 53 ->
            Prim2SF (of_uint63 (Uint63.of_Z k))
            = binary_normalize prec emax k 0 false).
  { intros k Hk. rewrite of_uint63_spec. f_equal.
    rewrite Uint63.of_Z_spec. apply Z.mod_small.
    change Uint63.wB with (2 ^ 63). 
    assert (2 ^ 53 < 2 ^ 63) by reflexivity. lia. }
  destruct (Z.ltb_spec n 0).
  - rewrite opp_spec, W by lia.
    destruct (- n) as [|m|m] eqn:E; try lia.
    destruct (binary_normalize_small m) as (mz & ez & ->); [lia|].
    simpl. split; [reflexivity | discriminate].
  - rewrite W by lia.
    destruct n as [|m|m]; try lia.
    + split; [reflexivity | congruence].
    + destruct (binary_normalize_small m) as (mz & ez & ->); [lia|].
      simpl. split; [reflexivity | discriminate].
Qed.

(** ** Negation *)

Lemma SFcompare_opp x y : SFcompare (SFopp x) (SFopp y) = SFcompare y x.
Proof.
  destruct x as [[|]|[|]| |[|] mx ex], y as [[|]|[|]| |[|] my ey];
    try reflexivity; simpl.
  all: change (PosDef.Pos.compare_cont Eq mx my) with (Pos.compare mx my);
    change (PosDef.Pos.compare_cont Eq my mx) with (Pos.compare my mx);
    rewrite (Z.compare_antisym ex ey), (Pos.compare_antisym my mx);
    destruct (ex ?= ey), (my ?= mx)%positive; reflexivity.
Qed.

Lemma fcompare_opp x y : fcompare (- x) (- y) = fcompare y x.
Proof. unfold fcompare. rewrite !opp_spec. apply SFcompare_opp. Qed.

Lemma is_number_opp x : is_number (- x) = is_number x.
Proof.
  unfold is_number. rewrite !eqb_spec, opp_spec. unfold SFeqb.
  now rewrite SFcompare_opp.
Qed.

(** ** Quotients, products and roundings that are numbers *)

Lemma int_truediv_small h t :
  0 <= h < 2 ^ 53 -> 0 < t < 2 ^ 53 ->
  exists q, int_truediv h t = Ok q /\ is_number q = true.
Proof.
  intros Hh Ht. unfold int_truediv.
  destruct (Z.eqb_spec t 0); [lia|].
  destruct (Z.ltb_spec (Z.abs h) (2 ^ 53)); [|lia].
  destruct (Z.ltb_spec (Z.abs t) (2 ^ 53)); [|lia].
  cbn [andb]. eexists. split; [reflexivity|].
  apply is_number_spec. rewrite div_spec.
  destruct (float_of_small_int_shape h) as [Fh _]; [lia|].
  destruct (float_of_small_int_shape t) as [Ft Zt]; [lia|].
  apply SFdiv_not_nan; [exact Fh | | apply Zt; lia].
  intros E. rewrite E in Ft. discriminate.
Qed.

Lemma mul_100_number q : is_number q = true -> is_number (q * 100) = true.
Proof.
  rewrite !is_number_spec, mul_spec. intros H.
  destruct (Prim2SF 100) as [s|s| |s m e] eqn:E;
    try (vm_compute in E; discriminate).
  apply SFmul_finite_not_nan, H.
Qed.

Lemma py_round_number v ndigits :
  is_number v = true -> is_number (py_round v ndigits) = true.
Proof.
  intros H. unfold py_round.
  destruct (Prim2SF v) as [s|s| |s m e] eqn:E; try exact H.
  cbv zeta.
  destruct (if 0 <=? e then _ else _) as [|k|k].
  - destruct s; reflexivity.
  - apply is_number_spec. unfold float_of_ratio.
    apply SF2Prim_not_nan, SFdiv_not_nan; [reflexivity | discriminate | discriminate].
  - destruct s; reflexivity.
Qed.

(** ** Rounding to the nearest integer *)

(** [round_half_even n d] is an integer nearest to [n / d]: the distance is
    at most one half. *)
Lemma round_half_even_nearest n d :
  0 < d -> 2 * Z.abs (n - d * round_half_even n d) <= d.
Proof.
  intros Hd. unfold round_half_even.
  pose proof (Z.div_mod n d ltac:(lia)) as E.
  pose proof (Z.mod_pos_bound n d Hd) as B.
  destruct (Z.compare_spec (2 * (n mod d)) d) as [C|C|C].
  - destruct (Z.even (n / d)); lia.
  - lia.
  - lia.
Qed.

(** On an exact tie it is the even one of the two. *)
Lemma round_half_even_tie n d :
  0 < d -> 2 * (n mod d) = d -> Z.even (round_half_even n d) = true.
Proof.
  intros Hd Ht. unfold round_half_even. rewrite Ht, Z.compare_refl.
  destruct (Z.even (n / d)) eqn:E; [exact E|].
  rewrite Z.even_add, E. reflexivity.
Qed.

Lemma round_half_even_nearest_integer n d :
  0 < d -> nearest_integer n d (round_half_even n d).
Proof.
  intros Hd. split.
  - pose proof (round_half_even_nearest n d Hd) as H.
    replace (n - round_half_even n d * d) with (n - d * round_half_even n d)
      by ring.
    exact H.
  - unfold round_half_even.
    pose proof (Z.div_mod n d ltac:(lia)) as E.
    pose proof (Z.mod_pos_bound n d Hd) as B.
    destruct (Z.compare_spec (2 * (n mod d)) d) as [T|T|T].
    + intros _. destruct (Z.even (n / d)) eqn:Q; [exact Q|].
      rewrite Z.even_add, Q. reflexivity.
    + intros H. exfalso.
      replace (n - n / d * d) with (n mod d) in H by lia.
      rewrite Z.abs_eq in H by lia. lia.
    + intros H. exfalso.
      replace (n - (n / d + 1) * d) with (n mod d - d) in H by lia.
      rewrite Z.abs_neq in H by lia. lia.
Qed.

(** [round(x, ndigits)] is [x] rounded to [ndigits] decimal places. *)
Lemma py_round_rounded_to x ndigits :
  0 <= ndigits -> rounded_to ndigits x (py_round x ndigits).
Proof.
  intros Hn. unfold rounded_to, py_round.
  destruct (Prim2SF x) as [s| s| |s m e]; try reflexivity.
  destruct (Z.leb_spec 0 e) as [He|He].
  - exists (Zpos m * 2 ^ e * 10 ^ ndigits). split; [|reflexivity].
    rewrite Z.max_l, Z.max_r by lia. change (2 ^ 0) with 1.
    unfold nearest_integer.
    replace (Zpos m * 10 ^ ndigits * 2 ^ e
             - Zpos m * 2 ^ e * 10 ^ ndigits * 1) with 0 by ring.
    cbn [Z.abs]. split; [lia | intros H; discriminate H].
  - exists (round_half_even (Zpos m * 10 ^ ndigits) (2 ^ (- e))).
    split; [|reflexivity].
    rewrite Z.max_r, Z.max_l by lia. change (2 ^ 0) with 1.
    rewrite Z.mul_1_r. apply round_half_even_nearest_integer.
    apply Z.pow_pos_nonneg; lia.
Qed.

Lemma not_number_SF x : is_number x = false -> Prim2SF x = S754_nan.
Proof.
  intros H. destruct (Prim2SF x) eqn:E; try reflexivity;
    exfalso; assert (N : is_number x = true)
      by (apply is_number_spec; rewrite E; discriminate); congruence.
Qed.

Lemma SF_not_number x : Prim2SF x = S754_nan -> is_number x = false.
Proof.
  intros E. destruct (is_number x) eqn:N; [|reflexivity].
  apply is_number_spec in N. contradiction.
Qed.

(** A NaN score gives a NaN percentage. *)
Lemma py_round_not_number p ndigits :
  is_number p = false -> is_number (py_round (p * 100) ndigits) = false.
Proof.
  intros H. apply not_number_SF in H.
  assert (E : Prim2SF (p * 100) = S754_nan).
  { rewrite mul_spec, H. reflexivity. }
  apply SF_not_number. unfold py_round. rewrite E. exact E.
Qed.

Lemma leb_refl x : is_number x = true -> (x <=? x)%float = true.
Proof.
  intros H. apply leb_fcompare. right. now apply eqb_fcompare.
Qed.
(** * Lemmas about the model *)

(** ** Normalization of region names *)

Lemma lower_char_idem c : lower_char (lower_char c) = lower_char c.
Proof. destruct c as [[] [] [] [] [] [] [] []]; reflexivity. Qed.

Lemma is_space_lower_char c : is_space (lower_char c) = is_space c.
Proof. destruct c as [[] [] [] [] [] [] [] []]; reflexivity. Qed.

Lemma lower_idem s : lower (lower s) = lower s.
Proof.
  induction s as [|c s IH]; simpl; [reflexivity|].
  now rewrite lower_char_idem, IH.
Qed.

Lemma lower_lstrip s : lower (lstrip s) = lstrip (lower s).
Proof.
  induction s as [|c s IH]; simpl; [reflexivity|].
  rewrite is_space_lower_char. destruct (is_space c); [exact IH | reflexivity].
Qed.

Lemma lower_as_map s :
  lower s = string_of_list_ascii (map lower_char (list_ascii_of_string s)).
Proof. induction s as [|c s IH]; simpl; [reflexivity | now rewrite IH]. Qed.

Lemma lower_reverse s : lower (reverse s) = reverse (lower s).
Proof.
  unfold reverse. rewrite !lower_as_map, !list_ascii_of_string_of_list_ascii.
  now rewrite map_rev.
Qed.

Lemma lower_strip s : lower (strip s) = strip (lower s).
Proof.
  unfold strip, rstrip.
  now rewrite lower_reverse, lower_lstrip, lower_reverse, lower_lstrip.
Qed.

Lemma normalize_lower s : normalize (lower s) = normalize s.
Proof. unfold normalize. now rewrite <- lower_strip, lower_idem. Qed.

Lemma reverse_involutive s : reverse (reverse s) = s.
Proof.
  unfold reverse. rewrite list_ascii_of_string_of_list_ascii, rev_involutive.
  apply string_of_list_ascii_of_string.
Qed.

Lemma reverse_append_char s c :
  reverse (s ++ String c EmptyString) = String c (reverse s).
Proof.
  unfold reverse.
  assert (H : list_ascii_of_string (s ++ String c EmptyString)
              = (list_ascii_of_string s ++ [c])%list).
  { induction s as [|d s IH]; simpl; [reflexivity | now rewrite IH]. }
  rewrite H, rev_app_distr. reflexivity.
Qed.

Lemma lstrip_not_empty_tail s c :
  is_space c = false -> lstrip (s ++ String c EmptyString) <> EmptyString.
Proof.
  intros Hc. induction s as [|d s IH]; simpl.
  - rewrite Hc. discriminate.
  - destruct (is_space d); [exact IH | discriminate].
Qed.

(** A leading blank does not change the trimmed string. *)
Lemma strip_leading c s : is_space c = true -> strip (String c s) = strip s.
Proof. intros H. unfold strip. simpl. now rewrite H. Qed.

Lemma lstrip_append_blank s c :
  is_space c = true ->
  lstrip (s ++ String c EmptyString)
  = match lstrip s with
    | EmptyString => EmptyString
    | t => t ++ String c EmptyString
    end.
Proof.
  intros Hc. induction s as [|d s IH]; simpl.
  - now rewrite Hc.
  - destruct (is_space d); [exact IH | reflexivity].
Qed.

(** Nor does a trailing one. *)
Lemma strip_trailing c s :
  is_space c = true -> strip (s ++ String c EmptyString) = strip s.
Proof.
  intros Hc. unfold strip, rstrip.
  rewrite (lstrip_append_blank s c Hc).
  destruct (lstrip s) as [|d t] eqn:E; [reflexivity|].
  rewrite reverse_append_char. simpl. now rewrite Hc.
Qed.

Lemma get_region_aqi_key region region' :
  normalize (str_or region' "unknown") = normalize (str_or region "unknown") ->
  get_region_aqi region' = get_region_aqi region.
Proof. unfold get_region_aqi, normalize. now intros ->. Qed.

(** ** The synthesizer *)

Lemma py_max_one_nonzero pop : (py_max pop 1 =? 0)%float = false.
Proof.
  unfold py_max. destruct (pop <? 1)%float eqn:E; [reflexivity|].
  destruct (pop =? 0)%float eqn:Z; [|reflexivity].
  apply eqb_fcompare in Z.
  assert (L : fcompare 0 1 = Some Lt) by reflexivity.
  pose proof (fcompare_eq_l pop 0 1 Lt Z L) as H.
  apply ltb_fcompare in H. congruence.
Qed.

Lemma py_max_one_ge pop :
  is_number pop = true -> (1 <=? py_max pop 1)%float = true.
Proof.
  intros H. unfold py_max. destruct (pop <? 1)%float eqn:E; [reflexivity|].
  apply ltb_false_leb; auto.
Qed.

Lemma py_max_one_ge_l pop :
  is_number pop = true -> (pop <=? py_max pop 1)%float = true.
Proof.
  intros H. unfold py_max. destruct (pop <? 1)%float eqn:E.
  - now apply ltb_leb.
  - now apply leb_refl.
Qed.

Lemma py_max_one_cases pop : py_max pop 1 = pop \/ py_max pop 1 = 1%float.
Proof. unfold py_max. destruct (pop <? 1)%float; auto. Qed.

Lemma if_list_append {A : Type} (b : bool) (l : list A) (x y : A) :
  (if b then list_append l x else list_append l y)
  = list_append l (if b then x else y).
Proof. destruct b; reflexivity. Qed.

Lemma generate_recommendations_stages rl region x aqi cat hc :
  generate_recommendations rl region x (Some aqi) cat hc
  = Ok (tier_directive rl region
        ++ [symptom_directive (top_symptom x);
            air_directive region cat aqi;
            facility_directive rl hc;
            data_quality_item])%list.
Proof.
  unfold generate_recommendations, float_truediv.
  rewrite py_max_one_nonzero. cbn [bind max_key].
  fold (rate (fever_cases x) (region_population x)).
  fold (rate (cough_cases x) (region_population x)).
  fold (rate (diarrhea_cases x) (region_population x)).
  fold (top_symptom x).
  rewrite !if_list_append.
  unfold tier_directive, symptom_directive, air_directive, facility_directive,
    list_append.
  destruct (rl =? "High")%string, (rl =? "Medium")%string,
    (aqi >? 200), (aqi >? 100); reflexivity.
Qed.

Lemma py_max_one_number pop :
  is_number pop = true -> is_number (py_max pop 1) = true.
Proof. intros H. unfold py_max. destruct (pop <? 1)%float; auto. Qed.

Lemma eqb_zero_false_SF d s :
  (d =? 0)%float = false -> Prim2SF d <> S754_zero s.
Proof.
  rewrite eqb_spec. intros H E. rewrite E in H.
  change (Prim2SF 0) with (S754_zero false) in H. discriminate.
Qed.

Lemma rate_is_number count pop :
  is_finite_float count = true -> is_number pop = true ->
  is_number (rate count pop) = true.
Proof.
  intros Hc Hp. apply is_number_spec. unfold rate.
  rewrite mul_spec, div_spec. unfold SF64mul, SF64div.
  destruct (Prim2SF 10000) as [s|s| |s m e] eqn:E;
    try (vm_compute in E; discriminate).
  apply SFmul_finite_not_nan, SFdiv_not_nan.
  - exact Hc.
  - apply is_number_spec, py_max_one_number, Hp.
  - intros s'. apply eqb_zero_false_SF, py_max_one_nonzero.
Qed.

Lemma top_symptom_dominant x :
  observation_ok x = true ->
  top_symptom x
  = dominant_symptom (rate (fever_cases x) (region_population x))
      (rate (cough_cases x) (region_population x))
      (rate (diarrhea_cases x) (region_population x)).
Proof.
  unfold observation_ok. rewrite !andb_true_iff. intros [[[Hf Hc] Hd] Hp].
  pose proof (rate_is_number _ _ Hf Hp) as Nf.
  pose proof (rate_is_number _ _ Hc Hp) as Nc.
  pose proof (rate_is_number _ _ Hd Hp) as Nd.
  unfold top_symptom, dominant_symptom.
  set (fr := rate (fever_cases x) _) in *.
  set (cr := rate (cough_cases x) _) in *.
  set (dr := rate (diarrhea_cases x) _) in *.
  cbn [max_scan].
  destruct (fr <? cr)%float eqn:Efc.
  - rewrite (leb_ltb_false_conv _ _ Efc). cbn [andb].
    destruct (cr <? dr)%float eqn:Ecd.
    + now rewrite (leb_ltb_false_conv _ _ Ecd).
    + now rewrite (ltb_false_leb _ _ Nc Nd Ecd).
  - rewrite (ltb_false_leb _ _ Nf Nc Efc). cbn [andb].
    destruct (fr <? dr)%float eqn:Efd.
    + rewrite (leb_ltb_false_conv _ _ Efd).
      assert (Ecd : (cr <? dr)%float = true)
        by (apply (leb_ltb_trans cr fr dr);
            [apply ltb_false_leb; assumption | exact Efd]).
      now rewrite (leb_ltb_false_conv _ _ Ecd).
    + now rewrite (ltb_false_leb _ _ Nf Nd Efd).
Qed.

Lemma other_items_not_symptom rl region cat aqi hc :
  forallb (fun s => negb (is_symptom_item s))
    (tier_directive rl region
     ++ [air_directive region cat aqi; facility_directive rl hc;
         data_quality_item])%list = true.
Proof.
  unfold tier_directive, air_directive, facility_directive.
  destruct (rl =? "High")%string, (rl =? "Medium")%string, (hc =? 0),
    (hc <=? 2); reflexivity.
Qed.

Lemma dominant_symptom_cases fr cr dr :
  is_number fr = true -> is_number cr = true -> is_number dr = true ->
  (dominant_symptom fr cr dr = "Fever" <->
     (cr <=? fr)%float = true /\ (dr <=? fr)%float = true) /\
  (dominant_symptom fr cr dr = "Cough" <->
     (fr <? cr)%float = true /\ (dr <=? cr)%float = true) /\
  (dominant_symptom fr cr dr = "Diarrhea" <->
     (fr <? dr)%float = true /\ (cr <? dr)%float = true).
Proof.
  intros Nf Nc Nd. unfold dominant_symptom.
  destruct (cr <=? fr)%float eqn:Ecf; cbn [andb].
  - destruct (dr <=? fr)%float eqn:Edf.
    + pose proof (leb_ltb_false _ _ Ecf) as Lfc.
      pose proof (leb_ltb_false _ _ Edf) as Lfd.
      repeat split; auto; try discriminate; intros [A B]; congruence.
    + pose proof (leb_false_ltb _ _ Nd Nf Edf) as Lfd.
      pose proof (leb_ltb_trans cr fr dr Ecf Lfd) as Lcd.
      rewrite (leb_ltb_false_conv _ _ Lcd).
      pose proof (leb_ltb_false _ _ Ecf) as Lfc.
      repeat split; auto; try discriminate; intros [A B]; congruence.
  - pose proof (leb_false_ltb _ _ Nc Nf Ecf) as Lfc.
    destruct (dr <=? cr)%float eqn:Edc.
    + pose proof (leb_ltb_false _ _ Edc) as Lcd.
      repeat split; auto; try discriminate; intros [A B]; congruence.
    + pose proof (leb_false_ltb _ _ Nd Nc Edc) as Lcd.
      pose proof (ltb_trans fr cr dr Lfc Lcd) as Lfd.
      repeat split; auto; try discriminate; intros [A B]; congruence.
Qed.

Lemma symptom_directive_inj d :
  d = "Fever" \/ d = "Cough" \/ d = "Diarrhea" ->
  (symptom_directive d = fever_item <-> d = "Fever") /\
  (symptom_directive d = cough_item <-> d = "Cough") /\
  (symptom_directive d = diarrhea_item <-> d = "Diarrhea").
Proof.
  intros [-> | [-> | ->]]; repeat split; intros H; try reflexivity;
    vm_compute in H; discriminate.
Qed.

Lemma dominant_symptom_name fr cr dr :
  dominant_symptom fr cr dr = "Fever" \/ dominant_symptom fr cr dr = "Cough"
  \/ dominant_symptom fr cr dr = "Diarrhea".
Proof.
  unfold dominant_symptom.
  destruct (_ && _); auto. destruct (_ <=? _)%float; auto.
Qed.

Lemma in_symptom_item rl region x aqi cat hc item :
  is_symptom_item item = true ->
  In item
    (tier_directive rl region
     ++ [symptom_directive (top_symptom x); air_directive region cat aqi;
         facility_directive rl hc; data_quality_item])%list
  <-> symptom_directive (top_symptom x) = item.
Proof.
  intros Hi.
  pose proof (other_items_not_symptom rl region cat aqi hc) as Ho.
  rewrite forallb_forall in Ho.
  assert (No : forall s,
    In s (tier_directive rl region
          ++ [air_directive region cat aqi; facility_directive rl hc;
              data_quality_item])%list -> s <> item).
  { intros s Hs ->. apply Ho in Hs. rewrite Hi in Hs. discriminate. }
  split.
  - rewrite in_app_iff. intros [H | [H | H]]; auto.
    + exfalso. apply (No item); [|reflexivity]. rewrite in_app_iff. auto.
    + exfalso. apply (No item); [|reflexivity]. rewrite in_app_iff. auto.
  - intros <-. rewrite in_app_iff. right. left. reflexivity.
Qed.

Lemma filter_none {A : Type} (P : A -> bool) (l : list A) :
  forallb (fun a => negb (P a)) l = true -> filter P l = [].
Proof.
  induction l as [|a l IH]; simpl; [reflexivity|].
  rewrite andb_true_iff. intros [Ha Hl].
  destruct (P a); [discriminate|]. auto.
Qed.

Lemma symptom_directive_is_item d : is_symptom_item (symptom_directive d) = true.
Proof.
  unfold symptom_directive.
  destruct (d =? "Fever")%string; [reflexivity|].
  destruct (d =? "Cough")%string; reflexivity.
Qed.

Lemma one_symptom_item rl region x aqi cat hc :
  List.length
    (filter is_symptom_item
       (tier_directive rl region
        ++ [symptom_directive (top_symptom x); air_directive region cat aqi;
            facility_directive rl hc; data_quality_item])%list) = 1%nat.
Proof.
  pose proof (other_items_not_symptom rl region cat aqi hc) as Ho.
  rewrite forallb_app, andb_true_iff in Ho. destruct Ho as [Ht Hr].
  rewrite filter_app, (filter_none _ _ Ht).
  change [symptom_directive (top_symptom x); air_directive region cat aqi;
          facility_directive rl hc; data_quality_item]
    with ([symptom_directive (top_symptom x)]
          ++ [air_directive region cat aqi; facility_directive rl hc;
              data_quality_item])%list.
  rewrite filter_app, (filter_none _ _ Hr).
  cbn [filter app]. rewrite symptom_directive_is_item. reflexivity.
Qed.

(** ** The routes *)

Lemma py_int_finite v : is_finite_float v = true -> exists z, py_int v = Ok z.
Proof.
  unfold is_finite_float, py_int.
  destruct (Prim2SF v); simpl; intros H; try discriminate H; eauto.
Qed.

Section RouteFacts.

Variable float_of_str : string -> option float.
Variable current_user_id : Z.
Variable model : float -> float -> float -> float -> result float.

(** What [assess] yields once the oracle has answered [p] on finite
    features. *)
Lemma assess_ok (region : option string) (x : features) (p : float) :
  model (fever_cases x) (cough_cases x) (diarrhea_cases x)
    (region_population x) = Ok p ->
  features_finite x = true ->
  exists row res,
    assess current_user_id model region x = Ok (row, res) /\
    Prediction.prediction row = (if (0.5 <? p)%float then 1 else 0) /\
    res_prediction res = Prediction.prediction row /\
    Prediction.probability row = Some (py_round (p * 100)%float 2) /\
    res_probability res = py_round (p * 100)%float 2 /\
    Prediction.risk_level row = compute_risk_level p /\
    res_risk_level res = Prediction.risk_level row /\
    Prediction.region row = region /\
    Prediction.user_id row = current_user_id /\
    py_int (fever_cases x) = Ok (Prediction.fever_cases row) /\
    py_int (cough_cases x) = Ok (Prediction.cough_cases row) /\
    py_int (diarrhea_cases x) = Ok (Prediction.diarrhea_cases row) /\
    py_int (region_population x) = Ok (Prediction.region_population row).
Proof.
  intros Hm Hx. unfold features_finite in Hx. rewrite !andb_true_iff in Hx.
  destruct Hx as [[[Hf Hc] Hd] Hn].
  destruct (py_int_finite _ Hf) as [zf Ef].
  destruct (py_int_finite _ Hc) as [zc Ec].
  destruct (py_int_finite _ Hd) as [zd Ed].
  destruct (py_int_finite _ Hn) as [zn En].
  unfold assess. rewrite Hm. cbn [bind].
  destruct (get_region_aqi region) as [aqi_value aqi_category].
  rewrite generate_recommendations_stages. cbn [bind].
  rewrite Ef, Ec, Ed, En. cbn [bind].
  eexists. eexists. split; [reflexivity|].
  cbn. repeat split.
Qed.

(** The two outcomes of a commit. *)
Lemma db_add_inv store row store' :
  db_add store row = Ok store' ->
  store' = (store ++ [db_row row])%list /\
  int64 (Prediction.fever_cases row) = true /\
  int64 (Prediction.cough_cases row) = true /\
  int64 (Prediction.diarrhea_cases row) = true /\
  int64 (Prediction.region_population row) = true.
Proof.
  unfold db_add.
  destruct (int64 (Prediction.fever_cases row));
    destruct (int64 (Prediction.cough_cases row));
    destruct (int64 (Prediction.diarrhea_cases row));
    destruct (int64 (Prediction.region_population row));
    cbn [andb]; try discriminate.
  intros H. injection H as <-. repeat split.
Qed.

Lemma db_add_raise store row e :
  db_add store row = Raise e -> e = OverflowError.
Proof.
  unfold db_add. destruct (_ && _); [discriminate|].
  intros H. now injection H as <-.
Qed.

Lemma db_add_ok store row :
  int64 (Prediction.fever_cases row) = true ->
  int64 (Prediction.cough_cases row) = true ->
  int64 (Prediction.diarrhea_cases row) = true ->
  int64 (Prediction.region_population row) = true ->
  db_add store row = Ok (store ++ [db_row row])%list.
Proof. unfold db_add. now intros -> -> -> ->. Qed.

Lemma db_add_overflow store row :
  int64 (Prediction.fever_cases row) && int64 (Prediction.cough_cases row)
  && int64 (Prediction.diarrhea_cases row)
  && int64 (Prediction.region_population row) = false ->
  db_add store row = Raise OverflowError.
Proof. unfold db_add. now intros ->. Qed.

(** A request either adds exactly one row or leaves the store as it was. *)
Lemma api_predict_store load_model store data :
  snd (api_predict float_of_str load_model current_user_id store data) = store
  \/ exists row res,
       api_predict float_of_str load_model current_user_id store data
       = (Success res, (store ++ [row])%list).
Proof.
  unfold api_predict. destruct load_model as [m|]; [|left; reflexivity].
  destruct (api_parse float_of_str data) as [[region x]|e].
  - destruct (assess current_user_id m region x) as [[row res]|e].
    + destruct (db_add store row) as [store'|e] eqn:D.
      * right. apply db_add_inv in D. destruct D as [-> _].
        exists (db_row row), res. reflexivity.
      * left. reflexivity.
    + left. reflexivity.
  - left. destruct e; reflexivity.
Qed.

Lemma api_parse_offence data :
  match first_offence float_of_str data with
  | Some e => api_parse float_of_str data = Raise e
  | None => exists region x, api_parse float_of_str data = Ok (region, x)
  end.
Proof.
  unfold first_offence, field_offence, api_parse.
  destruct (data_fever_cases data) as [v1|]; [|reflexivity]. cbn [dict_item bind].
  destruct (py_float float_of_str v1); [|reflexivity]. cbn [bind].
  destruct (data_cough_cases data) as [v2|]; [|reflexivity]. cbn [dict_item bind].
  destruct (py_float float_of_str v2); [|reflexivity]. cbn [bind].
  destruct (data_diarrhea_cases data) as [v3|]; [|reflexivity]. cbn [dict_item bind].
  destruct (py_float float_of_str v3); [|reflexivity]. cbn [bind].
  destruct (data_region_population data) as [v4|]; [|reflexivity]. cbn [dict_item bind].
  destruct (py_float float_of_str v4); [|reflexivity]. cbn [bind].
  eauto.
Qed.

Lemma form_parse_offence form :
  match form_first_offence float_of_str form with
  | Some e => form_parse float_of_str form = Raise e
  | None => exists region x, form_parse float_of_str form = Ok (region, x)
  end.
Proof.
  unfold form_first_offence, form_field_offence, form_parse, float_of_string.
  destruct (form_fever_cases form) as [v1|]; [|reflexivity]. cbn [dict_item bind].
  destruct (float_of_str v1); [|reflexivity]. cbn [bind].
  destruct (form_cough_cases form) as [v2|]; [|reflexivity]. cbn [dict_item bind].
  destruct (float_of_str v2); [|reflexivity]. cbn [bind].
  destruct (form_diarrhea_cases form) as [v3|]; [|reflexivity]. cbn [dict_item bind].
  destruct (float_of_str v3); [|reflexivity]. cbn [bind].
  destruct (form_region_population form) as [v4|]; [|reflexivity]. cbn [dict_item bind].
  destruct (float_of_str v4); [|reflexivity]. cbn [bind].
  eauto.
Qed.

(** [assess] succeeds only through an answer of the oracle, and the row
    it builds carries the flag and the tier of that answer. *)
Lemma assess_inv region x row res :
  assess current_user_id model region x = Ok (row, res) ->
  exists p,
    model (fever_cases x) (cough_cases x) (diarrhea_cases x)
      (region_population x) = Ok p /\
    Prediction.prediction row = (if (0.5 <? p)%float then 1 else 0) /\
    Prediction.risk_level row = compute_risk_level p.
Proof.
  unfold assess.
  destruct (model _ _ _ _) as [p|e]; [|discriminate]. cbn [bind].
  destruct (get_region_aqi region) as [aqi_value aqi_category].
  destruct (generate_recommendations _ _ _ _ _ _); [|discriminate]. cbn [bind].
  destruct (py_int (fever_cases x)); [|discriminate]. cbn [bind].
  destruct (py_int (cough_cases x)); [|discriminate]. cbn [bind].
  destruct (py_int (diarrhea_cases x)); [|discriminate]. cbn [bind].
  destruct (py_int (region_population x)); [|discriminate]. cbn [bind].
  intros [= <- <-]. exists p. repeat split.
Qed.

End RouteFacts.

Lemma py_int_cases v :
  (exists z, py_int v = Ok z /\ is_finite_float v = true)
  \/ ((py_int v = Raise ValueError \/ py_int v = Raise OverflowError)
      /\ is_finite_float v = false).
Proof.
  unfold py_int, is_finite_float.
  destruct (Prim2SF v); cbn [SF_finite]; eauto.
Qed.

Lemma py_int_ok_finite v z : py_int v = Ok z -> is_finite_float v = true.
Proof.
  intros H. destruct (py_int_cases v) as [(z' & _ & F)|[[E|E] _]];
    [assumption | congruence | congruence].
Qed.

(** What [assess] computed when it returned. *)
Lemma assess_inversion uid model region x row res :
  assess uid model region x = Ok (row, res) ->
  exists p zf zc zd zn,
    model (fever_cases x) (cough_cases x) (diarrhea_cases x)
      (region_population x) = Ok p /\
    py_int (fever_cases x) = Ok zf /\
    py_int (cough_cases x) = Ok zc /\
    py_int (diarrhea_cases x) = Ok zd /\
    py_int (region_population x) = Ok zn /\
    row = {| Prediction.user_id := uid;
             Prediction.region := region;
             Prediction.fever_cases := zf;
             Prediction.cough_cases := zc;
             Prediction.diarrhea_cases := zd;
             Prediction.region_population := zn;
             Prediction.prediction := if (0.5 <? p)%float then 1 else 0;
             Prediction.probability := Some (py_round (p * 100)%float 2);
             Prediction.risk_level := compute_risk_level p;
             Prediction.aqi_value := fst (get_region_aqi region);
             Prediction.aqi_category := snd (get_region_aqi region) |} /\
    res = {| res_prediction := if (0.5 <? p)%float then 1 else 0;
             res_probability := py_round (p * 100)%float 2;
             res_risk_level := compute_risk_level p;
             res_aqi_value := fst (get_region_aqi region);
             res_aqi_category := snd (get_region_aqi region);
             res_hospitals := get_hospitals_for_region region;
             res_suggestions :=
               (tier_directive (compute_risk_level p) (format_str region)
                ++ [symptom_directive (top_symptom x);
                    air_directive (format_str region)
                      (snd (get_region_aqi region))
                      (fst (get_region_aqi region));
                    facility_directive (compute_risk_level p)
                      (Z.of_nat
                         (List.length (get_hospitals_for_region region)));
                    data_quality_item])%list |}.
Proof.
  unfold assess.
  destruct (model _ _ _ _) as [p|e]; cbn [bind]; [|discriminate].
  destruct (get_region_aqi region) as [v c].
  rewrite generate_recommendations_stages. cbn [bind].
  destruct (py_int (fever_cases x)) as [zf|]; cbn [bind]; [|discriminate].
  destruct (py_int (cough_cases x)) as [zc|]; cbn [bind]; [|discriminate].
  destruct (py_int (diarrhea_cases x)) as [zd|]; cbn [bind]; [|discriminate].
  destruct (py_int (region_population x)) as [zn|]; cbn [bind];
    [|discriminate].
  intros H. injection H as <- <-.
  exists p, zf, zc, zd, zn. cbn [fst snd]. repeat split.
Qed.

Lemma api_predict_success_inv float_of_str load_model uid store data res store' :
  api_predict float_of_str load_model uid store data = (Success res, store') ->
  exists model region x row,
    load_model = Some model /\
    api_parse float_of_str data = Ok (region, x) /\
    assess uid model region x = Ok (row, res) /\
    db_add store row = Ok store' /\
    store' = (store ++ [db_row row])%list.
Proof.
  unfold api_predict. destruct load_model as [model|]; [|discriminate].
  destruct (api_parse float_of_str data) as [[region x]|e] eqn:P;
    [|destruct e; discriminate].
  destruct (assess uid model region x) as [[row r]|e] eqn:A; [|discriminate].
  destruct (db_add store row) as [s'|e] eqn:D; [|discriminate].
  intros H. injection H as <- <-.
  exists model, region, x, row. repeat split; try assumption.
  now apply db_add_inv in D.
Qed.

Lemma form_submit_inv float_of_str model uid store form row res store' :
  form_submit float_of_str uid model store form = Ok (row, res, store') ->
  exists region x,
    form_parse float_of_str form = Ok (region, x) /\
    assess uid model (Some region) x = Ok (row, res) /\
    db_add store row = Ok store' /\
    store' = (store ++ [db_row row])%list.
Proof.
  unfold form_submit, form_assess.
  destruct (form_parse float_of_str form) as [[region x]|e] eqn:P;
    cbn [bind]; [|discriminate].
  destruct (assess uid model (Some region) x) as [[row' r]|e] eqn:A;
    cbn [bind]; [|discriminate].
  destruct (db_add store row') as [s'|e] eqn:D; cbn [bind]; [|discriminate].
  intros H. injection H as <- <- <-.
  exists region, x. repeat split; try assumption.
  now apply db_add_inv in D.
Qed.

Lemma predict_success_inv float_of_str load_model uid store form page store' :
  predict float_of_str load_model uid store POST form = (Success page, store') ->
  exists model region x row res,
    load_model = Some model /\
    form_parse float_of_str form = Ok (region, x) /\
    assess uid model (Some region) x = Ok (row, res) /\
    db_add store row = Ok store' /\
    store' = (store ++ [db_row row])%list /\
    page = {| page_prediction := Some (res_prediction res);
              page_probability := Some (res_probability res);
              page_risk_level := Some (res_risk_level res);
              page_suggestions := res_suggestions res;
              page_aqi_value := Some (res_aqi_value res);
              page_aqi_category := Some (res_aqi_category res);
              page_hospitals := res_hospitals res;
              page_region := Prediction.region row |}.
Proof.
  unfold predict. destruct load_model as [model|]; [|discriminate].
  destruct (form_submit float_of_str uid model store form)
    as [[[row res] s']|e] eqn:S; [|discriminate].
  intros H. injection H as <- <-.
  destruct (form_submit_inv _ _ _ _ _ _ _ _ S) as (region & x & P & A & D & E).
  exists model, region, x, row, res. repeat split; assumption.
Qed.

Lemma features_finite_of_ints x zf zc zd zn :
  py_int (fever_cases x) = Ok zf -> py_int (cough_cases x) = Ok zc ->
  py_int (diarrhea_cases x) = Ok zd -> py_int (region_population x) = Ok zn ->
  features_finite x = true.
Proof.
  intros A B C D. unfold features_finite.
  rewrite (py_int_ok_finite _ _ A), (py_int_ok_finite _ _ B),
    (py_int_ok_finite _ _ C), (py_int_ok_finite _ _ D). reflexivity.
Qed.

Lemma count_int64_ok v n : py_int v = Ok n -> count_int64 v = int64 n.
Proof. unfold count_int64. now intros ->. Qed.

Lemma count_int64_finite v : count_int64 v = true -> is_finite_float v = true.
Proof.
  unfold count_int64. destruct (py_int v) as [n|] eqn:E; [|discriminate].
  intros _. apply (py_int_ok_finite _ _ E).
Qed.

Lemma features_int64_finite x : features_int64 x = true -> features_finite x = true.
Proof.
  unfold features_int64, features_finite. rewrite !andb_true_iff.
  intros [[[A B] C] D]. repeat split; now apply count_int64_finite.
Qed.

(** The row [assess] builds is committed when the counts fit, and refused
    with [OverflowError] when they do not. *)
Lemma assess_commit uid model region x row res store :
  assess uid model region x = Ok (row, res) ->
  db_add store row
  = if features_int64 x then Ok (store ++ [db_row row])%list
    else Raise OverflowError.
Proof.
  intros A.
  destruct (assess_inversion _ _ _ _ _ _ A)
    as (p & zf & zc & zd & zn & _ & If & Ic & Id & In_ & -> & _).
  unfold features_int64, db_add.
  rewrite (count_int64_ok _ _ If), (count_int64_ok _ _ Ic),
    (count_int64_ok _ _ Id), (count_int64_ok _ _ In_).
  cbn [Prediction.fever_cases Prediction.cough_cases
       Prediction.diarrhea_cases Prediction.region_population].
  destruct (_ && _); reflexivity.
Qed.


Lemma tier_flag_float p :
  is_number p = true ->
  (compute_risk_level p = "High" -> (0.5 <? p)%float = true) /\
  (compute_risk_level p = "Low" -> (0.5 <? p)%float = false).
Proof.
  intros Hp. unfold compute_risk_level.
  assert (N3 : is_number 0.3 = true) by reflexivity.
  assert (N7 : is_number 0.7 = true) by reflexivity.
  assert (L35 : (0.3 <=? 0.5)%float = true) by reflexivity.
  assert (L57 : (0.5 <? 0.7)%float = true) by reflexivity.
  destruct (p <? 0.3)%float eqn:E3.
  - split; [discriminate|]. intros _.
    apply ltb_asym. apply (ltb_leb_trans p 0.3 0.5 E3 L35).
  - destruct (p <? 0.7)%float eqn:E7; split; try discriminate.
    intros _. apply (ltb_leb_trans 0.5 0.7 p L57).
    apply (ltb_false_leb p 0.7 Hp N7 E7).
Qed.

Lemma in_unit_interval_number p : in_unit_interval p = true -> is_number p = true.
Proof.
  unfold in_unit_interval. rewrite andb_true_iff. intros [H _].
  apply leb_number in H. tauto.
Qed.

Lemma py_float_raises float_of_str j e :
  py_float float_of_str j = Raise e ->
  e = TypeError \/ e = ValueError \/ e = OverflowError.
Proof.
  destruct j as [|b|n|f|s|]; simpl; try (intros [= <-]; auto); try discriminate.
  - unfold float_of_int. destruct (binary_normalize _ _ _ _ _);
      intros [= <-]; auto.
  - unfold float_of_string. destruct (float_of_str s); intros [= <-]; auto.
Qed.

Lemma field_offence_key float_of_str v key k :
  field_offence float_of_str v key = Some (KeyError k) -> k = key.
Proof.
  unfold field_offence. destruct v as [j|]; [|intros [= <-]; reflexivity].
  destruct (py_float float_of_str j) eqn:E; [discriminate|].
  intros [= ->]. apply py_float_raises in E.
  destruct E as [E | [E | E]]; discriminate.
Qed.

Lemma first_offence_key float_of_str data k :
  first_offence float_of_str data = Some (KeyError k) ->
  In k ["fever_cases"; "cough_cases"; "diarrhea_cases"; "region_population"].
Proof.
  unfold first_offence.
  destruct (field_offence _ (data_fever_cases data) _) eqn:E1.
  { intros [= ->]. apply field_offence_key in E1. subst. simpl. auto. }
  destruct (field_offence _ (data_cough_cases data) _) eqn:E2.
  { intros [= ->]. apply field_offence_key in E2. subst. simpl. auto. }
  destruct (field_offence _ (data_diarrhea_cases data) _) eqn:E3.
  { intros [= ->]. apply field_offence_key in E3. subst. simpl. auto. }
  intros E4. apply field_offence_key in E4. subst. simpl. auto.
Qed.

(** ** Sorting by a key *)

Section SortBy.

Context {A K : Type}.
Variable lt : K -> K -> bool.
Variable key : A -> K.

(** The keys on which [lt] behaves as a strict weak order. *)
Variable good : K -> Prop.
Hypothesis lt_asym :
  forall a b, good a -> good b -> lt a b = true -> lt b a = false.
Hypothesis lt_negtrans :
  forall a b c, good a -> good b -> good c ->
  lt b a = false -> lt c b = false -> lt c a = false.

Lemma insert_by_perm x l : Permutation (insert_by lt key x l) (x :: l).
Proof.
  induction l as [|y l IH]; simpl; [reflexivity|].
  destruct (lt (key y) (key x)); [|reflexivity].
  rewrite IH. apply perm_swap.
Qed.

Lemma sort_by_perm l : Permutation (sort_by lt key l) l.
Proof.
  induction l as [|x l IH]; simpl; [reflexivity|].
  rewrite insert_by_perm. now constructor.
Qed.

Lemma insert_by_sorted x l :
  good (key x) -> Forall (fun a => good (key a)) l ->
  StronglySorted (not_after lt key) l ->
  StronglySorted (not_after lt key) (insert_by lt key x l).
Proof.
  intros Gx Gl Hs. induction Hs as [|y l Hs IH Hy]; simpl.
  - constructor; constructor.
  - inversion Gl as [|? ? Gy Gl']; subst.
    destruct (lt (key y) (key x)) eqn:E.
    + constructor; [apply IH, Gl'|].
      rewrite (insert_by_perm x l). constructor; [|exact Hy].
      apply lt_asym; assumption.
    + constructor; [constructor; assumption|].
      constructor; [exact E|].
      rewrite Forall_forall in *. intros z Hz.
      apply (lt_negtrans (key x) (key y) (key z)); auto.
      apply Hy, Hz.
Qed.

Lemma sort_by_sorted l :
  Forall (fun a => good (key a)) l ->
  StronglySorted (not_after lt key) (sort_by lt key l).
Proof.
  induction 1 as [|x l Gx Gl IH]; simpl; [constructor|].
  apply insert_by_sorted; auto.
  rewrite (sort_by_perm l). exact Gl.
Qed.

(** Stability: elements that the order does not separate keep their
    relative order. *)
Variable same : A -> bool.
Hypothesis same_not_lt :
  forall a b, same a = true -> same b = true -> lt (key a) (key b) = false.

Lemma insert_by_filter x l :
  filter same (insert_by lt key x l) = filter same (x :: l).
Proof.
  induction l as [|y l IH]; [reflexivity|].
  cbn [insert_by]. destruct (lt (key y) (key x)) eqn:E; [|reflexivity].
  cbn [filter] in *. rewrite IH.
  destruct (same y) eqn:Sy, (same x) eqn:Sx; try reflexivity.
  rewrite (same_not_lt y x Sy Sx) in E. discriminate.
Qed.

Lemma sort_by_filter l : filter same (sort_by lt key l) = filter same l.
Proof.
  induction l as [|x l IH]; [reflexivity|].
  cbn [sort_by]. rewrite insert_by_filter. cbn [filter]. now rewrite IH.
Qed.

End SortBy.

(** ** The sort key of the dashboard *)

Lemma key_lt_spec a b :
  key_good a -> key_good b ->
  key_lt a b = true <->
  fcompare (fst a) (fst b) = Some Lt
  \/ (fcompare (fst a) (fst b) = Some Eq /\ snd a < snd b).
Proof.
  intros Ga Gb. unfold key_lt.
  destruct (fcompare_total _ _ Ga Gb) as [c Hc].
  destruct (fst a =? fst b)%float eqn:E.
  - apply eqb_fcompare in E. rewrite Z.ltb_lt. rewrite E. split; [auto|].
    intros [H | [_ H]]; [discriminate | exact H].
  - rewrite ltb_fcompare. split; [auto|].
    intros [H | [H _]]; [exact H|]. apply eqb_fcompare in H. congruence.
Qed.

Lemma key_le_spec a b :
  key_good a -> key_good b ->
  key_lt b a = false <->
  fcompare (fst a) (fst b) = Some Lt
  \/ (fcompare (fst a) (fst b) = Some Eq /\ snd a <= snd b).
Proof.
  intros Ga Gb.
  destruct (fcompare_total _ _ Ga Gb) as [c Hc].
  pose proof (fcompare_antisym _ _ _ Hc) as Hc'.
  pose proof (key_lt_spec b a Gb Ga) as S. rewrite Hc' in S. rewrite Hc.
  destruct (key_lt b a).
  - split; [discriminate|]. intros H. exfalso.
    destruct (proj1 S eq_refl) as [L | [L Hz]];
      destruct c; simpl in L; try discriminate;
      destruct H as [H | [H Hz']]; try discriminate; lia.
  - split; [|reflexivity]. intros _.
    destruct c; simpl in S; auto.
    + right. split; [reflexivity|].
      destruct (Z_le_gt_dec (snd a) (snd b)); [assumption|].
      assert (false = true) by (apply S; right; split; [reflexivity | lia]).
      discriminate.
    + assert (false = true) by (apply S; left; reflexivity). discriminate.
Qed.

Lemma key_lt_asym a b :
  key_good a -> key_good b -> key_lt a b = true -> key_lt b a = false.
Proof.
  intros Ga Gb H. apply (key_le_spec a b Ga Gb).
  apply (key_lt_spec a b Ga Gb) in H. destruct H as [H | [H Hz]]; auto.
  right. split; [exact H | lia].
Qed.

Lemma key_lt_negtrans a b c :
  key_good a -> key_good b -> key_good c ->
  key_lt b a = false -> key_lt c b = false -> key_lt c a = false.
Proof.
  intros Ga Gb Gc.
  rewrite (key_le_spec a b Ga Gb), (key_le_spec b c Gb Gc),
    (key_le_spec a c Ga Gc).
  intros [H1 | [H1 Z1]] [H2 | [H2 Z2]].
  - left. eapply fcompare_lt_trans; eassumption.
  - left. eapply fcompare_eq_r; eassumption.
  - left. eapply fcompare_eq_l; eassumption.
  - right. split; [eapply fcompare_eq_l; eassumption | lia].
Qed.

(** ** The counting loop *)

Lemma region_total_app r l1 l2 :
  region_total r (l1 ++ l2) = region_total r l1 + region_total r l2.
Proof. unfold region_total. rewrite filter_app, length_app. lia. Qed.

Lemma region_high_app r l1 l2 :
  region_high r (l1 ++ l2) = region_high r l1 + region_high r l2.
Proof. unfold region_high. rewrite filter_app, length_app. lia. Qed.

Lemma region_total_absent r l :
  ~ In r (map label l) -> region_total r l = 0 /\ region_high r l = 0.
Proof.
  unfold region_total, region_high.
  induction l as [|p l IH]; simpl; [auto|]. intros H.
  destruct (String.eqb_spec (label p) r) as [E|E]; [tauto|]. simpl.
  apply IH. tauto.
Qed.

Lemma entry_ok_other seen p e :
  label p <> fst e -> entry_ok seen e -> entry_ok (seen ++ [p]) e.
Proof.
  unfold entry_ok. intros Hne [H1 H2].
  rewrite region_high_app, region_total_app.
  unfold region_high at 2, region_total at 2. simpl.
  destruct (String.eqb_spec (label p) (fst e)); [contradiction|]. simpl. lia.
Qed.

Lemma count_level_ok counts p :
  valid_tier p = true ->
  exists counts',
    count_level counts (Prediction.risk_level p) = Ok counts' /\
    High counts'
    = High counts + (if (Prediction.risk_level p =? "High")%string then 1 else 0) /\
    Low counts' + Medium counts' + High counts'
    = Low counts + Medium counts + High counts + 1.
Proof.
  unfold valid_tier, count_level. intros H.
  destruct (Prediction.risk_level p =? "Low")%string eqn:EL.
  { apply String.eqb_eq in EL. rewrite EL.
    eexists. split; [reflexivity|]. simpl. lia. }
  destruct (Prediction.risk_level p =? "Medium")%string eqn:EM.
  { apply String.eqb_eq in EM. rewrite EM.
    eexists. split; [reflexivity|]. simpl. lia. }
  destruct (Prediction.risk_level p =? "High")%string eqn:EH.
  { eexists. split; [reflexivity|]. simpl. lia. }
  discriminate.
Qed.

Lemma entry_ok_bump seen p r counts counts' :
  label p = r ->
  High counts'
  = High counts
    + (if (Prediction.risk_level p =? "High")%string then 1 else 0) ->
  Low counts' + Medium counts' + High counts'
  = Low counts + Medium counts + High counts + 1 ->
  entry_ok seen (r, counts) -> entry_ok (seen ++ [p]) (r, counts').
Proof.
  unfold entry_ok. cbn [fst snd]. intros Hl HH HT [H1 H2].
  rewrite region_high_app, region_total_app.
  unfold region_high at 2, region_total at 2. simpl.
  rewrite Hl, String.eqb_refl. cbn [andb].
  destruct (Prediction.risk_level p =? "High")%string; simpl; lia.
Qed.

Lemma stats_count_step seen p stats :
  valid_tier p = true ->
  NoDup (map fst stats) ->
  Forall (entry_ok seen) stats ->
  (~ In (label p) (map fst stats) -> ~ In (label p) (map label seen)) ->
  exists stats',
    stats_count stats (label p) (Prediction.risk_level p) = Ok stats' /\
    Forall (entry_ok (seen ++ [p])) stats' /\
    map fst stats'
    = (if existsb (String.eqb (label p)) (map fst stats) then map fst stats
       else map fst stats ++ [label p])%list.
Proof.
  intros Hv. induction stats as [|[r counts] stats IH]; intros Hn Hf Habs.
  - cbn [stats_count].
    destruct (count_level_ok no_counts p Hv) as (c' & -> & HH & HT).
    cbn [bind]. eexists. split; [reflexivity|]. split; [|reflexivity].
    constructor; [|constructor].
    destruct (region_total_absent (label p) seen (Habs (fun H => H))) as [T0 H0].
    apply (entry_ok_bump seen p (label p) no_counts c' eq_refl HH HT).
    unfold entry_ok. cbn. lia.
  - cbn [stats_count map fst existsb].
    inversion Hn as [|? ? Hnr Hn']; subst.
    inversion Hf as [|? ? Hr Hf']; subst.
    rewrite (String.eqb_sym (label p) r).
    destruct (String.eqb_spec r (label p)) as [->|Hne].
    + destruct (count_level_ok counts p Hv) as (c' & -> & HH & HT).
      cbn [bind orb]. eexists. split; [reflexivity|]. split; [|reflexivity].
      constructor.
      * apply (entry_ok_bump seen p (label p) counts c' eq_refl HH HT Hr).
      * rewrite Forall_forall in *. intros e He.
        apply entry_ok_other; [|apply Hf', He].
        intros E. apply Hnr. rewrite E. apply in_map, He.
    + destruct (IH Hn' Hf') as (stats' & -> & Hok & Hkeys).
      { intros H. apply Habs. simpl. intros [E|E]; [auto|contradiction]. }
      cbn [bind orb]. eexists. split; [reflexivity|].
      split.
      * constructor; [|exact Hok]. apply entry_ok_other; [|exact Hr].
        cbn. auto.
      * cbn [map fst]. rewrite Hkeys.
        destruct (existsb _ _); reflexivity.
Qed.

Lemma existsb_eqb_In r l : existsb (String.eqb r) l = true <-> In r l.
Proof.
  rewrite existsb_exists. split.
  - intros (x & Hx & E). apply String.eqb_eq in E. now subst.
  - intros H. exists r. split; [exact H | apply String.eqb_refl].
Qed.

Lemma count_predictions_spec rest :
  forall seen stats,
  Forall (fun p => valid_tier p = true) rest ->
  NoDup (map fst stats) ->
  Forall (entry_ok seen) stats ->
  (forall r, In r (map fst stats) <-> In r (map label seen)) ->
  exists stats',
    count_predictions rest stats = Ok stats' /\
    NoDup (map fst stats') /\
    Forall (entry_ok (seen ++ rest)) stats' /\
    (forall r, In r (map fst stats') <-> In r (map label (seen ++ rest))) /\
    map fst stats' = distinct_labels (map fst stats) rest.
Proof.
  induction rest as [|p rest IH]; intros seen stats Hv Hn Hf Hk.
  - exists stats. rewrite app_nil_r. repeat split; auto; apply Hk.
  - inversion Hv as [|? ? Hp Hv']; subst.
    destruct (stats_count_step seen p stats Hp Hn Hf) as (stats1 & E1 & Hf1 & Hk1).
    { intros H1 H2. apply H1, Hk, H2. }
    cbn [count_predictions distinct_labels]. fold (label p).
    rewrite E1. cbn [bind].
    assert (Hn1 : NoDup (map fst stats1)).
    { rewrite Hk1. destruct (existsb _ _) eqn:Ex; [exact Hn|].
      apply NoDup_app; [exact Hn | repeat constructor; simpl; tauto |].
      intros r Hr [<-|[]].
      apply existsb_eqb_In in Hr. congruence. }
    assert (Hkk : forall r, In r (map fst stats1) <-> In r (map label (seen ++ [p]))).
    { intros r. rewrite Hk1, map_app, in_app_iff. cbn [map In].
      destruct (existsb _ _) eqn:Ex.
      - apply existsb_eqb_In in Ex. rewrite <- Hk. split; [auto|].
        intros [H | [<- | []]]; auto.
      - rewrite in_app_iff, Hk. cbn [In]. tauto. }
    destruct (IH (seen ++ [p])%list stats1 Hv' Hn1 Hf1 Hkk)
      as (stats' & E & Hn' & Hf' & Hk' & Hd').
    exists stats'. rewrite <- app_assoc in Hf', Hk'. cbn [app] in Hf', Hk'.
    repeat split; auto; try apply Hk'.
    rewrite Hd', Hk1. destruct (existsb _ _); reflexivity.
Qed.

(** ** The summaries *)

Lemma filter_length_le {A : Type} (P : A -> bool) (l : list A) :
  (List.length (filter P l) <= List.length l)%nat.
Proof.
  induction l as [|a l IH]; simpl; [lia|]. destruct (P a); simpl; lia.
Qed.

Lemma region_high_le_total r l : 0 <= region_high r l <= region_total r l.
Proof.
  unfold region_high, region_total. split; [lia|]. apply inj_le.
  induction l as [|p l IH]; simpl; [lia|].
  destruct (label p =? r)%string; simpl; [|exact IH].
  destruct (Prediction.risk_level p =? "High")%string; simpl; lia.
Qed.

Lemma region_total_le_length r l :
  region_total r l <= Z.of_nat (List.length l).
Proof. unfold region_total. apply inj_le, filter_length_le. Qed.

Lemma rounded_percent_ok high total :
  0 <= high <= total -> total < 2 ^ 53 ->
  exists f, rounded_percent high total = Ok f /\ is_number f = true.
Proof.
  intros Hh Ht. unfold rounded_percent.
  destruct (Z.gtb_spec total 0).
  - destruct (int_truediv_small high total) as (q & -> & Nq); try lia.
    cbn [bind]. eexists. split; [reflexivity|].
    apply py_round_number, mul_100_number, Nq.
  - eexists. split; reflexivity.
Qed.

Lemma summarize_spec e :
  summarize e
  = (f <- rounded_percent (High (snd e))
            (Low (snd e) + Medium (snd e) + High (snd e)) ;;
     Ok {| region := fst e;
           total_predictions := Low (snd e) + Medium (snd e) + High (snd e);
           high_count := High (snd e);
           high_percent := f |}).
Proof.
  destruct e as [r counts]. unfold summarize, rounded_percent. cbn [fst snd].
  destruct (_ >? 0).
  - destruct (int_truediv _ _); reflexivity.
  - reflexivity.
Qed.

Lemma summarize_all predictions stats :
  Z.of_nat (List.length predictions) < 2 ^ 53 ->
  Forall (entry_ok predictions) stats ->
  exists summaries,
    map_result summarize stats = Ok summaries /\
    map region summaries = map fst stats /\
    Forall (summary_ok predictions) summaries /\
    Forall (fun s => key_good (sort_key s)) summaries.
Proof.
  intros Hlen. induction 1 as [|e stats [HH HT] Hf (summaries & E & Hr & Hs & Hg)].
  - exists []. repeat split; constructor.
  - cbn [map_result]. rewrite summarize_spec, E.
    pose proof (region_high_le_total (fst e) predictions) as B1.
    pose proof (region_total_le_length (fst e) predictions) as B2.
    destruct (rounded_percent_ok (High (snd e))
                (Low (snd e) + Medium (snd e) + High (snd e)))
      as (f & Ef & Nf); try lia.
    rewrite Ef. cbn [bind]. eexists. split; [reflexivity|].
    split; [cbn; now rewrite Hr|].
    split; constructor; auto.
    + unfold summary_ok. cbn. repeat split; auto.
    + unfold key_good, sort_key. cbn [fst high_percent].
      now rewrite is_number_opp.
Qed.

Lemma not_after_before a b :
  key_good (sort_key a) -> key_good (sort_key b) ->
  not_after key_lt sort_key a b -> summary_before a b.
Proof.
  intros Ga Gb H. unfold not_after in H.
  apply (key_le_spec (sort_key a) (sort_key b) Ga Gb) in H.
  unfold sort_key in H. cbn [fst snd] in H. rewrite fcompare_opp in H.
  unfold summary_before. destruct H as [H | [H Hz]].
  - left. now apply ltb_fcompare.
  - right. split; [|lia]. apply eqb_fcompare.
    apply (fcompare_antisym _ _ _ H).
Qed.

Lemma sorted_before l :
  Forall (fun s => key_good (sort_key s)) l ->
  StronglySorted (not_after key_lt sort_key) l ->
  StronglySorted summary_before l.
Proof.
  intros Hg Hs. induction Hs as [|a l Hs IH Ha]; [constructor|].
  inversion Hg as [|? ? Ga Gl]; subst.
  constructor; [apply IH, Gl|].
  rewrite Forall_forall in *. intros b Hb.
  apply not_after_before; auto.
Qed.

Lemma same_rank_not_lt s a b :
  same_rank a s = true -> same_rank b s = true ->
  key_lt (sort_key a) (sort_key b) = false.
Proof.
  unfold same_rank. rewrite !andb_true_iff, !Z.eqb_eq.
  intros [Ea Ta] [Eb Tb].
  apply eqb_fcompare in Ea, Eb.
  destruct (fcompare_some_number _ _ _ Ea) as [Na _].
  destruct (fcompare_some_number _ _ _ Eb) as [Nb _].
  assert (Ga : key_good (sort_key a))
    by (unfold key_good, sort_key; cbn [fst]; now rewrite is_number_opp).
  assert (Gb : key_good (sort_key b))
    by (unfold key_good, sort_key; cbn [fst]; now rewrite is_number_opp).
  destruct (key_lt (sort_key a) (sort_key b)) eqn:E; [|reflexivity].
  apply (key_lt_spec _ _ Ga Gb) in E.
  unfold sort_key in E. cbn [fst snd] in E. rewrite fcompare_opp in E.
  pose proof (fcompare_antisym _ _ _ Ea) as Ea'. simpl in Ea'.
  pose proof (fcompare_eq_l _ _ _ _ Eb Ea') as Eba.
  destruct E as [E | [_ E]]; [congruence | lia].
Qed.

(** * The claims *)

(** ** Risk tiering *)

(** C1.  For every probability [p] in [[0, 1]], [compute_risk_level]
    returns one of the three tiers, and which one is decided by the two
    boundary checks: Low iff [p < 0.30], Medium iff [0.30 <= p < 0.70],
    High iff [p >= 0.70]; so [0.30] is Medium and [0.70] is High. *)
Theorem compute_risk_level_boundaries (p : float) :
  in_unit_interval p = true ->
  (compute_risk_level p = "Low" \/ compute_risk_level p = "Medium"
   \/ compute_risk_level p = "High") /\
  (compute_risk_level p = "Low" <-> (p <? 0.30)%float = true) /\
  (compute_risk_level p = "Medium" <->
     (0.30 <=? p)%float = true /\ (p <? 0.70)%float = true) /\
  (compute_risk_level p = "High" <-> (0.70 <=? p)%float = true) /\
  compute_risk_level 0.30 = "Medium" /\ compute_risk_level 0.70 = "High".
Proof.
  unfold in_unit_interval. rewrite andb_true_iff. intros [H0 _].
  apply leb_number in H0. destruct H0 as [_ Hp].
  assert (N3 : is_number 0.3 = true) by reflexivity.
  assert (N7 : is_number 0.7 = true) by reflexivity.
  assert (L37 : (0.3 <=? 0.7)%float = true) by reflexivity.
  unfold compute_risk_level.
  destruct (p <? 0.3)%float eqn:E3.
  - pose proof (ltb_leb_trans p 0.3 0.7 E3 L37) as E7.
    repeat split; auto; try discriminate; try (intros [A B]); try intros A.
    + apply leb_ltb_false in A. congruence.
    + apply leb_ltb_false in A. congruence.
  - pose proof (ltb_false_leb p 0.3 Hp N3 E3) as G3.
    destruct (p <? 0.7)%float eqn:E7.
    + repeat split; auto; try discriminate; try intros A.
      apply leb_ltb_false in A. congruence.
    + pose proof (ltb_false_leb p 0.7 Hp N7 E7) as G7.
      repeat split; auto; try discriminate. intros [_ A]; discriminate.
Qed.

Lemma compute_risk_level_boundaries_witness :
  in_unit_interval 0.5 = true /\
  (compute_risk_level 0.5 = "Medium" <->
     (0.30 <=? 0.5)%float = true /\ (0.5 <? 0.70)%float = true).
Proof.
  split; [reflexivity|].
  apply (compute_risk_level_boundaries 0.5). reflexivity.
Defined.

(** ** Recommendation synthesis *)

(** C2.  For every tier, region, observation, AQI value (an [int], as the
    signature has it and the callers pass it) and category and facility
    count, [generate_recommendations] returns the tier-driven
    items (two for High or Medium, one otherwise, so one for Low), then
    one symptom item, one air-quality item, one facility-coverage item and
    the fixed data-quality item, in that order: six items for High or
    Medium and five for Low. *)
Theorem generate_recommendations_length
    (rl region : string) (x : features) (aqi : Z) (cat : string) (hc : Z) :
  exists l,
    generate_recommendations rl region x (Some aqi) cat hc = Ok l /\
    l = (tier_directive rl region
         ++ [symptom_directive (top_symptom x);
             air_directive region cat aqi;
             facility_directive rl hc;
             data_quality_item])%list /\
    In (symptom_directive (top_symptom x)) symptom_items /\
    List.length (tier_directive rl region)
    = (if ((rl =? "High") || (rl =? "Medium"))%string then 2 else 1)%nat /\
    List.length l
    = (if ((rl =? "High") || (rl =? "Medium"))%string then 6 else 5)%nat /\
    (rl = "High" \/ rl = "Medium" -> List.length l = 6%nat) /\
    (rl = "Low" -> List.length l = 5%nat).
Proof.
  eexists. split; [apply generate_recommendations_stages|].
  split; [reflexivity|].
  split.
  { unfold symptom_directive, symptom_items.
    destruct (_ =? "Fever")%string; [simpl; auto|].
    destruct (_ =? "Cough")%string; simpl; auto. }
  rewrite length_app. unfold tier_directive.
  repeat split.
  - destruct (rl =? "High")%string, (rl =? "Medium")%string; reflexivity.
  - destruct (rl =? "High")%string, (rl =? "Medium")%string; reflexivity.
  - intros [-> | ->]; reflexivity.
  - intros ->; reflexivity.
Qed.


(** C3.  For every observation with finite counts and a population that
    is a number, the item emitted is the one the rates
    [(count / max(population, 1)) * 10000] select.  The denominator is the
    greater of the population and 1: it is at least both and it is one of
    them.  Exactly one symptom item is emitted, and it is the item of the
    symptom with the highest of these rates, ties going to the earlier of
    fever, cough, diarrhea: fever on a three-way tie. *)
Theorem dominant_symptom_item
    (rl region : string) (x : features) (aqi : Z) (cat : string) (hc : Z) :
  observation_ok x = true ->
  exists denominator l,
    (region_population x <=? denominator)%float = true /\
    (1 <=? denominator)%float = true /\
    (denominator = region_population x \/ denominator = 1%float) /\
    let fever_rate := (fever_cases x / denominator * 10000)%float in
    let cough_rate := (cough_cases x / denominator * 10000)%float in
    let diarrhea_rate := (diarrhea_cases x / denominator * 10000)%float in
    generate_recommendations rl region x (Some aqi) cat hc = Ok l /\
    List.length (filter is_symptom_item l) = 1%nat /\
    In (symptom_directive
          (dominant_symptom fever_rate cough_rate diarrhea_rate)) l /\
    (In fever_item l <->
       (cough_rate <=? fever_rate)%float = true
       /\ (diarrhea_rate <=? fever_rate)%float = true) /\
    (In cough_item l <->
       (fever_rate <? cough_rate)%float = true
       /\ (diarrhea_rate <=? cough_rate)%float = true) /\
    (In diarrhea_item l <->
       (fever_rate <? diarrhea_rate)%float = true
       /\ (cough_rate <? diarrhea_rate)%float = true) /\
    ((fever_rate =? cough_rate)%float = true ->
     (cough_rate =? diarrhea_rate)%float = true -> In fever_item l).
Proof.
  intros Hx.
  pose proof (top_symptom_dominant x Hx) as Ht.
  unfold observation_ok in Hx. rewrite !andb_true_iff in Hx.
  destruct Hx as [[[Hf Hc] Hd] Hp].
  exists (py_max (region_population x) 1). eexists.
  split; [apply py_max_one_ge_l, Hp|].
  split; [apply py_max_one_ge, Hp|].
  split; [apply py_max_one_cases|].
  change (fever_cases x / py_max (region_population x) 1 * 10000)%float
    with (rate (fever_cases x) (region_population x)).
  change (cough_cases x / py_max (region_population x) 1 * 10000)%float
    with (rate (cough_cases x) (region_population x)).
  change (diarrhea_cases x / py_max (region_population x) 1 * 10000)%float
    with (rate (diarrhea_cases x) (region_population x)).
  intros fr cr dr. fold fr cr dr in Ht.
  pose proof (rate_is_number _ _ Hf Hp) as Nf.
  pose proof (rate_is_number _ _ Hc Hp) as Nc.
  pose proof (rate_is_number _ _ Hd Hp) as Nd.
  fold fr in Nf. fold cr in Nc. fold dr in Nd.
  destruct (dominant_symptom_cases fr cr dr Nf Nc Nd) as (CF & CC & CD).
  destruct (symptom_directive_inj _ (dominant_symptom_name fr cr dr))
    as (IF & IC & ID).
  split; [apply generate_recommendations_stages|].
  split; [apply one_symptom_item|].
  split.
  { apply in_symptom_item; [apply symptom_directive_is_item | now rewrite Ht]. }
  rewrite (in_symptom_item _ _ _ _ _ _ fever_item eq_refl).
  rewrite (in_symptom_item _ _ _ _ _ _ cough_item eq_refl).
  rewrite (in_symptom_item _ _ _ _ _ _ diarrhea_item eq_refl).
  rewrite Ht.
  split; [rewrite IF; exact CF|].
  split; [rewrite IC; exact CC|].
  split; [rewrite ID; exact CD|].
  intros E1 E2. apply IF, CF.
  rewrite !leb_fcompare. apply eqb_fcompare in E1, E2.
  pose proof (fcompare_antisym _ _ _ E1) as E1'. simpl in E1'.
  pose proof (fcompare_antisym _ _ _ E2) as E2'. simpl in E2'.
  split; right; [exact E1'|].
  apply (fcompare_eq_l dr cr fr Eq E2' E1').
Qed.

(** With counts near the largest float the division by the population
    decides: the rates are about 1e308 and 1.5e308 and cough is selected,
    whereas the counts times 10000 would both be infinite. *)
Lemma dominant_symptom_item_witness :
  exists l,
    generate_recommendations "High" "Surat"
      {| fever_cases := 1e308; cough_cases := 1.5e308; diarrhea_cases := 5;
         region_population := 10000 |} (Some 130) "Moderate" 2 = Ok l
    /\ In cough_item l
    /\ (1e308 * 10000 =? 1.5e308 * 10000)%float = true.
Proof.
  destruct (dominant_symptom_item "High" "Surat"
      {| fever_cases := 1e308; cough_cases := 1.5e308; diarrhea_cases := 5;
         region_population := 10000 |} 130 "Moderate" 2 eq_refl)
    as (d & l & D1 & D2 & D3 & H & _ & _ & _ & HC & _).
  exists l. split; [exact H|]. split; [|reflexivity].
  apply HC.
  cbn [region_population fever_cases cough_cases diarrhea_cases] in *.
  destruct D3 as [-> | ->]; [split; reflexivity|].
  discriminate D1.
Defined.

(** C10.  [generate_recommendations] never divides by zero: whatever the
    population (zero, negative, NaN), the denominator [max(population, 1)]
    does not compare equal to zero, and is at least 1 when the population
    is a number; every division succeeds and the function returns a
    list. *)
Theorem generate_recommendations_total
    (rl region : string) (x : features) (aqi_value : option Z) (cat : string)
    (hc : Z) :
  (py_max (region_population x) 1 =? 0)%float = false /\
  (is_number (region_population x) = true ->
   (1 <=? py_max (region_population x) 1)%float = true) /\
  (forall count,
     float_truediv count (py_max (region_population x) 1)
     = Ok (count / py_max (region_population x) 1)%float) /\
  exists l, generate_recommendations rl region x aqi_value cat hc = Ok l.
Proof.
  split; [apply py_max_one_nonzero|].
  split; [apply py_max_one_ge|].
  split.
  - intros count. unfold float_truediv. now rewrite py_max_one_nonzero.
  - unfold generate_recommendations, float_truediv.
    rewrite py_max_one_nonzero. cbn [bind max_key]. eexists. reflexivity.
Qed.

Example recommendations_zero_population :
  exists l,
    generate_recommendations "Low" "Surat"
      {| fever_cases := 50; cough_cases := 10; diarrhea_cases := 5;
         region_population := 0 |} (Some 130) "Moderate" 2 = Ok l
    /\ List.length l = 5%nat.
Proof. eexists. split; reflexivity. Qed.

Example recommendations_nan_population :
  exists l,
    generate_recommendations "Low" "Surat"
      {| fever_cases := 50; cough_cases := 10; diarrhea_cases := 5;
         region_population := nan |} (Some 130) "Moderate" 2 = Ok l
    /\ List.length l = 5%nat.
Proof. eexists. split; reflexivity. Qed.

(** The guard [aqi_value is not None]: both callers pass the [int] of
    [get_region_aqi]; were [None] passed, the air-quality stage would add
    nothing. *)
Example recommendations_without_aqi :
  exists l,
    generate_recommendations "Low" "Surat"
      {| fever_cases := 50; cough_cases := 10; diarrhea_cases := 5;
         region_population := 10000 |} None "Moderate" 2 = Ok l
    /\ List.length l = 4%nat.
Proof. eexists. split; reflexivity. Qed.

(** ** Environmental lookup *)

(** C7.  For every region, a string or [None], [get_region_aqi] returns
    a value and a category: the value is that of the trimmed, lowercased
    region in the table, 90 when it is not there (so for [None], the
    empty string and every unknown region, with category Satisfactory),
    and the category is the breakpoint function of the value.  Two
    regions with the same normalized form get the same answer: so do a
    region and its lowercase form, and a region with or without a blank
    in front or behind. *)
Theorem get_region_aqi_total (region : option string) :
  let key := normalize (str_or region "unknown") in
  let aqi_value := fst (get_region_aqi region) in
  let category := snd (get_region_aqi region) in
  aqi_value = dict_get_default sample_data key 90 /\
  category = aqi_breakpoints aqi_value /\
  (dict_get sample_data key = None ->
   get_region_aqi region = (90, "Satisfactory")) /\
  get_region_aqi None = (90, "Satisfactory") /\
  get_region_aqi (Some EmptyString) = (90, "Satisfactory") /\
  (forall region',
     normalize (str_or region' "unknown") = key ->
     get_region_aqi region' = get_region_aqi region) /\
  (forall r, get_region_aqi (Some (lower r)) = get_region_aqi (Some r)) /\
  (forall c r,
     is_space c = true ->
     get_region_aqi (Some (String c r)) = get_region_aqi (Some r)
     /\ get_region_aqi (Some (r ++ String c EmptyString))
        = get_region_aqi (Some r)) /\
  get_region_aqi (Some "  SuRat ") = (130, "Moderate").
Proof.
  cbv zeta.
  split; [reflexivity|]. split; [reflexivity|].
  split.
  { intros H. unfold get_region_aqi, normalize in *. unfold dict_get_default.
    rewrite H. reflexivity. }
  split; [reflexivity|]. split; [reflexivity|].
  split; [intros region'; apply get_region_aqi_key|].
  split.
  { intros r. apply get_region_aqi_key.
    destruct r as [|d r]; [reflexivity|]. apply (normalize_lower (String d r)). }
  split; [|reflexivity].
  intros c r Hc. split.
  - destruct r as [|d r].
    + unfold get_region_aqi. cbn [str_or]. rewrite (strip_leading c EmptyString Hc).
      reflexivity.
    + apply get_region_aqi_key. unfold normalize. cbn [str_or].
      now rewrite (strip_leading c _ Hc).
  - destruct r as [|d r].
    + unfold get_region_aqi. cbn [str_or append].
      rewrite (strip_leading c EmptyString Hc). reflexivity.
    + apply get_region_aqi_key. unfold normalize. cbn [str_or append].
      change (String d (r ++ String c EmptyString))
        with (String d r ++ String c EmptyString).
      now rewrite (strip_trailing c _ Hc).
Qed.

(** ** The prediction routes *)

(** C5.  While no model is loaded, [/api/predict] answers 500 "Model not
    trained" and [/predict] answers 500 as well, whatever the request
    holds, and the store is unchanged: the check comes before the body
    is read.  A request to the API that is answered with an explicit
    error gets status 500 exactly when no model is loaded and status 400
    (validation) otherwise. *)
Theorem model_unavailable
    (float_of_str : string -> option float) (current_user_id : Z)
    (store : list Prediction.t) (data : api_data) (method : http_method)
    (form : form_data) :
  api_predict float_of_str None current_user_id store data
  = (Error 500 "Model not trained", store) /\
  predict float_of_str None current_user_id store method form
  = (Error 500 "Model not trained yet. Please train model first.", store) /\
  (forall load_model status body store',
     api_predict float_of_str load_model current_user_id store data
     = (Error status body, store') ->
     (load_model = None /\ status = 500)
     \/ (load_model <> None /\ status = 400)) /\
  (forall load_model status body store',
     predict float_of_str load_model current_user_id store method form
     = (Error status body, store') ->
     status = 500 /\ load_model = None).
Proof.
  split; [reflexivity|]. split; [reflexivity|]. split.
  - intros load_model status body store'. unfold api_predict.
    destruct load_model as [m|].
    + destruct (api_parse float_of_str data) as [[region x]|e].
      * destruct (assess current_user_id m region x) as [[row res]|e];
          [destruct (db_add store row)|]; discriminate.
      * destruct e; try discriminate; intros [= <- _ _];
          right; (split; [discriminate | reflexivity]).
    + intros [= <- _ _]. left. split; reflexivity.
  - intros load_model status body store'. unfold predict.
    destruct load_model as [m|].
    + destruct method; [discriminate|].
      destruct (form_submit _ _ _ _ _) as [[[row res] s']|e]; discriminate.
    + intros [= <- _ _]. auto.
Qed.




(** C9.  When every probability the oracle returns is a number (as every
    probability in [[0, 1]] is, [in_unit_interval_number]), every request
    to either route keeps the store consistent: a row with tier High has
    flag 1 and a row with tier Low has flag 0.  So every row persisted by
    any sequence of requests, from the empty store, is consistent. *)
Theorem tier_flag_consistent
    (float_of_str : string -> option float)
    (load_model : option (float -> float -> float -> float -> result float)) :
  (forall model a b c d p,
     load_model = Some model -> model a b c d = Ok p ->
     is_number p = true) ->
  (forall store c,
     Forall tier_consistent store ->
     Forall tier_consistent (serve float_of_str load_model store c)) /\
  (forall calls,
     Forall tier_consistent (serve_all float_of_str load_model calls)).
Proof.
  intros Hmodel.
  assert (Hrow : forall uid m region x row res,
    load_model = Some m ->
    assess uid m region x = Ok (row, res) -> tier_consistent row).
  { intros uid m region x row res Hl Ha.
    destruct (assess_inv _ _ _ _ _ _ Ha) as (p & Hp & Hflag & Htier).
    pose proof (Hmodel _ _ _ _ _ _ Hl Hp) as Np.
    destruct (tier_flag_float p Np) as [HH HL].
    unfold tier_consistent. rewrite Hflag, Htier. split; intros H.
    - now rewrite (HH H).
    - now rewrite (HL H). }
  assert (Hstep : forall store c,
    Forall tier_consistent store ->
    Forall tier_consistent (serve float_of_str load_model store c)).
  { intros store [uid data | uid method form] Hstore; cbn [serve].
    - unfold api_predict.
      destruct load_model as [m|] eqn:El; [|exact Hstore].
      destruct (api_parse float_of_str data) as [[region x]|e].
      + destruct (assess uid m region x) as [[row res]|e] eqn:Ea;
          [|exact Hstore].
        destruct (db_add store row) as [store'|e] eqn:Ed; [|exact Hstore].
        apply db_add_inv in Ed. destruct Ed as [-> _].
        cbn [snd]. apply Forall_app.
        split; [exact Hstore|]. constructor; [|constructor].
        exact (Hrow uid m region x row res eq_refl Ea).
      + destruct e; exact Hstore.
    - unfold predict.
      destruct load_model as [m|] eqn:El; [|exact Hstore].
      destruct method; [exact Hstore|].
      destruct (form_submit _ _ _ _ _) as [[[row res] store']|e] eqn:Es;
        [|exact Hstore].
      destruct (form_submit_inv _ _ _ _ _ _ _ _ Es)
        as (region & x & _ & Ea & _ & ->).
      cbn [snd]. apply Forall_app.
      split; [exact Hstore|]. constructor; [|constructor].
      exact (Hrow uid m (Some region) x row res eq_refl Ea). }
  split; [exact Hstep|].
  intros calls. unfold serve_all.
  assert (G : forall store,
    Forall tier_consistent store ->
    Forall tier_consistent (fold_left (serve float_of_str load_model) calls store)).
  { induction calls as [|c calls IH]; intros store Hs; [exact Hs|].
    cbn [fold_left]. apply IH, Hstep, Hs. }
  apply G. constructor.
Qed.

Lemma tier_flag_consistent_witness :
  Forall tier_consistent
    (serve_all float_of_digits (Some (constant_model 0.82))
       [ApiPredict 7
          (json_body "Surat" (JInt 50) (JInt 10) (JInt 5) (JInt 10000));
        FormPredict 8 POST
          {| form_region := Some "Pune"; form_fever_cases := Some "1";
             form_cough_cases := Some "2"; form_diarrhea_cases := Some "3";
             form_region_population := Some "400" |}])
  /\ List.length
       (serve_all float_of_digits (Some (constant_model 0.82))
          [ApiPredict 7
             (json_body "Surat" (JInt 50) (JInt 10) (JInt 5) (JInt 10000));
           FormPredict 8 POST
             {| form_region := Some "Pune"; form_fever_cases := Some "1";
                form_cough_cases := Some "2"; form_diarrhea_cases := Some "3";
                form_region_population := Some "400" |}]) = 2%nat.
Proof.
  split; [|reflexivity].
  apply (tier_flag_consistent float_of_digits (Some (constant_model 0.82))).
  intros model a b c d p [= <-]. unfold constant_model.
  intros [= <-]. reflexivity.
Defined.

(** C4, as the code has it.  Nothing checks the sign or the size of a
    number: a population of zero and a negative count are assessed and
    stored; and the message for a non-numeric string does not say which
    field it was. *)
Lemma zero_population_accepted :
  (exists res row,
     api_predict float_of_digits (Some (constant_model 0.82)) 7 []
       (json_body "Surat" (JInt 50) (JInt 10) (JInt 5) (JInt 0))
     = (Success res, [row])
     /\ Prediction.region_population row = 0) /\
  (exists res row,
     api_predict float_of_digits (Some (constant_model 0.82)) 7 []
       (json_body "Surat" (JInt (-50)) (JInt 10) (JInt 5) (JInt 10000))
     = (Success res, [row])
     /\ Prediction.fever_cases row = -50) /\
  (exists page row,
     predict float_of_digits (Some (constant_model 0.82)) 7 [] POST
       {| form_region := Some "Surat"; form_fever_cases := Some "50";
          form_cough_cases := Some "10"; form_diarrhea_cases := Some "5";
          form_region_population := Some "0" |}
     = (Success page, [row])
     /\ Prediction.region_population row = 0) /\
  api_predict float_of_digits (Some (constant_model 0.82)) 7 []
    (json_body "Surat" (JStr "abc") (JInt 10) (JInt 5) (JInt 10000))
  = api_predict float_of_digits (Some (constant_model 0.82)) 7 []
      (json_body "Surat" (JInt 50) (JInt 10) (JInt 5) (JStr "abc")).
Proof.
  split; [|split; [|split]].
  - eexists. eexists. split; [vm_compute; reflexivity|]. reflexivity.
  - eexists. eexists. split; [vm_compute; reflexivity|]. reflexivity.
  - eexists. eexists. split; [vm_compute; reflexivity|]. reflexivity.
  - vm_compute. reflexivity.
Qed.


(** C4, amended.  When the first offending numeric field of a request to
    [/api/predict] (read in the order fever, cough, diarrhea, population)
    is missing or is a string that is not a number, the answer is status
    400, "Missing field: '<name>'" with the name of the missing field or
    "Invalid numeric values", and the store is unchanged; [/predict]
    answers 400 with the exception and leaves the store unchanged.
    Fields that are floats are never refused, whatever their value. *)
Theorem invalid_request_rejected
    (float_of_str : string -> option float) (current_user_id : Z)
    (model : float -> float -> float -> float -> result float)
    (store : list Prediction.t) (data : api_data) (e : exn) :
  first_offence float_of_str data = Some e ->
  e = ValueError \/ (exists k, e = KeyError k) ->
  api_predict float_of_str (Some model) current_user_id store data
  = (Error 400 (validation_message e), store) /\
  (forall k, e = KeyError k ->
     validation_message e = "Missing field: '" ++ k ++ "'"
     /\ In k ["fever_cases"; "cough_cases"; "diarrhea_cases";
              "region_population"]) /\
  (e = ValueError -> validation_message e = "Invalid numeric values") /\
  (forall form e',
     form_first_offence float_of_str form = Some e' ->
     predict float_of_str (Some model) current_user_id store POST form
     = (ErrorOf 400 "Error in prediction: " e', store)) /\
  (forall region fever cough diarrhea population,
     first_offence float_of_str
       (json_body region (JFloat fever) (JFloat cough) (JFloat diarrhea)
          (JFloat population)) = None).
Proof.
  intros Ho He.
  pose proof (api_parse_offence float_of_str data) as Hp. rewrite Ho in Hp.
  split; [|split; [|split; [|split; [|reflexivity]]]].
  - unfold api_predict. rewrite Hp.
    destruct He as [-> | [k ->]]; reflexivity.
  - intros k ->. split; [reflexivity|].
    apply (first_offence_key float_of_str data), Ho.
  - intros ->. reflexivity.
  - intros form e' Hf.
    pose proof (form_parse_offence float_of_str form) as Hq. rewrite Hf in Hq.
    unfold predict, form_submit, form_assess. rewrite Hq. reflexivity.
Qed.

Lemma invalid_request_rejected_witness :
  api_predict float_of_digits (Some (constant_model 0.82)) 7 []
    {| data_region := Some (Some "Surat");
       data_fever_cases := Some (JInt 50);
       data_cough_cases := None;
       data_diarrhea_cases := Some (JInt 5);
       data_region_population := Some (JInt 10000) |}
  = (Error 400 "Missing field: 'cough_cases'", []).
Proof.
  apply (invalid_request_rejected float_of_digits 7 (constant_model 0.82) []
           {| data_region := Some (Some "Surat");
              data_fever_cases := Some (JInt 50);
              data_cough_cases := None;
              data_diarrhea_cases := Some (JInt 5);
              data_region_population := Some (JInt 10000) |}
           (KeyError "cough_cases") eq_refl).
  right. exists "cough_cases". reflexivity.
Defined.

(** ** Region aggregation *)

(** C8, as the code has it.  The percentage of a summary is rounded to
    one decimal ([1 / 3] gives 33.3, not 33.33...), and the sort compares
    the rounded values: region B (32 of 39 High, 82.05...%) is listed
    before region A (23 of 28 High, 82.14...%), since both round to 82.1
    and B has more rows. *)
Lemma percentage_is_rounded :
  region_summary
    [example_row "A" "High"; example_row "A" "Low"; example_row "A" "Low"]
  = Ok [{| region := "A"; total_predictions := 3; high_count := 1;
           high_percent := 33.3 |}]
  /\ int_truediv (100 * 1) 3 = Ok 33.333333333333336%float
  /\ (33.3 =? 33.333333333333336)%float = false
  /\ region_summary two_regions
     = Ok [{| region := "B"; total_predictions := 39; high_count := 32;
              high_percent := 82.1 |};
           {| region := "A"; total_predictions := 28; high_count := 23;
              high_percent := 82.1 |}]
  /\ 100 * 32 * 28 < 100 * 23 * 39.
Proof.
  split; [vm_compute; reflexivity|].
  split; [vm_compute; reflexivity|].
  split; [reflexivity|].
  split; [vm_compute; reflexivity|].
  reflexivity.
Qed.

(** C8, amended.  For every collection of fewer than [2^53] rows with
    tiers Low, Medium or High, the aggregation returns one summary per
    region (rows without a region, or with an empty one, under
    "Unknown"), each with its row count, its High count and the
    percentage [(high / total) * 100] rounded to one decimal; the list is
    in descending order of the rounded percentage, then of the row count,
    and summaries equal in both keep their grouping order (that of first
    appearance).  No row gives no summary. *)
Theorem region_summary_ranked (predictions : list Prediction.t) :
  Forall (fun p => valid_tier p = true) predictions ->
  Z.of_nat (List.length predictions) < 2 ^ 53 ->
  exists grouped summaries,
    region_summary predictions = Ok summaries /\
    map region grouped = distinct_labels [] predictions /\
    Permutation summaries grouped /\
    NoDup (map region summaries) /\
    (forall r, In r (map region summaries) <-> In r (map label predictions)) /\
    (forall p, In p predictions ->
       Prediction.region p = None \/ Prediction.region p = Some EmptyString ->
       In "Unknown" (map region summaries)) /\
    Forall (summary_ok predictions) summaries /\
    StronglySorted summary_before summaries /\
    (forall s,
       filter (fun t => same_rank t s) summaries
       = filter (fun t => same_rank t s) grouped) /\
    (predictions = [] -> summaries = []) /\
    region_summary [] = Ok [].
Proof.
  intros Hv Hlen.
  destruct (count_predictions_spec predictions [] [] Hv)
    as (stats & Ec & Hn & Hf & Hk & Hd);
    [constructor | constructor | reflexivity |].
  cbn [app] in Hf, Hk. cbn [map] in Hd.
  destruct (summarize_all predictions stats Hlen Hf)
    as (grouped & Es & Hr & Hs & Hg).
  pose proof (sort_by_perm key_lt sort_key grouped) as Hp.
  exists grouped, (sort_by key_lt sort_key grouped).
  unfold region_summary. rewrite Ec. cbn [bind]. rewrite Es. cbn [bind].
  split; [reflexivity|].
  split; [now rewrite Hr|].
  split; [exact Hp|].
  split; [rewrite Hp, Hr; exact Hn|].
  split; [intros r; rewrite Hp, Hr; apply Hk|].
  split.
  { intros p Hin Hnone. rewrite Hp, Hr. apply Hk.
    replace "Unknown" with (label p)
      by (unfold label; destruct Hnone as [-> | ->]; reflexivity).
    apply in_map, Hin. }
  split; [rewrite Hp; exact Hs|].
  split.
  { apply sorted_before; [rewrite Hp; exact Hg|].
    apply (sort_by_sorted key_lt sort_key key_good key_lt_asym
             key_lt_negtrans), Hg. }
  split.
  { intros s. apply sort_by_filter. intros a b. apply same_rank_not_lt. }
  split; [|reflexivity].
  intros ->. cbn in Ec. injection Ec as <-. cbn in Es. injection Es as <-.
  reflexivity.
Qed.

Lemma region_summary_ranked_witness :
  exists summaries,
    region_summary two_regions = Ok summaries
    /\ StronglySorted summary_before summaries.
Proof.
  destruct (region_summary_ranked two_regions) as (grouped & summaries & H).
  - repeat constructor.
  - vm_compute. reflexivity.
  - exists summaries. tauto.
Defined.

(** The dashboard shows that list for the rows of the current user. *)
Lemma dashboard_region_summary current_user_id store :
  match
    region_summary
      (filter (fun p => Prediction.user_id p =? current_user_id) store)
  with
  | Ok summaries =>
      exists page,
        dashboard current_user_id store = Ok page
        /\ page_region_summary page = summaries
  | Raise e => dashboard current_user_id store = Raise e
  end.
Proof.
  unfold region_summary, dashboard.
  destruct (count_predictions _ _) as [stats|e]; [|reflexivity]. cbn [bind].
  destruct (map_result summarize stats) as [l|e]; [|reflexivity]. cbn [bind].
  eexists. split; reflexivity.
Qed.
(** * Further properties of the code *)

(** ** Tiering *)

Lemma not_number_ltb_l p q : is_number p = false -> (p <? q)%float = false.
Proof.
  intros H. destruct (p <? q)%float eqn:E; [|reflexivity].
  apply ltb_number in E. destruct E as [E _]. congruence.
Qed.

Lemma not_number_ltb_r p q : is_number q = false -> (p <? q)%float = false.
Proof.
  intros H. destruct (p <? q)%float eqn:E; [|reflexivity].
  apply ltb_number in E. destruct E as [_ E]. congruence.
Qed.

Lemma compute_risk_level_valid p :
  compute_risk_level p = "Low" \/ compute_risk_level p = "Medium"
  \/ compute_risk_level p = "High".
Proof.
  unfold compute_risk_level.
  destruct (p <? 0.3)%float; [now left|].
  destruct (p <? 0.7)%float; [right; now left | right; now right].
Qed.

(** X1.  [compute_risk_level] is monotone: a probability that is not
    smaller never gets a lower tier (Low < Medium < High). *)
Theorem compute_risk_level_monotone (p q : float) :
  (p <=? q)%float = true ->
  tier_rank (compute_risk_level p) <= tier_rank (compute_risk_level q).
Proof.
  intros H. unfold compute_risk_level.
  destruct (q <? 0.3)%float eqn:Q3.
  - rewrite (leb_ltb_trans p q 0.3 H Q3). apply Z.leb_le. reflexivity.
  - destruct (q <? 0.7)%float eqn:Q7.
    + rewrite (leb_ltb_trans p q 0.7 H Q7).
      destruct (p <? 0.3)%float; apply Z.leb_le; reflexivity.
    + destruct (p <? 0.3)%float, (p <? 0.7)%float; apply Z.leb_le; reflexivity.
Qed.

Lemma compute_risk_level_monotone_witness :
  (0.29 <=? 0.7)%float = true /\
  tier_rank (compute_risk_level 0.29) <= tier_rank (compute_risk_level 0.7).
Proof.
  split; [reflexivity|].
  apply (compute_risk_level_monotone 0.29 0.7). reflexivity.
Defined.

(** ** Context lookups *)

Lemma get_hospitals_for_region_key region region' :
  normalize (str_or region' "unknown") = normalize (str_or region "unknown") ->
  get_hospitals_for_region region' = get_hospitals_for_region region.
Proof. unfold get_hospitals_for_region, normalize. now intros ->. Qed.

Lemma hospitals_none_or_two region :
  get_hospitals_for_region region = []
  \/ List.length (get_hospitals_for_region region) = 2%nat.
Proof.
  unfold get_hospitals_for_region, dict_get_default.
  generalize (lower (strip (str_or region "unknown"))). intros k.
  unfold hospitals_map. cbn [dict_get].
  destruct ("surat" =? k)%string; [now right|].
  destruct ("ahmedabad" =? k)%string; [now right | now left].
Qed.

(** X2.  [get_hospitals_for_region] looks the trimmed, lowercased region
    up: the answer does not depend on case or on surrounding blanks, it is
    the empty list for [None], the empty string and every unmapped region,
    and it has two facilities exactly for surat and ahmedabad. *)
Theorem get_hospitals_for_region_normalized (region : option string) :
  let key := normalize (str_or region "unknown") in
  (forall region',
     normalize (str_or region' "unknown") = key ->
     get_hospitals_for_region region' = get_hospitals_for_region region) /\
  (forall r,
     get_hospitals_for_region (Some (lower r))
     = get_hospitals_for_region (Some r)) /\
  (forall c r,
     is_space c = true ->
     get_hospitals_for_region (Some (String c r))
     = get_hospitals_for_region (Some r)
     /\ get_hospitals_for_region (Some (r ++ String c EmptyString))
        = get_hospitals_for_region (Some r)) /\
  get_hospitals_for_region None = [] /\
  get_hospitals_for_region (Some EmptyString) = [] /\
  (dict_get hospitals_map key = None -> get_hospitals_for_region region = []) /\
  (List.length (get_hospitals_for_region region) = 2%nat <->
     key = "surat" \/ key = "ahmedabad") /\
  (get_hospitals_for_region region = [] <->
     key <> "surat" /\ key <> "ahmedabad").
Proof.
  cbv zeta.
  split; [intros region'; apply get_hospitals_for_region_key|].
  split.
  { intros r. apply get_hospitals_for_region_key.
    destruct r as [|d r]; [reflexivity|]. apply (normalize_lower (String d r)). }
  split.
  { intros c r Hc. split.
    - destruct r as [|d r].
      + unfold get_hospitals_for_region. cbn [str_or].
        rewrite (strip_leading c EmptyString Hc). reflexivity.
      + apply get_hospitals_for_region_key. unfold normalize. cbn [str_or].
        now rewrite (strip_leading c _ Hc).
    - destruct r as [|d r].
      + unfold get_hospitals_for_region. cbn [str_or append].
        rewrite (strip_leading c EmptyString Hc). reflexivity.
      + apply get_hospitals_for_region_key. unfold normalize.
        cbn [str_or append].
        change (String d (r ++ String c EmptyString))
          with (String d r ++ String c EmptyString).
        now rewrite (strip_trailing c _ Hc). }
  split; [reflexivity|]. split; [reflexivity|].
  unfold get_hospitals_for_region, normalize, dict_get_default.
  generalize (lower (strip (str_or region "unknown"))). intros k.
  unfold hospitals_map. cbn [dict_get].
  destruct (String.eqb_spec "surat" k) as [E1|E1].
  { subst k. cbn. split; [discriminate|].
    split; [split; auto|]. split; [discriminate|]. intros [A _]. now elim A. }
  destruct (String.eqb_spec "ahmedabad" k) as [E2|E2].
  { subst k. cbn. split; [discriminate|].
    split; [split; auto|]. split; [discriminate|]. intros [_ A]. now elim A. }
  cbn. split; [reflexivity|].
  split; [split; [discriminate | intros [A|A]; congruence]|].
  split; auto.
Qed.

(** X3.  Whatever the region, the AQI of [get_region_aqi] lies between 90
    and 220 and its category is Satisfactory, Moderate or Poor: the
    branches Good, Very Poor and Severe are never taken.  The value 90 is
    the answer exactly for the unmapped regions, Poor exactly for delhi,
    and every region that has hospitals has a Moderate AQI of its own. *)
Theorem get_region_aqi_range (region : option string) :
  let key := normalize (str_or region "unknown") in
  let aqi_value := fst (get_region_aqi region) in
  let category := snd (get_region_aqi region) in
  90 <= aqi_value <= 220 /\
  (category = "Satisfactory" \/ category = "Moderate" \/ category = "Poor") /\
  (aqi_value = 90 <-> dict_get sample_data key = None) /\
  (category = "Satisfactory" <-> aqi_value = 90) /\
  (category = "Poor" <-> key = "delhi") /\
  (get_hospitals_for_region region <> [] ->
   category = "Moderate" /\ (aqi_value = 130 \/ aqi_value = 160)).
Proof.
  cbv zeta.
  unfold get_region_aqi, get_hospitals_for_region, normalize, dict_get_default.
  generalize (lower (strip (str_or region "unknown"))). intros k.
  unfold sample_data, hospitals_map. cbn [dict_get].
  destruct (String.eqb_spec "surat" k) as [E1|E1];
    [subst k; cbn; repeat split; try discriminate; try lia; auto;
     congruence|].
  destruct (String.eqb_spec "ahmedabad" k) as [E2|E2];
    [subst k; cbn; repeat split; try discriminate; try lia; auto;
     congruence|].
  destruct (String.eqb_spec "mumbai" k) as [E3|E3];
    [subst k; cbn; repeat split; try discriminate; try lia; auto;
     congruence|].
  destruct (String.eqb_spec "delhi" k) as [E4|E4];
    [subst k; cbn; repeat split; try discriminate; try lia; auto;
     congruence|].
  destruct (String.eqb_spec "pune" k) as [E5|E5];
    [subst k; cbn; repeat split; try discriminate; try lia; auto;
     congruence|].
  cbn. repeat split; try discriminate; try lia; auto; congruence.
Qed.

(** ** The synthesizer *)

Lemma generate_recommendations_stages_opt rl region x aqi cat hc :
  generate_recommendations rl region x aqi cat hc
  = Ok (tier_directive rl region
        ++ [symptom_directive (top_symptom x)]
        ++ air_stage region cat aqi
        ++ [facility_directive rl hc; data_quality_item])%list.
Proof.
  destruct aqi as [aqi|].
  - rewrite generate_recommendations_stages. reflexivity.
  - unfold generate_recommendations, float_truediv.
    rewrite py_max_one_nonzero. cbn [bind max_key].
    fold (rate (fever_cases x) (region_population x)).
    fold (rate (cough_cases x) (region_population x)).
    fold (rate (diarrhea_cases x) (region_population x)).
    fold (top_symptom x).
    rewrite !if_list_append.
    unfold tier_directive, symptom_directive, facility_directive, list_append,
      air_stage.
    destruct (rl =? "High")%string, (rl =? "Medium")%string; reflexivity.
Qed.

Lemma in_symptom_item_opt rl region x aqi cat hc item :
  is_symptom_item item = true ->
  In item
    (tier_directive rl region
     ++ [symptom_directive (top_symptom x)]
     ++ air_stage region cat aqi
     ++ [facility_directive rl hc; data_quality_item])%list
  <-> symptom_directive (top_symptom x) = item.
Proof.
  intros Hitem.
  assert (Hother : forall a s,
            In s (tier_directive rl region
                  ++ [air_directive region cat a; facility_directive rl hc;
                      data_quality_item])%list ->
            is_symptom_item s = false).
  { intros a s Hs.
    pose proof (other_items_not_symptom rl region cat a hc) as F.
    rewrite forallb_forall in F. specialize (F s Hs).
    now apply negb_true_iff in F. }
  split.
  - intros H. apply in_app_or in H. destruct H as [H|H].
    + rewrite (Hother 0 item) in Hitem; [discriminate|].
      apply in_or_app. now left.
    + cbn [app In] in H. destruct H as [H|H]; [assumption|].
      exfalso. apply in_app_or in H.
      destruct aqi as [a|]; cbn [air_stage In] in H.
      * rewrite (Hother a item) in Hitem; [discriminate|].
        apply in_or_app. right. cbn [In]. tauto.
      * rewrite (Hother 0 item) in Hitem; [discriminate|].
        apply in_or_app. right. cbn [In]. tauto.
  - intros <-. apply in_or_app. right. now left.
Qed.

Lemma symptom_items_distinct :
  fever_item <> cough_item /\ fever_item <> diarrhea_item
  /\ cough_item <> diarrhea_item.
Proof. repeat split; discriminate. Qed.

(** X4.  For all inputs, NaN rates included, [generate_recommendations]
    emits the item of the key Python's [max] selects: cough or diarrhea
    only when its rate is strictly greater than the rate it replaces, fever
    otherwise.  So a fever rate that is NaN always yields the fever item,
    and a symptom whose own rate is NaN is never selected in place of
    fever. *)
Theorem symptom_item_selected
    (rl region : string) (x : features) (aqi_value : option Z) (cat : string)
    (hc : Z) :
  let fever_rate := rate (fever_cases x) (region_population x) in
  let cough_rate := rate (cough_cases x) (region_population x) in
  let diarrhea_rate := rate (diarrhea_cases x) (region_population x) in
  exists l,
    generate_recommendations rl region x aqi_value cat hc = Ok l /\
    (In fever_item l <->
       (fever_rate <? cough_rate)%float = false
       /\ (fever_rate <? diarrhea_rate)%float = false) /\
    (In cough_item l <->
       (fever_rate <? cough_rate)%float = true
       /\ (cough_rate <? diarrhea_rate)%float = false) /\
    (In diarrhea_item l <->
       ((fever_rate <? cough_rate)%float = true
        /\ (cough_rate <? diarrhea_rate)%float = true)
       \/ ((fever_rate <? cough_rate)%float = false
           /\ (fever_rate <? diarrhea_rate)%float = true)) /\
    (is_number fever_rate = false -> In fever_item l) /\
    (is_number cough_rate = false -> ~ In cough_item l) /\
    (is_number diarrhea_rate = false -> ~ In diarrhea_item l).
Proof.
  cbv zeta. eexists. split; [apply generate_recommendations_stages_opt|].
  rewrite !in_symptom_item_opt by reflexivity.
  destruct symptom_items_distinct as (FC & FD & CD).
  unfold top_symptom. cbn [max_scan].
  set (fr := rate (fever_cases x) (region_population x)).
  set (cr := rate (cough_cases x) (region_population x)).
  set (dr := rate (diarrhea_cases x) (region_population x)).
  assert (Nf : is_number fr = false ->
               (fr <? cr)%float = false /\ (fr <? dr)%float = false)
    by (intros N; split; apply not_number_ltb_l; assumption).
  assert (Nc : is_number cr = false -> (fr <? cr)%float = false)
    by (apply not_number_ltb_r).
  assert (Nd : is_number dr = false ->
               (fr <? dr)%float = false /\ (cr <? dr)%float = false)
    by (intros N; split; apply not_number_ltb_r; assumption).
  destruct (fr <? cr)%float eqn:Efc.
  - destruct (cr <? dr)%float eqn:Ecd;
      [change (symptom_directive "Diarrhea") with diarrhea_item
      |change (symptom_directive "Cough") with cough_item];
      repeat split; try tauto; try congruence;
      try (intros [? ?]; congruence);
      try (intros N; destruct (Nf N); congruence);
      try (intros N; destruct (Nd N); congruence);
      try (intros N; specialize (Nc N); congruence);
      try (intros [[? ?]|[? ?]]; congruence).
  - destruct (fr <? dr)%float eqn:Efd;
      [change (symptom_directive "Diarrhea") with diarrhea_item
      |change (symptom_directive "Fever") with fever_item];
      repeat split; try tauto; try congruence;
      try (intros [? ?]; congruence);
      try (intros N; destruct (Nf N); congruence);
      try (intros N; destruct (Nd N); congruence);
      try (intros N; specialize (Nc N); congruence);
      try (intros [[? ?]|[? ?]]; congruence).
Qed.

(** X5.  When no AQI value is passed ([None]), the air-quality item is
    left out and nothing else changes: the list has one item fewer than
    with a value, 5 for High and Medium and 4 otherwise. *)
Theorem generate_recommendations_without_aqi
    (rl region : string) (x : features) (cat : string) (hc : Z) :
  exists l,
    generate_recommendations rl region x None cat hc = Ok l /\
    l = (tier_directive rl region
         ++ [symptom_directive (top_symptom x); facility_directive rl hc;
             data_quality_item])%list /\
    List.length l
    = (if ((rl =? "High") || (rl =? "Medium"))%string then 5 else 4)%nat /\
    forall aqi,
      exists l',
        generate_recommendations rl region x (Some aqi) cat hc = Ok l' /\
        List.length l' = S (List.length l) /\
        filter (fun s => negb (s =? air_directive region cat aqi)%string) l'
        = l.
Proof.
  eexists. split; [apply generate_recommendations_stages_opt|].
  cbn [air_stage app]. split; [reflexivity|]. split.
  { unfold tier_directive.
    destruct (rl =? "High")%string, (rl =? "Medium")%string; reflexivity. }
  intros aqi. eexists.
  split; [apply generate_recommendations_stages|].
  split.
  { rewrite !length_app. cbn [List.length]. lia. }
  assert (T : filter
                (fun s => negb (s =? air_directive region cat aqi)%string)
                (tier_directive rl region) = tier_directive rl region).
  { unfold tier_directive, air_directive.
    destruct (rl =? "High")%string, (rl =? "Medium")%string; reflexivity. }
  assert (S : (symptom_directive (top_symptom x)
               =? air_directive region cat aqi)%string = false).
  { unfold symptom_directive, air_directive.
    destruct (top_symptom x =? "Fever")%string,
      (top_symptom x =? "Cough")%string; reflexivity. }
  assert (F : (facility_directive rl hc
               =? air_directive region cat aqi)%string = false).
  { unfold facility_directive, air_directive.
    destruct (hc =? 0), ((hc <=? 2)
      && ((rl =? "Medium") || (rl =? "High"))%string); reflexivity. }
  rewrite filter_app, T. cbn [filter].
  rewrite S, F, String.eqb_refl. reflexivity.
Qed.

(** X6.  The tier is matched exactly: every tier string other than "High"
    and "Medium" (a lowercase "high", say) is treated as "Low". *)
Theorem unknown_tier_as_low
    (rl region : string) (x : features) (aqi_value : option Z) (cat : string)
    (hc : Z) :
  rl <> "High" -> rl <> "Medium" ->
  generate_recommendations rl region x aqi_value cat hc
  = generate_recommendations "Low" region x aqi_value cat hc.
Proof.
  intros H M. rewrite !generate_recommendations_stages_opt.
  unfold tier_directive, facility_directive.
  apply String.eqb_neq in H, M. rewrite H, M. reflexivity.
Qed.

Lemma unknown_tier_as_low_witness :
  generate_recommendations "high" "Surat"
    {| fever_cases := 50; cough_cases := 10; diarrhea_cases := 5;
       region_population := 10000 |} (Some 130) "Moderate" 2
  = generate_recommendations "Low" "Surat"
      {| fever_cases := 50; cough_cases := 10; diarrhea_cases := 5;
         region_population := 10000 |} (Some 130) "Moderate" 2.
Proof.
  apply (unknown_tier_as_low "high" "Surat"
           {| fever_cases := 50; cough_cases := 10; diarrhea_cases := 5;
              region_population := 10000 |} (Some 130) "Moderate" 2);
    discriminate.
Defined.

(** ** Trimming *)

Lemma lstrip_idem s : lstrip (lstrip s) = lstrip s.
Proof.
  induction s as [|c s IH]; [reflexivity|].
  cbn [lstrip]. destruct (is_space c) eqn:E; [assumption|].
  cbn [lstrip]. now rewrite E.
Qed.

Lemma lstrip_head s c r : lstrip s = String c r -> is_space c = false.
Proof.
  induction s as [|d s IH]; [discriminate|].
  cbn [lstrip]. destruct (is_space d) eqn:E; [assumption|].
  intros H. injection H as -> _. assumption.
Qed.

Lemma lstrip_append_nonblank s c :
  is_space c = false ->
  lstrip (s ++ String c EmptyString) = lstrip s ++ String c EmptyString.
Proof.
  intros Hc. induction s as [|d s IH].
  - cbn. now rewrite Hc.
  - cbn [append lstrip]. destruct (is_space d); [assumption | reflexivity].
Qed.

Lemma reverse_cons c r :
  reverse (String c r) = reverse r ++ String c EmptyString.
Proof.
  rewrite <- (reverse_involutive (reverse r ++ String c EmptyString)).
  rewrite reverse_append_char, reverse_involutive. reflexivity.
Qed.

Lemma rstrip_cons_nonblank c r :
  is_space c = false -> rstrip (String c r) = String c (rstrip r).
Proof.
  intros Hc. unfold rstrip.
  rewrite reverse_cons, (lstrip_append_nonblank _ _ Hc), reverse_append_char.
  reflexivity.
Qed.

Lemma rstrip_idem s : rstrip (rstrip s) = rstrip s.
Proof. unfold rstrip. now rewrite reverse_involutive, lstrip_idem. Qed.

Lemma lstrip_strip s : lstrip (strip s) = strip s.
Proof.
  unfold strip. destruct (lstrip s) as [|c r] eqn:E; [reflexivity|].
  pose proof (lstrip_head _ _ _ E) as Hc.
  rewrite (rstrip_cons_nonblank _ _ Hc). cbn [lstrip]. now rewrite Hc.
Qed.

Lemma strip_idem s : strip (strip s) = strip s.
Proof.
  unfold strip at 1. rewrite lstrip_strip. unfold strip. apply rstrip_idem.
Qed.

Lemma normalize_idem s : normalize (normalize s) = normalize s.
Proof.
  unfold normalize. rewrite <- (lower_strip (strip s)), strip_idem.
  apply lower_idem.
Qed.

(** ** The prediction routes *)

(** X7.  A score that is NaN is tiered High while its flag is 0: when the
    scorer answers NaN on finite features whose truncated counts fit the
    integer columns, [/api/predict] succeeds and stores a row with tier
    "High" and prediction 0.  The answer carries NaN as its probability
    and the row stores NULL in its place. *)
Theorem nan_score_row
    (float_of_str : string -> option float) (current_user_id : Z)
    (model : float -> float -> float -> float -> result float)
    (store : list Prediction.t) (data : api_data) (region : option string)
    (x : features) (p : float) :
  api_parse float_of_str data = Ok (region, x) ->
  model (fever_cases x) (cough_cases x) (diarrhea_cases x)
    (region_population x) = Ok p ->
  is_number p = false ->
  features_finite x = true ->
  features_int64 x = true ->
  exists row res,
    api_predict float_of_str (Some model) current_user_id store data
    = (Success res, (store ++ [row])%list) /\
    Prediction.risk_level row = "High" /\ Prediction.prediction row = 0 /\
    res_risk_level res = "High" /\ res_prediction res = 0 /\
    ~ tier_consistent row /\
    is_number (res_probability res) = false /\
    Prediction.probability row = None.
Proof.
  intros P M N F I.
  destruct (assess_ok current_user_id model region x p M F)
    as (row & res & A & Hflag & Hrflag & Hprob & Hrprob & Htier & Hrtier & _).
  pose proof (assess_commit _ _ _ _ _ _ store A) as C. rewrite I in C.
  exists (db_row row), res. unfold api_predict. rewrite P, A, C.
  assert (T : compute_risk_level p = "High").
  { unfold compute_risk_level. now rewrite !not_number_ltb_l. }
  assert (Z0 : Prediction.prediction row = 0).
  { rewrite Hflag. now rewrite not_number_ltb_r. }
  pose proof (py_round_not_number p 2 N) as R.
  cbn [db_row Prediction.risk_level Prediction.prediction
       Prediction.probability].
  split; [reflexivity|].
  split; [congruence|]. split; [assumption|].
  split; [congruence|]. split; [congruence|].
  split.
  { intros [C' _]. cbn [db_row Prediction.risk_level Prediction.prediction]
      in C'. rewrite C' in Z0; [discriminate | congruence]. }
  split; [now rewrite Hrprob|].
  rewrite Hprob. cbn [db_real]. now rewrite R.
Qed.

Lemma nan_score_row_witness :
  exists row res,
    api_predict float_of_digits (Some (constant_model nan)) 7 []
      (json_body "Surat" (JInt 50) (JInt 10) (JInt 5) (JInt 10000))
    = (Success res, [row]) /\
    Prediction.risk_level row = "High" /\ Prediction.prediction row = 0 /\
    Prediction.probability row = None.
Proof.
  destruct (nan_score_row float_of_digits 7 (constant_model nan) []
              (json_body "Surat" (JInt 50) (JInt 10) (JInt 5) (JInt 10000))
              (Some "Surat")
              {| fever_cases := 50; cough_cases := 10; diarrhea_cases := 5;
                 region_population := 10000 |} nan)
    as (row & res & A & B & C & _ & _ & _ & _ & D); try reflexivity.
  exists row, res. repeat split; assumption.
Defined.

(** X8.  In every answer of [/api/predict] the suggestions are the tier
    items, the symptom item, the air-quality item of the region's AQI, the
    facility item and the data-quality item: 5 items for Low, 6 otherwise.
    As the lookup knows no or two hospitals, the facility item is "No
    mapped hospitals" exactly when the answer lists no hospital, "Limited
    hospital coverage (2 known facilities)" when it lists some and the
    tier is Medium or High, and the coordination item when it lists some
    and the tier is Low. *)
Theorem api_suggestions
    (float_of_str : string -> option float)
    (load_model : option (float -> float -> float -> float -> result float))
    (current_user_id : Z) (store store' : list Prediction.t)
    (data : api_data) (res : api_result) :
  api_predict float_of_str load_model current_user_id store data
  = (Success res, store') ->
  exists region x,
    api_parse float_of_str data = Ok (region, x) /\
    res_hospitals res = get_hospitals_for_region region /\
    (res_aqi_value res, res_aqi_category res) = get_region_aqi region /\
    res_suggestions res
    = (tier_directive (res_risk_level res) (format_str region)
       ++ [symptom_directive (top_symptom x);
           air_directive (format_str region) (res_aqi_category res)
             (res_aqi_value res);
           facility_directive (res_risk_level res)
             (Z.of_nat (List.length (res_hospitals res)));
           data_quality_item])%list /\
    List.length (res_suggestions res)
    = (if (res_risk_level res =? "Low")%string then 5 else 6)%nat /\
    (res_hospitals res = [] ->
     facility_directive (res_risk_level res)
       (Z.of_nat (List.length (res_hospitals res)))
     = "No mapped hospitals found for this region. Maintain an updated health facility directory to improve response time.") /\
    (res_hospitals res <> [] -> res_risk_level res <> "Low" ->
     facility_directive (res_risk_level res)
       (Z.of_nat (List.length (res_hospitals res)))
     = "Limited hospital coverage (2 known facilities). Prepare referral pathways to nearby districts.") /\
    (res_hospitals res <> [] -> res_risk_level res = "Low" ->
     facility_directive (res_risk_level res)
       (Z.of_nat (List.length (res_hospitals res)))
     = "Coordinate with listed hospitals to ensure triage, isolation, and referral protocols are clearly defined.").
Proof.
  intros H.
  destruct (api_predict_success_inv _ _ _ _ _ _ _ H)
    as (model & region & x & row & _ & P & A & _).
  destruct (assess_inversion _ _ _ _ _ _ A)
    as (p & zf & zc & zd & zn & _ & _ & _ & _ & _ & _ & ->).
  exists region, x. cbn [res_hospitals res_aqi_value res_aqi_category
    res_suggestions res_risk_level].
  split; [assumption|]. split; [reflexivity|].
  split; [now destruct (get_region_aqi region)|].
  split; [reflexivity|].
  split.
  { rewrite length_app. cbn [List.length]. unfold tier_directive.
    destruct (compute_risk_level_valid p) as [->|[->| ->]]; reflexivity. }
  split; [intros ->; reflexivity|].
  assert (L : get_hospitals_for_region region <> [] ->
              List.length (get_hospitals_for_region region) = 2%nat).
  { intros NE. destruct (hospitals_none_or_two region); [contradiction|].
    assumption. }
  split.
  - intros NE T. rewrite (L NE).
    destruct (compute_risk_level_valid p) as [E|[E|E]];
      [congruence | rewrite E; reflexivity | rewrite E; reflexivity].
  - intros NE T. rewrite (L NE), T. reflexivity.
Qed.

Lemma api_suggestions_witness :
  exists res store',
    api_predict float_of_digits (Some (constant_model 0.82)) 7 []
      (json_body "Surat" (JInt 50) (JInt 10) (JInt 5) (JInt 10000))
    = (Success res, store') /\
    List.length (res_suggestions res) = 6%nat.
Proof.
  assert (E : exists res store',
            api_predict float_of_digits (Some (constant_model 0.82)) 7 []
              (json_body "Surat" (JInt 50) (JInt 10) (JInt 5) (JInt 10000))
            = (Success res, store'))
    by (eexists; eexists; reflexivity).
  destruct E as (res & store' & E). exists res, store'.
  split; [exact E|].
  destruct (api_suggestions _ _ _ _ _ _ _ E)
    as (region & x & _ & _ & _ & _ & L & _).
  rewrite L.
  destruct (api_predict_success_inv _ _ _ _ _ _ _ E)
    as (model & region' & x' & row & M & P & A & _).
  injection M as <-. injection P as <- <-.
  destruct (assess_inversion _ _ _ _ _ _ A)
    as (p & _ & _ & _ & _ & Hp & _ & _ & _ & _ & _ & ->).
  injection Hp as <-. reflexivity.
Defined.

Lemma predict_store float_of_str load_model uid store method form :
  snd (predict float_of_str load_model uid store method form) = store
  \/ exists row page,
       method = POST /\
       predict float_of_str load_model uid store method form
       = (Success page, (store ++ [row])%list) /\
       Prediction.user_id row = uid.
Proof.
  unfold predict. destruct load_model as [m|]; [|now left].
  destruct method; [now left|].
  destruct (form_submit float_of_str uid m store form)
    as [[[row res] s']|e] eqn:S; [|now left].
  destruct (form_submit_inv _ _ _ _ _ _ _ _ S)
    as (region & x & _ & A & _ & ->).
  right. exists (db_row row). eexists.
  split; [reflexivity|]. split; [reflexivity|].
  destruct (assess_inversion _ _ _ _ _ _ A)
    as (p & zf & zc & zd & zn & _ & _ & _ & _ & _ & -> & _).
  reflexivity.
Qed.

Lemma api_predict_row float_of_str load_model uid store data res row :
  api_predict float_of_str load_model uid store data
  = (Success res, (store ++ [row])%list) ->
  Prediction.user_id row = uid.
Proof.
  intros H.
  destruct (api_predict_success_inv _ _ _ _ _ _ _ H)
    as (model & region & x & row' & _ & _ & A & _ & E).
  apply app_inv_head in E. injection E as ->.
  destruct (assess_inversion _ _ _ _ _ _ A)
    as (p & zf & zc & zd & zn & _ & _ & _ & _ & _ & -> & _).
  reflexivity.
Qed.

(** One request appends at most one row, written for its caller. *)
Lemma serve_appends float_of_str load_model store c :
  exists rows,
    serve float_of_str load_model store c = (store ++ rows)%list /\
    (List.length rows <= 1)%nat /\
    Forall (fun row => Prediction.user_id row = caller c) rows.
Proof.
  destruct c as [uid data|uid method form]; cbn [serve caller].
  - destruct (api_predict_store float_of_str uid load_model store data)
      as [E|(row & res & E)].
    + exists []. rewrite E, app_nil_r. repeat constructor.
    + exists [row]. rewrite E. cbn [snd List.length].
      split; [reflexivity|]. split; [lia|].
      constructor; [|constructor]. eapply api_predict_row, E.
  - destruct (predict_store float_of_str load_model uid store method form)
      as [E|(row & page & _ & E & U)].
    + exists []. rewrite E, app_nil_r. repeat constructor.
    + exists [row]. rewrite E. cbn [snd List.length].
      split; [reflexivity|]. split; [lia|].
      constructor; [assumption | constructor].
Qed.

(** After a sequence of requests the store is the old store followed by
    at most one row per request. *)
Lemma fold_serve_appends float_of_str load_model calls :
  forall store,
    exists rows,
      fold_left (serve float_of_str load_model) calls store
      = (store ++ rows)%list /\
      (List.length rows <= List.length calls)%nat /\
      Forall (fun row => In (Prediction.user_id row) (map caller calls))
        rows.
Proof.
  induction calls as [|c calls IH]; intros store.
  - exists []. cbn. rewrite app_nil_r. repeat constructor.
  - cbn [fold_left].
    destruct (serve_appends float_of_str load_model store c)
      as (r1 & E1 & L1 & U1).
    destruct (IH (serve float_of_str load_model store c))
      as (r2 & E2 & L2 & U2).
    exists (r1 ++ r2)%list. rewrite E2, E1, app_assoc.
    split; [reflexivity|]. split.
    + rewrite length_app. cbn [List.length]. lia.
    + apply Forall_app. split.
      * eapply Forall_impl; [|exact U1]. cbn. intros row ->. now left.
      * eapply Forall_impl; [|exact U2]. cbn. intros row ?. now right.
Qed.

(** X9.  The prediction routes only ever append to the store: a request
    leaves every existing row in place and adds at most one row, which
    carries the id of the user who sent it; a GET of the form page adds
    none.  So after any sequence of requests the store is the old store
    followed by at most one row per request, each owned by one of the
    callers. *)
Theorem store_append_only
    (float_of_str : string -> option float)
    (load_model : option (float -> float -> float -> float -> result float)) :
  (forall store c,
     exists rows,
       serve float_of_str load_model store c = (store ++ rows)%list /\
       (List.length rows <= 1)%nat /\
       Forall (fun row => Prediction.user_id row = caller c) rows) /\
  (forall store uid form,
     serve float_of_str load_model store (FormPredict uid GET form) = store) /\
  (forall calls store,
     exists rows,
       fold_left (serve float_of_str load_model) calls store
       = (store ++ rows)%list /\
       (List.length rows <= List.length calls)%nat /\
       Forall (fun row => In (Prediction.user_id row) (map caller calls))
         rows).
Proof.
  split; [apply serve_appends|]. split.
  { intros store uid form. cbn [serve]. unfold predict.
    destruct load_model; reflexivity. }
  intros calls. apply fold_serve_appends.
Qed.



(** *** Integers that are exact as floats *)

Lemma binary_round_small s m :
  Zpos m < 2 ^ 53 ->
  exists mz ez,
    binary_round prec emax s m 0 = S754_finite s mz ez /\
    Zpos (digits2_pos mz) = 53 /\ -52 <= ez <= 0 /\
    Zpos mz = Zpos m * 2 ^ (- ez).
Proof.
  intros Hm. unfold binary_round.
  pose proof (digits2_pos_bounds m) as [Hlo Hhi].
  assert (Hd : Zpos (digits2_pos m) <= 53).
  { destruct (Z_le_gt_dec (Zpos (digits2_pos m)) 53) as [|G]; [assumption|].
    exfalso.
    assert (2 ^ 53 <= 2 ^ (Zpos (digits2_pos m) - 1))
      by (apply Z.pow_le_mono_r; lia).
    lia. }
  unfold shl_align, fexp, SpecFloat.emin.
  change prec with 53 in *. change emax with 1024 in *.
  replace (Z.max (Zpos (digits2_pos m) + 0 - 53) (3 - 1024 - 53))
    with (Zpos (digits2_pos m) - 53) by lia.
  destruct (Zpos (digits2_pos m) - 53 - 0) as [|k|k] eqn:Ek; try lia.
  - exists m, 0. split; [apply (binary_round_aux_exact s m 0); lia|].
    repeat split; lia.
  - exists (Pos.iter xO m k), (Zpos (digits2_pos m) - 53).
    split.
    { apply (binary_round_aux_exact s (Pos.iter xO m k)
               (Zpos (digits2_pos m) - 53)); [|lia].
      rewrite digits2_pos_iter_xO. lia. }
    split; [rewrite digits2_pos_iter_xO; lia|].
    split; [lia|].
    replace (- (Zpos (digits2_pos m) - 53)) with (Zpos k) by lia.
    change (Pos.iter xO m k) with (shift_pos k m).
    rewrite shift_pos_correct, Zpower_pos_nat, Zpower_nat_Z,
      positive_nat_Z. lia.
Qed.

Lemma py_int_exact s mz ez m :
  Zpos (digits2_pos mz) = 53 -> -52 <= ez <= 0 ->
  Zpos mz = Zpos m * 2 ^ (- ez) ->
  py_int (SF2Prim (S754_finite s mz ez))
  = Ok (if s then Zneg m else Zpos m).
Proof.
  intros Hd He Hm. unfold py_int.
  rewrite Prim2SF_SF2Prim.
  - destruct (Z.leb_spec 0 ez).
    + replace ez with 0 in * by lia. cbn [Z.opp] in Hm.
      rewrite Hm. destruct s; f_equal; lia.
    + rewrite Hm, Z.div_mul by (apply Z.pow_nonzero; lia).
      destruct s; reflexivity.
  - unfold valid_binary, bounded, canonical_mantissa, fexp, SpecFloat.emin.
    rewrite Hd. change prec with 53. change emax with 1024.
    apply andb_true_iff. split; [apply Z.eqb_eq | apply Z.leb_le]; lia.
Qed.

(** [int(float(n)) == n] for an [int] below [2^53] in absolute value. *)
Lemma py_int_float_of_int n :
  Z.abs n < 2 ^ 53 ->
  exists f, float_of_int n = Ok f /\ py_int f = Ok n.
Proof.
  intros Hn. unfold float_of_int. destruct n as [|m|m].
  - eexists. split; reflexivity.
  - cbn [binary_normalize].
    destruct (binary_round_small false m) as (mz & ez & -> & Hd & He & Hm);
      [lia|].
    eexists. split; [reflexivity|].
    apply (py_int_exact false mz ez m Hd He Hm).
  - cbn [binary_normalize].
    destruct (binary_round_small true m) as (mz & ez & -> & Hd & He & Hm);
      [lia|].
    eexists. split; [reflexivity|].
    apply (py_int_exact true mz ez m Hd He Hm).
Qed.



(** *** Failures *)

Lemma assess_not_finite uid model region x p :
  model (fever_cases x) (cough_cases x) (diarrhea_cases x)
    (region_population x) = Ok p ->
  features_finite x = false ->
  assess uid model region x = Raise ValueError
  \/ assess uid model region x = Raise OverflowError.
Proof.
  intros Hp F. unfold assess. rewrite Hp. cbn [bind].
  destruct (get_region_aqi region) as [v c].
  rewrite generate_recommendations_stages. cbn [bind].
  unfold features_finite in F.
  destruct (py_int_cases (fever_cases x)) as [(zf & -> & F1)|[[-> | ->] _]];
    cbn [bind]; [|now left | now right].
  destruct (py_int_cases (cough_cases x)) as [(zc & -> & F2)|[[-> | ->] _]];
    cbn [bind]; [|now left | now right].
  destruct (py_int_cases (diarrhea_cases x)) as [(zd & -> & F3)|[[-> | ->] _]];
    cbn [bind]; [|now left | now right].
  destruct (py_int_cases (region_population x))
    as [(zn & -> & F4)|[[-> | ->] _]];
    cbn [bind]; [|now left | now right].
  rewrite F1, F2, F3, F4 in F. discriminate.
Qed.



(** X13.  On [/api/predict] only [KeyError] and [ValueError] raised while
    the body is read are answered 400.  A numeric field that is [null], an
    array or an object ([TypeError]), or an integer too large for a float
    ([OverflowError]), leaves the view as an unhandled exception; so does
    a NaN or infinite count, which passes the reading and is refused by
    [int()] after the scorer has run.  The store is unchanged in each
    case. *)
Theorem api_unhandled
    (float_of_str : string -> option float) (current_user_id : Z)
    (model : float -> float -> float -> float -> result float)
    (store : list Prediction.t) (data : api_data) :
  (forall e,
     first_offence float_of_str data = Some e ->
     e = TypeError \/ e = OverflowError ->
     api_predict float_of_str (Some model) current_user_id store data
     = (Unhandled e, store)) /\
  (data_fever_cases data = Some JNull
   \/ data_fever_cases data = Some JCompound ->
   api_predict float_of_str (Some model) current_user_id store data
   = (Unhandled TypeError, store)) /\
  (forall region x p,
     api_parse float_of_str data = Ok (region, x) ->
     model (fever_cases x) (cough_cases x) (diarrhea_cases x)
       (region_population x) = Ok p ->
     features_finite x = false ->
     exists e,
       (e = ValueError \/ e = OverflowError) /\
       api_predict float_of_str (Some model) current_user_id store data
       = (Unhandled e, store)).
Proof.
  split; [|split].
  - intros e O He. unfold api_predict.
    pose proof (api_parse_offence float_of_str data) as P. rewrite O in P.
    rewrite P. destruct He as [-> | ->]; reflexivity.
  - intros H. unfold api_predict, api_parse.
    destruct H as [-> | ->]; reflexivity.
  - intros region x p P Hp F. unfold api_predict. rewrite P.
    destruct (assess_not_finite current_user_id model region x p Hp F)
      as [-> | ->]; eexists; (split; [|reflexivity]); auto.
Qed.

Lemma api_unhandled_witness :
  exists e,
    api_predict float_of_digits (Some (constant_model 0.82)) 7 []
      (json_body "Surat" (JFloat nan) (JInt 10) (JInt 5) (JInt 10000))
    = (Unhandled e, []).
Proof.
  destruct (proj2 (proj2 (api_unhandled float_of_digits 7
                            (constant_model 0.82) []
                            (json_body "Surat" (JFloat nan) (JInt 10)
                               (JInt 5) (JInt 10000))))
              (Some "Surat")
              {| fever_cases := nan; cough_cases := 10; diarrhea_cases := 5;
                 region_population := 10000 |} 0.82%float)
    as (e & _ & E); try reflexivity.
  exists e. exact E.
Defined.

(** The region the form route works with. *)
Lemma form_parse_region float_of_str form region x :
  form_parse float_of_str form = Ok (region, x) ->
  region = match strip (form_get (form_region form)) with
           | EmptyString => "Unknown"
           | s => s
           end.
Proof.
  unfold form_parse.
  destruct (dict_item (form_fever_cases form) "fever_cases") as [v1|];
    cbn [bind]; [|discriminate].
  destruct (float_of_string float_of_str v1); cbn [bind]; [|discriminate].
  destruct (dict_item (form_cough_cases form) "cough_cases") as [v2|];
    cbn [bind]; [|discriminate].
  destruct (float_of_string float_of_str v2); cbn [bind]; [|discriminate].
  destruct (dict_item (form_diarrhea_cases form) "diarrhea_cases") as [v3|];
    cbn [bind]; [|discriminate].
  destruct (float_of_string float_of_str v3); cbn [bind]; [|discriminate].
  destruct (dict_item (form_region_population form) "region_population")
    as [v4|]; cbn [bind]; [|discriminate].
  destruct (float_of_string float_of_str v4); cbn [bind]; [|discriminate].
  intros H. injection H as <- _. reflexivity.
Qed.

(** X14.  The form route stores the region trimmed: the row of a
    successful POST carries the submitted region without its surrounding
    blanks, or "Unknown" when the field is absent or blank.  The stored
    region is never empty and trimming it again changes nothing; the page
    shows the same region. *)
Theorem form_region_trimmed
    (float_of_str : string -> option float)
    (load_model : option (float -> float -> float -> float -> result float))
    (current_user_id : Z) (store store' : list Prediction.t)
    (form : form_data) (page : predict_page) :
  predict float_of_str load_model current_user_id store POST form
  = (Success page, store') ->
  exists row r,
    store' = (store ++ [row])%list /\
    Prediction.region row = Some r /\ page_region page = Some r /\
    r = match strip (form_get (form_region form)) with
        | EmptyString => "Unknown"
        | s => s
        end /\
    r <> EmptyString /\ strip r = r.
Proof.
  intros H.
  destruct (predict_success_inv _ _ _ _ _ _ _ H)
    as (model & region & x & row & res & _ & P & A & _ & E & ->).
  destruct (assess_inversion _ _ _ _ _ _ A)
    as (p & zf & zc & zd & zn & _ & _ & _ & _ & _ & -> & _).
  eexists. exists region. split; [exact E|].
  split; [reflexivity|]. split; [reflexivity|].
  pose proof (form_parse_region _ _ _ _ P) as R.
  split; [exact R|].
  rewrite R.
  destruct (strip (form_get (form_region form))) as [|c s] eqn:S.
  - split; [discriminate | reflexivity].
  - split; [discriminate|]. rewrite <- S. apply strip_idem.
Qed.

Lemma form_region_trimmed_witness :
  exists row page,
    predict float_of_digits (Some (constant_model 0.82)) 7 [] POST
      {| form_region := Some "  Surat "; form_fever_cases := Some "50";
         form_cough_cases := Some "10"; form_diarrhea_cases := Some "5";
         form_region_population := Some "10000" |}
    = (Success page, [row]) /\
    Prediction.region row = Some "Surat".
Proof.
  assert (E : exists page store',
            predict float_of_digits (Some (constant_model 0.82)) 7 [] POST
              {| form_region := Some "  Surat "; form_fever_cases := Some "50";
                 form_cough_cases := Some "10";
                 form_diarrhea_cases := Some "5";
                 form_region_population := Some "10000" |}
            = (Success page, store'))
    by (eexists; eexists; reflexivity).
  destruct E as (page & store' & E).
  destruct (form_region_trimmed _ _ _ _ _ _ _ E)
    as (row & r & -> & R & _ & -> & _).
  exists row, page. split; [exact E|]. exact R.
Defined.

(** ** The dashboard and the overview page *)

Lemma count_level_inv counts level counts' :
  count_level counts level = Ok counts' ->
  Low counts' = Low counts + (if (level =? "Low")%string then 1 else 0) /\
  Medium counts'
  = Medium counts + (if (level =? "Medium")%string then 1 else 0) /\
  High counts' = High counts + (if (level =? "High")%string then 1 else 0).
Proof.
  unfold count_level.
  destruct (String.eqb_spec level "Low") as [->|NL].
  { intros H. injection H as <-. cbn. repeat split; lia. }
  destruct (String.eqb_spec level "Medium") as [->|NM].
  { intros H. injection H as <-. cbn. repeat split; lia. }
  destruct (String.eqb_spec level "High") as [->|NH]; [|discriminate].
  intros H. injection H as <-. cbn. repeat split; lia.
Qed.

Lemma count_level_invalid counts p :
  valid_tier p = false ->
  count_level counts (Prediction.risk_level p)
  = Raise (KeyError (Prediction.risk_level p)).
Proof.
  unfold valid_tier, count_level.
  destruct (Prediction.risk_level p =? "Low")%string; [discriminate|].
  destruct (Prediction.risk_level p =? "Medium")%string; [discriminate|].
  destruct (Prediction.risk_level p =? "High")%string; [discriminate|].
  reflexivity.
Qed.

Lemma count_level_valid counts p counts' :
  count_level counts (Prediction.risk_level p) = Ok counts' ->
  valid_tier p = true.
Proof.
  intros H. destruct (valid_tier p) eqn:V; [reflexivity|].
  rewrite (count_level_invalid counts p V) in H. discriminate.
Qed.

Lemma stats_count_invalid p r :
  valid_tier p = false ->
  forall stats,
    stats_count stats r (Prediction.risk_level p)
    = Raise (KeyError (Prediction.risk_level p)).
Proof.
  intros V. induction stats as [|[k c] stats IH]; cbn [stats_count].
  - now rewrite (count_level_invalid _ p V).
  - destruct (k =? r)%string.
    + now rewrite (count_level_invalid _ p V).
    + now rewrite IH.
Qed.

Lemma stats_count_keys r level :
  forall stats stats',
    stats_count stats r level = Ok stats' ->
    map fst stats'
    = (if existsb (String.eqb r) (map fst stats) then map fst stats
       else map fst stats ++ [r])%list.
Proof.
  induction stats as [|[k c] stats IH]; intros stats'; cbn [stats_count].
  - destruct (count_level no_counts level); cbn [bind]; [|discriminate].
    intros H. injection H as <-. reflexivity.
  - cbn [map fst existsb]. rewrite (String.eqb_sym r k).
    destruct (k =? r)%string; cbn [orb].
    + destruct (count_level c level); cbn [bind]; [|discriminate].
      intros H. injection H as <-. reflexivity.
    + destruct (stats_count stats r level) as [rest'|]; cbn [bind];
        [|discriminate].
      intros H. injection H as <-. cbn [map fst].
      rewrite (IH rest' eq_refl). destruct (existsb _ _); reflexivity.
Qed.

Lemma region_level_app r L l1 l2 :
  region_level r L (l1 ++ l2) = region_level r L l1 + region_level r L l2.
Proof. unfold region_level. rewrite filter_app, length_app. lia. Qed.

Lemma region_level_absent r L l :
  ~ In r (map label l) -> region_level r L l = 0.
Proof.
  intros H. unfold region_level.
  induction l as [|p l IH]; [reflexivity|]. cbn [filter].
  destruct (String.eqb_spec (label p) r) as [E|E].
  - exfalso. apply H. left. exact E.
  - cbn [andb]. apply IH. intros I. apply H. now right.
Qed.

Lemma entry_levels_other seen p e :
  label p <> fst e -> entry_levels seen e -> entry_levels (seen ++ [p]) e.
Proof.
  intros N (A & B & C). unfold entry_levels.
  rewrite !region_level_app. unfold region_level at 2 4 6. cbn [filter].
  apply String.eqb_neq in N. rewrite N. cbn [andb List.length].
  repeat split; lia.
Qed.

Lemma entry_levels_bump seen p counts counts' :
  count_level counts (Prediction.risk_level p) = Ok counts' ->
  entry_levels seen (label p, counts) ->
  entry_levels (seen ++ [p]) (label p, counts').
Proof.
  intros H (A & B & C). apply count_level_inv in H.
  destruct H as (HL & HM & HH). unfold entry_levels in *. cbn [fst snd] in *.
  rewrite !region_level_app. unfold region_level at 2 4 6. cbn [filter].
  rewrite String.eqb_refl. cbn [andb].
  rewrite HL, HM, HH, A, B, C.
  destruct (Prediction.risk_level p =? "Low")%string,
    (Prediction.risk_level p =? "Medium")%string,
    (Prediction.risk_level p =? "High")%string; cbn [List.length];
    repeat split; lia.
Qed.

Lemma stats_count_levels seen p :
  forall stats stats',
    stats_count stats (label p) (Prediction.risk_level p) = Ok stats' ->
    NoDup (map fst stats) ->
    Forall (entry_levels seen) stats ->
    (~ In (label p) (map fst stats) -> ~ In (label p) (map label seen)) ->
    Forall (entry_levels (seen ++ [p])) stats'.
Proof.
  induction stats as [|[r c] stats IH]; intros stats' S Hn Hf Habs;
    cbn [stats_count] in S.
  - destruct (count_level no_counts (Prediction.risk_level p)) as [c'|] eqn:C;
      cbn [bind] in S; [|discriminate].
    injection S as <-. constructor; [|constructor].
    apply (entry_levels_bump seen p no_counts c' C).
    unfold entry_levels. cbn [fst snd no_counts Low Medium High].
    rewrite !region_level_absent by (apply Habs; intros []).
    repeat split.
  - inversion Hn as [|? ? Hnr Hn']; subst.
    inversion Hf as [|? ? Hr Hf']; subst.
    destruct (String.eqb_spec r (label p)) as [->|Hne].
    + destruct (count_level c (Prediction.risk_level p)) as [c'|] eqn:C;
        cbn [bind] in S; [|discriminate].
      injection S as <-. constructor.
      * apply (entry_levels_bump seen p c c' C Hr).
      * rewrite Forall_forall in *. intros e He.
        apply entry_levels_other; [|apply Hf', He].
        intros E. apply Hnr. cbn [fst]. rewrite E. apply in_map, He.
    + destruct (stats_count stats (label p) (Prediction.risk_level p))
        as [rest'|] eqn:R; cbn [bind] in S; [|discriminate].
      injection S as <-. constructor.
      * apply entry_levels_other; [|exact Hr]. cbn [fst]. congruence.
      * apply (IH rest' eq_refl Hn' Hf').
        intros H. apply Habs. cbn [map fst In]. intros [E|E]; auto.
Qed.

Lemma stats_count_valid p :
  forall stats stats',
    stats_count stats (label p) (Prediction.risk_level p) = Ok stats' ->
    valid_tier p = true.
Proof.
  intros stats stats' S. destruct (valid_tier p) eqn:V; [reflexivity|].
  rewrite (stats_count_invalid p (label p) V stats) in S. discriminate.
Qed.

(** What the counting loop has computed when it ends without a
    [KeyError]. *)
Lemma count_predictions_levels rest :
  forall seen stats stats',
    count_predictions rest stats = Ok stats' ->
    NoDup (map fst stats) ->
    Forall (entry_levels seen) stats ->
    (forall r, In r (map label seen) -> In r (map fst stats)) ->
    NoDup (map fst stats') /\
    Forall (entry_levels (seen ++ rest)) stats' /\
    (forall r, In r (map label (seen ++ rest)) -> In r (map fst stats')) /\
    map fst stats' = distinct_labels (map fst stats) rest /\
    Forall (fun p => valid_tier p = true) rest.
Proof.
  induction rest as [|p rest IH]; intros seen stats stats' C Hn Hf Hk.
  - cbn in C. injection C as <-. rewrite app_nil_r. repeat split; auto.
  - cbn [count_predictions] in C. fold (label p) in C.
    destruct (stats_count stats (label p) (Prediction.risk_level p))
      as [stats1|] eqn:S; cbn [bind] in C; [|discriminate].
    pose proof (stats_count_keys _ _ _ _ S) as K1.
    assert (Hn1 : NoDup (map fst stats1)).
    { rewrite K1. destruct (existsb _ _) eqn:Ex; [exact Hn|].
      apply NoDup_app; [exact Hn | repeat constructor; simpl; tauto |].
      intros r Hr [<-|[]].
      apply existsb_eqb_In in Hr. congruence. }
    assert (Hf1 : Forall (entry_levels (seen ++ [p])) stats1).
    { apply (stats_count_levels seen p stats stats1 S Hn Hf).
      intros H1 H2. apply H1, Hk, H2. }
    assert (Hk1 : forall r, In r (map label (seen ++ [p])) ->
                            In r (map fst stats1)).
    { intros r. rewrite K1, map_app, in_app_iff. cbn [map In].
      destruct (existsb _ _) eqn:Ex.
      - apply existsb_eqb_In in Ex. intros [H|[<-|[]]]; auto.
      - rewrite in_app_iff. cbn [In]. intros [H|H]; auto. }
    destruct (IH (seen ++ [p])%list stats1 stats' C Hn1 Hf1 Hk1)
      as (Hn' & Hf' & Hk' & Hd' & Hv').
    rewrite <- app_assoc in Hf', Hk'. cbn [app] in Hf', Hk'.
    repeat split; auto.
    + rewrite Hd', K1. cbn [distinct_labels].
      destruct (existsb _ _); reflexivity.
    + constructor; [|exact Hv']. eapply stats_count_valid, S.
Qed.

Lemma count_predictions_app l1 :
  forall l2 stats,
    count_predictions (l1 ++ l2) stats
    = (stats1 <- count_predictions l1 stats ;; count_predictions l2 stats1).
Proof.
  induction l1 as [|p l1 IH]; intros l2 stats; [reflexivity|].
  cbn [app count_predictions].
  destruct (stats_count stats _ _); cbn [bind]; [apply IH | reflexivity].
Qed.

Lemma dashboard_inv uid store page :
  dashboard uid store = Ok page ->
  exists stats summaries,
    count_predictions (rows_of uid store) [] = Ok stats /\
    map_result summarize stats = Ok summaries /\
    page = {| page_labels := map fst stats;
              page_low_counts := map (fun e => Low (snd e)) stats;
              page_medium_counts := map (fun e => Medium (snd e)) stats;
              page_high_counts := map (fun e => High (snd e)) stats;
              page_recent_predictions := firstn 20 (rev (rows_of uid store));
              page_region_summary := sort_by key_lt sort_key summaries |}.
Proof.
  unfold dashboard, rows_of.
  destruct (count_predictions _ []) as [stats|] eqn:C; cbn [bind];
    [|discriminate].
  destruct (map_result summarize stats) as [summaries|] eqn:M; cbn [bind];
    [|discriminate].
  intros H. injection H as <-. exists stats, summaries.
  split; [reflexivity|]. split; [exact M | reflexivity].
Qed.

(** The dashboard answers when every row of the user has one of the three
    tiers and there are fewer than [2^53] of them. *)
Lemma dashboard_ok uid store :
  Forall (fun p => valid_tier p = true) (rows_of uid store) ->
  Z.of_nat (List.length (rows_of uid store)) < 2 ^ 53 ->
  exists page, dashboard uid store = Ok page.
Proof.
  intros Hv Hl.
  destruct (count_predictions_spec (rows_of uid store) [] [] Hv)
    as (stats & C & _ & Hf & _); [constructor | constructor | tauto|].
  cbn [app] in Hf.
  destruct (summarize_all (rows_of uid store) stats Hl Hf)
    as (summaries & M & _).
  unfold dashboard. unfold rows_of in C. rewrite C. cbn [bind].
  rewrite M. cbn [bind]. eexists. reflexivity.
Qed.

Lemma sum_Z_app l1 l2 : sum_Z (l1 ++ l2) = sum_Z l1 + sum_Z l2.
Proof.
  unfold sum_Z. induction l1 as [|a l1 IH]; cbn [app fold_right]; lia.
Qed.

Lemma sum_Z_add {A : Type} (f g : A -> Z) (l : list A) :
  sum_Z (map (fun a => f a + g a) l) = sum_Z (map f l) + sum_Z (map g l).
Proof.
  unfold sum_Z. induction l as [|a l IH]; cbn [map fold_right]; lia.
Qed.

Lemma sum_Z_perm l1 l2 : Permutation l1 l2 -> sum_Z l1 = sum_Z l2.
Proof.
  unfold sum_Z. induction 1; cbn [fold_right]; lia.
Qed.

Lemma sum_Z_indicator (r : string) (rs : list string) :
  NoDup rs ->
  sum_Z (map (fun k => if (r =? k)%string then 1 else 0) rs)
  = if existsb (String.eqb r) rs then 1 else 0.
Proof.
  unfold sum_Z. induction 1 as [|k rs Hk Hn IH]; [reflexivity|].
  cbn [map fold_right existsb]. rewrite IH.
  destruct (String.eqb_spec r k) as [->|N]; cbn [orb]; [|lia].
  destruct (existsb (String.eqb k) rs) eqn:E; [|lia].
  apply existsb_eqb_In in E. contradiction.
Qed.

(** Every row that satisfies [Q] is counted under exactly one label. *)
Lemma sum_by_label (Q : Prediction.t -> bool) (rs : list string)
    (rows : list Prediction.t) :
  NoDup rs ->
  (forall p, In p rows -> In (label p) rs) ->
  sum_Z
    (map
       (fun r =>
          Z.of_nat
            (List.length
               (filter (fun p => ((label p =? r)%string && Q p)) rows)))
       rs)
  = Z.of_nat (List.length (filter Q rows)).
Proof.
  intros Hn. induction rows as [|p rows IH]; intros Hin.
  - cbn. clear. unfold sum_Z. induction rs; cbn; lia.
  - cbn [filter].
    rewrite (map_ext _
               (fun r =>
                  (if (label p =? r)%string then (if Q p then 1 else 0) else 0)
                  + Z.of_nat
                      (List.length
                         (filter (fun p => ((label p =? r)%string && Q p))
                            rows)))).
    2:{ intros r. destruct (label p =? r)%string, (Q p); cbn [andb List.length];
        lia. }
    rewrite sum_Z_add, IH by (intros q Hq; apply Hin; now right).
    assert (I : existsb (String.eqb (label p)) rs = true)
      by (apply existsb_eqb_In, Hin; now left).
    destruct (Q p).
    + rewrite (sum_Z_indicator (label p) rs Hn), I. cbn [List.length]. lia.
    + rewrite (map_ext _ (fun _ => 0)) by (intros r; now destruct (_ =? _)%string).
      assert (Z0 : forall l : list string, sum_Z (map (fun _ => 0) l) = 0)
        by (unfold sum_Z; induction l; cbn; lia).
      rewrite Z0. lia.
Qed.

Lemma valid_tier_split (rows : list Prediction.t) :
  Forall (fun p => valid_tier p = true) rows ->
  Z.of_nat
    (List.length
       (filter (fun p => (Prediction.risk_level p =? "Low")%string) rows))
  + Z.of_nat
      (List.length
         (filter (fun p => (Prediction.risk_level p =? "Medium")%string) rows))
  + Z.of_nat
      (List.length
         (filter (fun p => (Prediction.risk_level p =? "High")%string) rows))
  = Z.of_nat (List.length rows).
Proof.
  induction 1 as [|p rows Hp Hv IH]; [reflexivity|]. cbn [filter].
  unfold valid_tier in Hp.
  destruct (Prediction.risk_level p =? "Low")%string eqn:EL,
    (Prediction.risk_level p =? "Medium")%string eqn:EM,
    (Prediction.risk_level p =? "High")%string eqn:EH;
    cbn [List.length]; try discriminate; try lia;
    try (apply String.eqb_eq in EL, EM; congruence);
    try (apply String.eqb_eq in EL, EH; congruence);
    try (apply String.eqb_eq in EM, EH; congruence).
Qed.

Lemma map_result_summarize_counts stats :
  forall summaries,
    map_result summarize stats = Ok summaries ->
    map region summaries = map fst stats /\
    map total_predictions summaries
    = map (fun e => Low (snd e) + Medium (snd e) + High (snd e)) stats /\
    map high_count summaries = map (fun e => High (snd e)) stats.
Proof.
  induction stats as [|e stats IH]; intros summaries; cbn [map_result].
  - intros H. injection H as <-. repeat split.
  - rewrite summarize_spec.
    destruct (rounded_percent _ _) as [f|]; cbn [bind]; [|discriminate].
    destruct (map_result summarize stats) as [rest|]; cbn [bind];
      [|discriminate].
    intros H. injection H as <-.
    destruct (IH rest eq_refl) as (A & B & C).
    cbn [map region total_predictions high_count]. rewrite A, B, C.
    repeat split.
Qed.

Lemma levels_map (L : string) (proj : tier_counts -> Z) rows stats :
  Forall (fun e => proj (snd e) = region_level (fst e) L rows) stats ->
  map (fun e => proj (snd e)) stats
  = map (fun r => region_level r L rows) (map fst stats).
Proof.
  intros H. rewrite map_map. apply map_ext_in.
  rewrite Forall_forall in H. intros e He. apply (H e He).
Qed.

(** What a page of the dashboard says of the user's rows. *)
Lemma dashboard_page_facts (current_user_id : Z) (store : list Prediction.t)
    (page : dashboard_page) :
  let rows := rows_of current_user_id store in
  dashboard current_user_id store = Ok page ->
  page_labels page = distinct_labels [] rows /\
  NoDup (page_labels page) /\
  (forall r, In r (page_labels page) <-> In r (map label rows)) /\
  page_low_counts page
  = map (fun r => region_level r "Low" rows) (page_labels page) /\
  page_medium_counts page
  = map (fun r => region_level r "Medium" rows) (page_labels page) /\
  page_high_counts page
  = map (fun r => region_level r "High" rows) (page_labels page) /\
  sum_Z (page_low_counts page) + sum_Z (page_medium_counts page)
  + sum_Z (page_high_counts page) = Z.of_nat (List.length rows) /\
  Permutation (map region (page_region_summary page)) (page_labels page) /\
  sum_Z (map total_predictions (page_region_summary page))
  = Z.of_nat (List.length rows) /\
  sum_Z (map high_count (page_region_summary page))
  = sum_Z (page_high_counts page) /\
  sum_Z (page_high_counts page)
  = Z.of_nat
      (List.length
         (filter (fun p => (Prediction.risk_level p =? "High")%string) rows)) /\
  page_recent_predictions page = firstn 20 (rev rows).
Proof.
  cbv zeta. intros H.
  destruct (dashboard_inv _ _ _ H) as (stats & summaries & C & M & ->).
  cbn [page_labels page_low_counts page_medium_counts page_high_counts
       page_region_summary page_recent_predictions].
  set (rows := rows_of current_user_id store) in *.
  destruct (count_predictions_levels rows [] [] stats C)
    as (Hn & Hf & Hk & Hd & Hv); [constructor | constructor | intros r []|].
  cbn [app map] in Hf, Hk, Hd.
  destruct (map_result_summarize_counts stats summaries M) as (SR & ST & SH).
  assert (FL : Forall (fun e => Low (snd e) = region_level (fst e) "Low" rows)
                 stats)
    by (eapply Forall_impl; [|exact Hf]; now intros e (A & _ & _)).
  assert (FM : Forall (fun e => Medium (snd e)
                                = region_level (fst e) "Medium" rows) stats)
    by (eapply Forall_impl; [|exact Hf]; now intros e (_ & A & _)).
  assert (FH : Forall (fun e => High (snd e)
                                = region_level (fst e) "High" rows) stats)
    by (eapply Forall_impl; [|exact Hf]; now intros e (_ & _ & A)).
  pose proof (levels_map "Low" Low rows stats FL) as EL.
  pose proof (levels_map "Medium" Medium rows stats FM) as EM.
  pose proof (levels_map "High" High rows stats FH) as EH.
  assert (Hin : forall p, In p rows -> In (label p) (map fst stats))
    by (intros p Hp; apply Hk, in_map, Hp).
  assert (SUM : sum_Z (map (fun e => Low (snd e)) stats)
                + sum_Z (map (fun e => Medium (snd e)) stats)
                + sum_Z (map (fun e => High (snd e)) stats)
                = Z.of_nat (List.length rows)).
  { rewrite EL, EM, EH. unfold region_level.
    rewrite !(sum_by_label _ (map fst stats) rows Hn Hin).
    apply valid_tier_split, Hv. }
  split; [exact Hd|]. split; [exact Hn|].
  split.
  { intros r. split; [|apply Hk]. rewrite Hd. clear.
    assert (G : forall seen l, In r (distinct_labels seen l) ->
                               In r seen \/ In r (map label l)).
    { intros seen l. revert seen.
      induction l as [|p l IH]; intros seen; cbn [distinct_labels map In];
        [auto|].
      destruct (existsb _ _); intros I; apply IH in I.
      - tauto.
      - rewrite in_app_iff in I. cbn [In] in I. tauto. }
    intros I. apply G in I. destruct I as [[]|I]. exact I. }
  split; [exact EL|]. split; [exact EM|]. split; [exact EH|].
  split; [exact SUM|].
  pose proof (sort_by_perm key_lt sort_key summaries) as P.
  split; [rewrite <- SR; apply Permutation_map, P|].
  split.
  { rewrite (sum_Z_perm _ _ (Permutation_map total_predictions P)), ST.
    rewrite <- SUM, !sum_Z_add. reflexivity. }
  split.
  { rewrite (sum_Z_perm _ _ (Permutation_map high_count P)), SH.
    reflexivity. }
  split; [|reflexivity].
  rewrite EH. unfold region_level.
  apply (sum_by_label _ (map fst stats) rows Hn Hin).
Qed.


(** X15.  The chart data of the dashboard.  When every row of the user has
    one of the three tiers and there are fewer than [2^53] rows the page
    is produced; and on every page produced the labels are the user's
    regions without repetition in order of first appearance (missing and
    empty regions under "Unknown"), the three count lists give, label by
    label, the numbers of the user's Low, Medium and High rows of that
    region, every row is counted exactly once (the counts add up to the
    number of the user's rows, as do the totals of the region summaries),
    and the summaries list the same regions. *)
Theorem dashboard_chart (current_user_id : Z) (store : list Prediction.t) :
  let rows := rows_of current_user_id store in
  (Forall (fun p => valid_tier p = true) rows ->
   Z.of_nat (List.length rows) < 2 ^ 53 ->
   exists page, dashboard current_user_id store = Ok page) /\
  (forall page,
     dashboard current_user_id store = Ok page ->
     page_labels page = distinct_labels [] rows /\
     NoDup (page_labels page) /\
     (forall r, In r (page_labels page) <-> In r (map label rows)) /\
     page_low_counts page
     = map (fun r => region_level r "Low" rows) (page_labels page) /\
     page_medium_counts page
     = map (fun r => region_level r "Medium" rows) (page_labels page) /\
     page_high_counts page
     = map (fun r => region_level r "High" rows) (page_labels page) /\
     sum_Z (page_low_counts page) + sum_Z (page_medium_counts page)
     + sum_Z (page_high_counts page) = Z.of_nat (List.length rows) /\
     Permutation (map region (page_region_summary page)) (page_labels page) /\
     sum_Z (map total_predictions (page_region_summary page))
     = Z.of_nat (List.length rows) /\
     sum_Z (map high_count (page_region_summary page))
     = sum_Z (page_high_counts page)).
Proof.
  cbv zeta. split; [apply dashboard_ok|].
  intros page H.
  destruct (dashboard_page_facts current_user_id store page H)
    as (A & B & C & D & E & F & G & I & J & K & _).
  repeat split; try assumption; apply C.
Qed.

Lemma dashboard_chart_witness :
  exists page,
    dashboard 1
      [example_row "A" "High"; example_row "B" "Low"; example_row "A" "Low"]
    = Ok page.
Proof.
  apply (dashboard_chart 1
           [example_row "A" "High"; example_row "B" "Low";
            example_row "A" "Low"]).
  - apply Forall_forall. intros p [<-|[<-|[<-|[]]]]; reflexivity.
  - reflexivity.
Defined.

Lemma valid_tier_computed row p :
  Prediction.risk_level row = compute_risk_level p -> valid_tier row = true.
Proof.
  intros E. unfold valid_tier. rewrite E.
  destruct (compute_risk_level_valid p) as [->|[->| ->]]; reflexivity.
Qed.

Lemma serve_valid float_of_str load_model store c :
  Forall (fun p => valid_tier p = true) store ->
  Forall (fun p => valid_tier p = true)
    (serve float_of_str load_model store c).
Proof.
  intros Hv. destruct c as [uid data|uid method form]; cbn [serve].
  - destruct (api_predict_store float_of_str uid load_model store data)
      as [E|(row & res & E)]; [now rewrite E|].
    rewrite E. cbn [snd]. apply Forall_app. split; [exact Hv|].
    constructor; [|constructor].
    destruct (api_predict_success_inv _ _ _ _ _ _ _ E)
      as (model & region & x & row' & _ & _ & A & _ & E').
    apply app_inv_head in E'. injection E' as ->.
    destruct (assess_inv _ _ _ _ _ _ A) as (p & _ & _ & T).
    apply (valid_tier_computed (db_row row') p T).
  - destruct (predict_store float_of_str load_model uid store method form)
      as [E|(row & page & -> & E & _)]; [now rewrite E|].
    rewrite E. cbn [snd]. apply Forall_app. split; [exact Hv|].
    constructor; [|constructor].
    destruct (predict_success_inv _ _ _ _ _ _ _ E)
      as (model & region & x & row' & res & _ & _ & A & _ & E' & _).
    apply app_inv_head in E'. injection E' as ->.
    destruct (assess_inv _ _ _ _ _ _ A) as (p & _ & _ & T).
    apply (valid_tier_computed (db_row row') p T).
Qed.

Lemma fold_serve_valid float_of_str load_model calls :
  forall store,
    Forall (fun p => valid_tier p = true) store ->
    Forall (fun p => valid_tier p = true)
      (fold_left (serve float_of_str load_model) calls store).
Proof.
  induction calls as [|c calls IH]; intros store Hv; [exact Hv|].
  cbn [fold_left]. apply IH, serve_valid, Hv.
Qed.

Lemma Forall_filter {A : Type} (P : A -> Prop) (f : A -> bool) (l : list A) :
  Forall P l -> Forall P (filter f l).
Proof.
  intros H. rewrite Forall_forall in *. intros a Ha.
  apply filter_In in Ha. apply H, Ha.
Qed.

(** X16.  The dashboard never fails on the records the application wrote:
    every row persisted by the two prediction routes has tier Low, Medium
    or High, so after any sequence of fewer than [2^53] requests from the
    empty store the dashboard of every user is produced (no [KeyError] in
    the counting loop, no division by zero in the percentages). *)
Theorem dashboard_after_requests
    (float_of_str : string -> option float)
    (load_model : option (float -> float -> float -> float -> result float))
    (calls : list call) (current_user_id : Z) :
  Z.of_nat (List.length calls) < 2 ^ 53 ->
  Forall (fun p => valid_tier p = true)
    (serve_all float_of_str load_model calls) /\
  exists page,
    dashboard current_user_id (serve_all float_of_str load_model calls)
    = Ok page.
Proof.
  intros Hl.
  assert (Hv : Forall (fun p => valid_tier p = true)
                 (serve_all float_of_str load_model calls))
    by (apply fold_serve_valid; constructor).
  split; [exact Hv|]. apply dashboard_ok.
  - apply Forall_filter, Hv.
  - destruct (fold_serve_appends float_of_str load_model calls [])
      as (rows & E & L & _).
    unfold rows_of, serve_all. rewrite E. cbn [app].
    pose proof (filter_length_le
                  (fun p => Prediction.user_id p =? current_user_id) rows).
    lia.
Qed.

Lemma dashboard_after_requests_witness :
  exists page,
    dashboard 7
      (serve_all float_of_digits (Some (constant_model 0.82))
         [ApiPredict 7
            (json_body "Surat" (JInt 50) (JInt 10) (JInt 5) (JInt 10000));
          ApiPredict 7
            (json_body "Pune" (JInt 1) (JInt 2) (JInt 3) (JStr "x"))])
    = Ok page.
Proof.
  apply (dashboard_after_requests float_of_digits
           (Some (constant_model 0.82))
           [ApiPredict 7
              (json_body "Surat" (JInt 50) (JInt 10) (JInt 5) (JInt 10000));
            ApiPredict 7
              (json_body "Pune" (JInt 1) (JInt 2) (JInt 3) (JStr "x"))] 7).
  reflexivity.
Defined.

Lemma rows_of_app uid l1 l2 :
  rows_of uid (l1 ++ l2) = (rows_of uid l1 ++ rows_of uid l2)%list.
Proof. apply filter_app. Qed.

Lemma rows_of_others uid rows :
  Forall (fun row => Prediction.user_id row <> uid) rows ->
  rows_of uid rows = [].
Proof.
  unfold rows_of. induction 1 as [|row rows Hr _ IH]; [reflexivity|].
  cbn [filter]. apply Z.eqb_neq in Hr. now rewrite Hr.
Qed.

Lemma dashboard_rows uid s1 s2 :
  rows_of uid s1 = rows_of uid s2 -> dashboard uid s1 = dashboard uid s2.
Proof. unfold dashboard, rows_of. now intros ->. Qed.

Lemma index_rows user s1 s2 :
  rows_of (User.id user) s1 = rows_of (User.id user) s2 ->
  index (Some user) s1 = index (Some user) s2.
Proof. unfold index, rows_of. now intros ->. Qed.

(** X17.  A user's pages depend on that user's rows only, and requests of
    other users do not touch them: after any sequence of requests to the
    prediction routes none of which comes from [user], the rows the two
    pages select for [user], the dashboard and the overview page are what
    they were before. *)
Theorem other_users_requests_invisible
    (float_of_str : string -> option float)
    (load_model : option (float -> float -> float -> float -> result float))
    (user : User.t) (store : list Prediction.t) (calls : list call) :
  Forall (fun c => caller c <> User.id user) calls ->
  let store' := fold_left (serve float_of_str load_model) calls store in
  rows_of (User.id user) store' = rows_of (User.id user) store /\
  dashboard (User.id user) store' = dashboard (User.id user) store /\
  index (Some user) store' = index (Some user) store.
Proof.
  intros Hc. cbv zeta.
  assert (R : rows_of (User.id user)
                (fold_left (serve float_of_str load_model) calls store)
              = rows_of (User.id user) store).
  { destruct (fold_serve_appends float_of_str load_model calls store)
      as (rows & -> & _ & U).
    rewrite rows_of_app, (rows_of_others (User.id user) rows), app_nil_r;
      [reflexivity|].
    eapply Forall_impl; [|exact U]. cbn. intros row I E.
    apply in_map_iff in I. destruct I as (c & Hcaller & I).
    rewrite Forall_forall in Hc. apply (Hc c I). congruence. }
  split; [exact R|]. split; [apply dashboard_rows, R | apply index_rows, R].
Qed.

Lemma other_users_requests_invisible_witness :
  dashboard 8
    (fold_left (serve float_of_digits (Some (constant_model 0.82)))
       [ApiPredict 7
          (json_body "Surat" (JInt 50) (JInt 10) (JInt 5) (JInt 10000))]
       [example_row "A" "High"])
  = dashboard 8 [example_row "A" "High"].
Proof.
  apply (other_users_requests_invisible float_of_digits
           (Some (constant_model 0.82))
           {| User.id := 8; User.name := "Asha"; User.email := "asha@x.org";
              User.password_hash := "h" |}
           [example_row "A" "High"]
           [ApiPredict 7
              (json_body "Surat" (JInt 50) (JInt 10) (JInt 5) (JInt 10000))]).
  constructor; [discriminate | constructor].
Defined.

(** X18.  The counting loop of the dashboard indexes the tier of a row
    into the three counters, so a row of the user whose tier is none of
    "Low", "Medium" and "High" makes the whole page fail: the dashboard
    raises [KeyError] with the tier of the first such row. *)
Theorem dashboard_key_error
    (current_user_id : Z) (store pre rest : list Prediction.t)
    (bad : Prediction.t) :
  rows_of current_user_id store = (pre ++ bad :: rest)%list ->
  Forall (fun p => valid_tier p = true) pre ->
  valid_tier bad = false ->
  dashboard current_user_id store
  = Raise (KeyError (Prediction.risk_level bad)).
Proof.
  intros R Hv Hb. unfold dashboard. unfold rows_of in R. rewrite R.
  rewrite count_predictions_app.
  destruct (count_predictions_spec pre [] [] Hv)
    as (stats & -> & _); [constructor | constructor | tauto|].
  cbn [bind count_predictions].
  now rewrite (stats_count_invalid bad _ Hb stats).
Qed.

Lemma dashboard_key_error_witness :
  dashboard 1 [example_row "A" "High"; example_row "B" "Severe"]
  = Raise (KeyError "Severe").
Proof.
  apply (dashboard_key_error 1
           [example_row "A" "High"; example_row "B" "Severe"]
           [example_row "A" "High"] [] (example_row "B" "Severe"));
    [reflexivity | repeat constructor | reflexivity].
Defined.

Lemma region_eqb_spec a b : region_eqb a b = true <-> a = b.
Proof.
  destruct a as [x|], b as [y|]; cbn [region_eqb];
    try (split; [discriminate | congruence]); [|tauto].
  rewrite String.eqb_eq. split; congruence.
Qed.

Lemma existsb_region_In x l : existsb (region_eqb x) l = true <-> In x l.
Proof.
  rewrite existsb_exists. split.
  - intros (y & Hy & E). apply region_eqb_spec in E. now subst.
  - intros H. exists x. split; [exact H | now apply region_eqb_spec].
Qed.

Lemma distinct_In x l : In x (distinct l) <-> In x l.
Proof.
  induction l as [|y l IH]; [tauto|]. cbn [distinct].
  destruct (existsb (region_eqb y) l) eqn:E; cbn [In]; rewrite IH.
  - apply existsb_region_In in E. split; [tauto|].
    intros [<-|H]; assumption.
  - tauto.
Qed.

Lemma distinct_NoDup l : NoDup (distinct l).
Proof.
  induction l as [|y l IH]; [constructor|]. cbn [distinct].
  destruct (existsb (region_eqb y) l) eqn:E; [exact IH|].
  constructor; [|exact IH].
  intros I. apply (proj1 (distinct_In y l)) in I.
  apply (proj2 (existsb_region_In y l)) in I. congruence.
Qed.

(** Two lists without repetition that hold the same values have the same
    length: the number of distinct values. *)
Lemma distinct_count (l regions : list (option string)) :
  NoDup regions -> (forall r, In r regions <-> In r l) ->
  List.length (distinct l) = List.length regions.
Proof.
  intros Hn Hin. apply Permutation_length.
  apply NoDup_Permutation; [apply distinct_NoDup | exact Hn|].
  intros r. rewrite distinct_In. symmetry. apply Hin.
Qed.

Lemma distinct_length l : (List.length (distinct l) <= List.length l)%nat.
Proof.
  induction l as [|y l IH]; [cbn; lia|]. cbn [distinct].
  destruct (existsb _ _); cbn [List.length]; lia.
Qed.

Lemma distinct_labels_NoDup rows :
  forall seen, NoDup seen -> NoDup (distinct_labels seen rows).
Proof.
  induction rows as [|p rows IH]; intros seen Hn; [exact Hn|].
  cbn [distinct_labels]. destruct (existsb _ _) eqn:E; [apply IH, Hn|].
  apply IH. apply NoDup_app; [exact Hn | repeat constructor; simpl; tauto|].
  intros r Hr [<-|[]]. apply existsb_eqb_In in Hr. congruence.
Qed.

Lemma distinct_labels_In rows :
  forall seen r,
    In r (distinct_labels seen rows) -> In r seen \/ In r (map label rows).
Proof.
  induction rows as [|p rows IH]; intros seen r; cbn [distinct_labels map In];
    [auto|].
  destruct (existsb _ _); intros I; apply IH in I.
  - tauto.
  - rewrite in_app_iff in I. cbn [In] in I. tauto.
Qed.

(** The dashboard groups at most as many regions as the overview page
    counts: it merges the missing and the empty region with "Unknown". *)
Lemma labels_le_regions rows :
  (List.length (distinct_labels [] rows)
   <= List.length (distinct (map Prediction.region rows)))%nat.
Proof.
  rewrite <- (length_map (fun o => str_or o "Unknown")
                (distinct (map Prediction.region rows))).
  apply NoDup_incl_length; [apply distinct_labels_NoDup; constructor|].
  intros r I. apply distinct_labels_In in I. destruct I as [[]|I].
  apply in_map_iff in I. destruct I as (p & <- & Hp).
  apply in_map_iff. exists (Prediction.region p). split; [reflexivity|].
  apply distinct_In, in_map, Hp.
Qed.

Lemma firstn_incl {A : Type} (n : nat) (l : list A) (a : A) :
  In a (firstn n l) -> In a l.
Proof.
  intros H. rewrite <- (firstn_skipn n l). apply in_or_app. now left.
Qed.

(** X19.  The overview page.  For a logged-in user it shows the number of
    the user's rows, the number of those rows whose tier is High, the
    number of distinct stored regions (the length of every list that
    holds each stored region of the user exactly once, NULL being one
    value) and the user's last five rows, newest first.  The High count
    and the region count are at most the total, and the region count is
    at least 1 when there is a row.  The page agrees with the dashboard
    whenever that is produced: the total is the sum of the dashboard's
    Low, Medium and High counts, the High count is the sum of its High
    counts, the recent rows are the first five of the dashboard's, and the
    dashboard never shows more regions than the overview counts (it
    merges missing and empty regions into "Unknown"). *)
Theorem index_overview (user : User.t) (store : list Prediction.t) :
  let rows := rows_of (User.id user) store in
  exists page,
    index (Some user) store = Overview page /\
    index_total_predictions page = Z.of_nat (List.length rows) /\
    index_high_risk_count page
    = Z.of_nat
        (List.length
           (filter (fun p => (Prediction.risk_level p =? "High")%string)
              rows)) /\
    (exists regions,
       NoDup regions /\
       (forall r, In r regions <-> In r (map Prediction.region rows)) /\
       index_region_count page = Z.of_nat (List.length regions)) /\
    (forall regions,
       NoDup regions ->
       (forall r, In r regions <-> In r (map Prediction.region rows)) ->
       index_region_count page = Z.of_nat (List.length regions)) /\
    0 <= index_high_risk_count page <= index_total_predictions page /\
    0 <= index_region_count page <= index_total_predictions page /\
    (rows <> [] -> 1 <= index_region_count page) /\
    index_recent_predictions page = firstn 5 (rev rows) /\
    List.length (index_recent_predictions page)
    = Nat.min 5 (List.length rows) /\
    Forall (fun p => Prediction.user_id p = User.id user)
      (index_recent_predictions page) /\
    (forall dpage,
       dashboard (User.id user) store = Ok dpage ->
       index_total_predictions page
       = sum_Z (page_low_counts dpage) + sum_Z (page_medium_counts dpage)
         + sum_Z (page_high_counts dpage) /\
       index_high_risk_count page = sum_Z (page_high_counts dpage) /\
       index_recent_predictions page
       = firstn 5 (page_recent_predictions dpage) /\
       Z.of_nat (List.length (page_labels dpage)) <= index_region_count page).
Proof.
  cbv zeta. eexists. split; [reflexivity|].
  cbn [index_total_predictions index_high_risk_count index_region_count
       index_recent_predictions].
  fold (rows_of (User.id user) store).
  set (rows := rows_of (User.id user) store).
  split; [reflexivity|].
  split; [reflexivity|].
  split.
  { exists (distinct (map Prediction.region rows)).
    split; [apply distinct_NoDup|].
    split; [intros r; apply distinct_In | reflexivity]. }
  split.
  { intros regions Hn Hin. f_equal. now apply distinct_count. }
  split.
  { pose proof (filter_length_le
                  (fun p => (Prediction.risk_level p =? "High")%string) rows).
    lia. }
  split.
  { pose proof (distinct_length (map Prediction.region rows)) as L.
    rewrite length_map in L. lia. }
  split.
  { intros NE. destruct rows as [|p rows']; [congruence|].
    assert (I : In (Prediction.region p)
                  (distinct (map Prediction.region (p :: rows'))))
      by (apply distinct_In; now left).
    destruct (distinct (map Prediction.region (p :: rows'))); [destruct I|].
    cbn [List.length]. lia. }
  split; [reflexivity|].
  split; [rewrite length_firstn, length_rev; reflexivity|].
  split.
  { apply Forall_forall. intros p Hp. apply firstn_incl in Hp.
    apply in_rev in Hp. apply filter_In in Hp. destruct Hp as [_ E].
    now apply Z.eqb_eq in E. }
  intros dpage H.
  destruct (dashboard_page_facts (User.id user) store dpage H)
    as (A & _ & _ & _ & _ & _ & G & _ & _ & _ & K & R).
  fold rows in A, G, K, R.
  split; [now rewrite G|]. split; [now rewrite K|].
  split.
  { rewrite R, firstn_firstn. reflexivity. }
  rewrite A. apply inj_le, labels_le_regions.
Qed.



(** ** Accounts *)

Lemma user_by_email_some us e u :
  user_by_email us e = Some u -> In u us /\ User.email u = e.
Proof.
  intros H. apply find_some in H. destruct H as [I E].
  split; [exact I | now apply String.eqb_eq].
Qed.

Lemma user_by_email_none us e :
  user_by_email us e = None -> ~ In e (map User.email us).
Proof.
  intros H I. apply in_map_iff in I. destruct I as (u & E & I).
  pose proof (find_none _ _ H u I) as N. cbn in N.
  apply String.eqb_neq in N. congruence.
Qed.

Lemma user_by_email_in us e :
  In e (map User.email us) -> exists u, user_by_email us e = Some u.
Proof.
  intros I. destruct (user_by_email us e) as [u|] eqn:E; [now exists u|].
  now apply user_by_email_none in E.
Qed.

Lemma user_by_email_new us u :
  ~ In (User.email u) (map User.email us) ->
  user_by_email (us ++ [u]) (User.email u) = Some u.
Proof.
  intros N. unfold user_by_email.
  induction us as [|v us IH]; cbn [app find].
  - now rewrite String.eqb_refl.
  - destruct (String.eqb_spec (User.email v) (User.email u)) as [E|E].
    + exfalso. apply N. left. exact E.
    + apply IH. intros I. apply N. now right.
Qed.

Lemma load_user_new us u :
  (forall i v, nth_error us i = Some v -> User.id v = Z.of_nat i + 1) ->
  User.id u = Z.of_nat (List.length us) + 1 ->
  load_user (us ++ [u]) (User.id u) = Some u.
Proof.
  intros Hid Hu. unfold load_user.
  assert (G : forall v, In v us -> (User.id v =? User.id u) = false).
  { intros v I. apply In_nth_error in I. destruct I as [i I].
    pose proof (Hid i v I) as E.
    assert (i < List.length us)%nat
      by (apply nth_error_Some; congruence).
    apply Z.eqb_neq. lia. }
  clear Hid Hu. induction us as [|v us IH]; cbn [app find].
  - now rewrite Z.eqb_refl.
  - rewrite (G v) by now left. apply IH. intros w I. apply G. now right.
Qed.

Lemma users_ok_nil : users_ok [].
Proof.
  unfold users_ok. split; [constructor|]. split; [|constructor].
  intros [|i] u; discriminate.
Qed.

(** What a successful registration adds. *)
Lemma users_ok_add us u :
  users_ok us ->
  ~ In (User.email u) (map User.email us) ->
  User.id u = Z.of_nat (List.length us) + 1 ->
  User.email u <> EmptyString ->
  normalize (User.email u) = User.email u ->
  users_ok (us ++ [u]).
Proof.
  intros (Hn & Hid & Hf) N I E Nm. unfold users_ok.
  split; [|split].
  - rewrite map_app. apply NoDup_app; [exact Hn | repeat constructor; simpl; tauto|].
    intros e He [<-|[]]. contradiction.
  - intros i v Hv.
    destruct (Nat.lt_ge_cases i (List.length us)) as [L|L].
    + rewrite nth_error_app1 in Hv by exact L. apply (Hid i v Hv).
    + rewrite nth_error_app2 in Hv by exact L.
      destruct (i - List.length us)%nat as [|k] eqn:K; cbn in Hv.
      * injection Hv as <-. rewrite I. lia.
      * destruct k; discriminate.
  - apply Forall_app. split; [exact Hf|]. constructor; [|constructor].
    split; assumption.
Qed.

(** The three outcomes of a POST to [register] by a visitor who is not
    logged in. *)
Lemma register_post generate_password_hash db form salt :
  is_authenticated db = false ->
  let email := normalize (form_get (form_email form)) in
  let password := form_get (form_password form) in
  (str_not email || str_not password = true /\
   register generate_password_hash db POST form salt
   = ({| body := Redirect "register";
         flashed := [("Email and password are required.", "danger")] |}, db))
  \/ (email <> EmptyString /\ password <> EmptyString /\
      In email (map User.email (users db)) /\
      register generate_password_hash db POST form salt
      = ({| body := Redirect "login";
            flashed := [("Email is already registered. Please login.",
                         "warning")] |}, db))
  \/ (email <> EmptyString /\ password <> EmptyString /\
      ~ In email (map User.email (users db)) /\
      register generate_password_hash db POST form salt
      = ({| body := Redirect "login";
            flashed := [("Registration successful. Please login.",
                         "success")] |},
         {| users :=
              (users db
               ++ [{| User.id := Z.of_nat (List.length (users db)) + 1;
                      User.name :=
                        str_or (Some (strip (form_get (form_name form))))
                          email;
                      User.email := email;
                      User.password_hash :=
                        generate_password_hash password salt |}])%list;
            session := session db |})).
Proof.
  intros A. cbv zeta. unfold register. rewrite A. fold (normalize (form_get (form_email form))).
  destruct (str_not (normalize (form_get (form_email form)))
            || str_not (form_get (form_password form))) eqn:B.
  { left. split; reflexivity. }
  right. apply orb_false_iff in B. destruct B as [B1 B2].
  assert (E1 : normalize (form_get (form_email form)) <> EmptyString)
    by (intros E; rewrite E in B1; discriminate).
  assert (E2 : form_get (form_password form) <> EmptyString)
    by (intros E; rewrite E in B2; discriminate).
  destruct (user_by_email (users db) _) as [existing|] eqn:F.
  - left. repeat split; try assumption.
    apply user_by_email_some in F. destruct F as [I E].
    rewrite <- E. apply in_map, I.
  - right. repeat split; try assumption.
    apply user_by_email_none, F.
Qed.

Lemma account_step_users generate_password_hash check_password_hash db c :
  users_ok (users db) ->
  users_ok
    (users (account_step generate_password_hash check_password_hash db c)) /\
  exists new,
    users (account_step generate_password_hash check_password_hash db c)
    = (users db ++ new)%list /\ (List.length new <= 1)%nat.
Proof.
  intros Hok.
  assert (Same : forall db', users db' = users db ->
            users_ok (users db') /\
            exists new, users db' = (users db ++ new)%list
                        /\ (List.length new <= 1)%nat).
  { intros db' ->. split; [exact Hok|]. exists []. rewrite app_nil_r.
    split; [reflexivity | cbn; lia]. }
  destruct c as [method form salt|method form|]; cbn [account_step].
  - destruct (is_authenticated db) eqn:A.
    { apply Same. unfold register. now rewrite A. }
    destruct method.
    { apply Same. unfold register. now rewrite A. }
    destruct (register_post generate_password_hash db form salt A)
      as [[_ ->]|[(_ & _ & _ & ->)|(E1 & E2 & N & ->)]];
      [now apply Same | now apply Same|].
    cbn [snd users]. split.
    + apply users_ok_add; try assumption; try reflexivity.
      apply normalize_idem.
    + eexists. split; [reflexivity | cbn; lia].
  - apply Same. unfold login.
    destruct (is_authenticated db); [reflexivity|].
    destruct method; [reflexivity|].
    destruct (user_by_email _ _) as [u|]; [|reflexivity].
    destruct (check_password _ _ _); reflexivity.
  - apply Same. unfold logout. destruct (is_authenticated db); reflexivity.
Qed.

(** X21.  Accounts are never overwritten or duplicated.  Every request to
    [register], [login] or [logout] leaves the existing users in place and
    adds at most one; and it keeps the table well formed: the emails are
    pairwise distinct, non-empty and in trimmed lowercase form, and the
    ids are the positions.  So the table is well formed after every
    sequence of requests from the empty table. *)
Theorem accounts_invariant
    (generate_password_hash : string -> string -> string)
    (check_password_hash : string -> string -> bool) :
  (forall db c,
     users_ok (users db) ->
     users_ok
       (users (account_step generate_password_hash check_password_hash db c))
     /\ exists new,
          users (account_step generate_password_hash check_password_hash db c)
          = (users db ++ new)%list /\ (List.length new <= 1)%nat) /\
  (forall calls,
     users_ok
       (users
          (fold_left (account_step generate_password_hash check_password_hash)
             calls no_accounts))).
Proof.
  split; [intros db c; apply account_step_users|].
  intros calls.
  assert (G : forall db, users_ok (users db) ->
            users_ok
              (users
                 (fold_left
                    (account_step generate_password_hash check_password_hash)
                    calls db))).
  { induction calls as [|c calls IH]; intros db Hok; [exact Hok|].
    cbn [fold_left]. apply IH.
    apply (account_step_users generate_password_hash check_password_hash
             db c Hok). }
  apply G, users_ok_nil.
Qed.

(** X22.  Registration followed by login.  A visitor who is not logged in
    and registers with a non-empty email that is not yet in the table and
    a non-empty password is added to the table with the next id and the
    trimmed, lowercased email; a later login with the same password and
    any spelling of the email that normalizes to the same string logs that
    user in, given that [check_password_hash] accepts the password a hash
    was generated from. *)
Theorem register_then_login
    (generate_password_hash : string -> string -> string)
    (check_password_hash : string -> string -> bool)
    (db : accounts) (form form' : account_form) (salt : string) :
  (forall password salt,
     check_password_hash (generate_password_hash password salt) password
     = true) ->
  users_ok (users db) ->
  session db = None ->
  let email := normalize (form_get (form_email form)) in
  let password := form_get (form_password form) in
  email <> EmptyString -> password <> EmptyString ->
  ~ In email (map User.email (users db)) ->
  normalize (form_get (form_email form')) = email ->
  form_get (form_password form') = password ->
  exists user a db',
    register generate_password_hash db POST form salt = (a, db') /\
    body a = Redirect "login" /\
    users db' = (users db ++ [user])%list /\ session db' = None /\
    User.email user = email /\
    User.id user = Z.of_nat (List.length (users db)) + 1 /\
    login check_password_hash db' POST form'
    = ({| body := Redirect "index";
          flashed := [("Logged in successfully.", "success")] |},
       {| users := users db'; session := Some (User.id user) |}) /\
    current_user {| users := users db'; session := Some (User.id user) |}
    = Some user.
Proof.
  intros Hcheck Hok Hs. cbv zeta. intros E1 E2 N Hmail Hpw.
  assert (A : is_authenticated db = false)
    by (unfold is_authenticated, current_user; now rewrite Hs).
  destruct (register_post generate_password_hash db form salt A)
    as [[B _]|[(_ & _ & I & _)|(_ & _ & _ & R)]].
  { exfalso. apply orb_true_iff in B.
    destruct B as [B|B];
      [destruct (normalize (form_get (form_email form)))
      |destruct (form_get (form_password form))];
      try discriminate; congruence. }
  { contradiction. }
  eexists. eexists. eexists. split; [exact R|].
  cbn [body users session User.email User.id].
  split; [reflexivity|]. split; [reflexivity|]. split; [exact Hs|].
  split; [reflexivity|]. split; [reflexivity|].
  set (user := {| User.id := Z.of_nat (List.length (users db)) + 1;
                  User.name := _; User.email := _; User.password_hash := _ |}).
  split.
  - unfold login, is_authenticated, current_user. cbn [session users].
    rewrite Hs. fold (normalize (form_get (form_email form'))).
    rewrite Hmail.
    change (normalize (form_get (form_email form))) with (User.email user).
    rewrite (user_by_email_new (users db) user N).
    unfold check_password. cbn [User.password_hash user].
    rewrite Hpw, Hcheck. reflexivity.
  - unfold current_user. cbn [session users].
    apply load_user_new; [apply Hok | reflexivity].
Qed.

Lemma register_then_login_witness :
  exists db,
    login String.eqb
      (snd (register (fun password _ => password) no_accounts POST
              {| form_name := Some "Asha"; form_email := Some " Asha@X.org ";
                 form_password := Some "s3cret" |} "salt"))
      POST
      {| form_name := None; form_email := Some "asha@x.org";
         form_password := Some "s3cret" |}
    = ({| body := Redirect "index";
          flashed := [("Logged in successfully.", "success")] |}, db)
    /\ session db = Some 1.
Proof.
  destruct (register_then_login (fun password _ => password) String.eqb
              no_accounts
              {| form_name := Some "Asha"; form_email := Some " Asha@X.org ";
                 form_password := Some "s3cret" |}
              {| form_name := None; form_email := Some "asha@x.org";
                 form_password := Some "s3cret" |} "salt")
    as (user & a & db' & R & _ & _ & _ & _ & I & L & _);
    [intros; apply String.eqb_refl | apply users_ok_nil | reflexivity
    | discriminate | discriminate | intros [] | reflexivity | reflexivity|].
  rewrite R. cbn [snd]. eexists. split; [exact L|].
  cbn [session]. rewrite I. reflexivity.
Defined.

(** X23.  [login] changes nothing but the session, and it sets the session
    only for a POST by a visitor who is not logged in, to the id of the
    first user whose stored email is the trimmed, lowercased email of the
    form and whose stored hash [check_password_hash] accepts for the
    password of the form.  An unknown email and a refused password get the
    same answer, "Invalid email or password.", and leave the session as it
    was. *)
Theorem login_sound
    (check_password_hash : string -> string -> bool)
    (db db' : accounts) (method : http_method) (form : account_form)
    (a : answer) :
  login check_password_hash db method form = (a, db') ->
  let email := normalize (form_get (form_email form)) in
  let password := form_get (form_password form) in
  users db' = users db /\
  (db' = db
   \/ exists user,
        method = POST /\ is_authenticated db = false /\
        user_by_email (users db) email = Some user /\
        In user (users db) /\ User.email user = email /\
        check_password_hash (User.password_hash user) password = true /\
        session db' = Some (User.id user) /\
        a = {| body := Redirect "index";
               flashed := [("Logged in successfully.", "success")] |}) /\
  (method = POST -> is_authenticated db = false ->
   (forall user,
      user_by_email (users db) email = Some user ->
      check_password_hash (User.password_hash user) password = false) ->
   db' = db /\
   a = {| body := Redirect "login";
          flashed := [("Invalid email or password.", "danger")] |}).
Proof.
  cbv zeta. unfold login. fold (normalize (form_get (form_email form))).
  destruct (is_authenticated db) eqn:A.
  { intros H. injection H as <- <-. split; [reflexivity|].
    split; [now left|]. discriminate. }
  destruct method.
  { intros H. injection H as <- <-. split; [reflexivity|].
    split; [now left|]. discriminate. }
  destruct (user_by_email (users db) _) as [user|] eqn:F.
  - unfold check_password.
    destruct (check_password_hash _ _) eqn:C; intros H; injection H as <- <-.
    + split; [reflexivity|]. split.
      * right. exists user. destruct (user_by_email_some _ _ _ F) as [I E].
        repeat split; assumption.
      * intros _ _ G. specialize (G user eq_refl). congruence.
    + split; [reflexivity|]. split; [now left|]. intros _ _ _. split; reflexivity.
  - intros H. injection H as <- <-. split; [reflexivity|].
    split; [now left|]. intros _ _ _. split; reflexivity.
Qed.

Lemma login_sound_witness :
  exists a db,
    login String.eqb
      {| users := [{| User.id := 1; User.name := "Asha";
                      User.email := "asha@x.org";
                      User.password_hash := "s3cret" |}];
         session := None |}
      POST
      {| form_name := None; form_email := Some "asha@x.org";
         form_password := Some "guess" |}
    = (a, db) /\ session db = None.
Proof.
  assert (E : exists a db,
            login String.eqb
              {| users := [{| User.id := 1; User.name := "Asha";
                              User.email := "asha@x.org";
                              User.password_hash := "s3cret" |}];
                 session := None |}
              POST
              {| form_name := None; form_email := Some "asha@x.org";
                 form_password := Some "guess" |}
            = (a, db))
    by (eexists; eexists; reflexivity).
  destruct E as (a & db & E). exists a, db. split; [exact E|].
  destruct (login_sound String.eqb _ _ _ _ _ E) as (_ & _ & W).
  assert (D : db = {| users := [{| User.id := 1; User.name := "Asha";
                                   User.email := "asha@x.org";
                                   User.password_hash := "s3cret" |}];
                      session := None |}).
  { apply W; [reflexivity | reflexivity|].
    intros user F. vm_compute in F. injection F as <-. reflexivity. }
  rewrite D. reflexivity.
Defined.

(** X24.  What [register] refuses.  For a visitor who is not logged in, a
    POST whose email is empty after trimming, or whose password is empty,
    is sent back to the form with "Email and password are required."; a
    POST whose trimmed, lowercased email is already in the table, however
    it was spelled, is sent to the login page with "Email is already
    registered."; in both cases, as for every GET and for every request of
    a logged-in user, no user is added and none is changed. *)
Theorem register_rejects
    (generate_password_hash : string -> string -> string)
    (db : accounts) (form : account_form) (salt : string) :
  let email := normalize (form_get (form_email form)) in
  let password := form_get (form_password form) in
  (is_authenticated db = false ->
   email = EmptyString \/ password = EmptyString ->
   register generate_password_hash db POST form salt
   = ({| body := Redirect "register";
         flashed := [("Email and password are required.", "danger")] |}, db)) /\
  (is_authenticated db = false ->
   email <> EmptyString -> password <> EmptyString ->
   In email (map User.email (users db)) ->
   register generate_password_hash db POST form salt
   = ({| body := Redirect "login";
         flashed := [("Email is already registered. Please login.",
                      "warning")] |}, db)) /\
  snd (register generate_password_hash db GET form salt) = db /\
  (is_authenticated db = true ->
   forall method,
     register generate_password_hash db method form salt
     = ({| body := Redirect "index"; flashed := [] |}, db)).
Proof.
  cbv zeta. split; [|split; [|split]].
  - intros A E.
    destruct (register_post generate_password_hash db form salt A)
      as [[_ R]|[(E1 & E2 & _)|(E1 & E2 & _)]]; [exact R| |];
      destruct E; contradiction.
  - intros A E1 E2 I.
    destruct (register_post generate_password_hash db form salt A)
      as [[B _]|[(_ & _ & _ & R)|(_ & _ & N & _)]];
      [|exact R | contradiction].
    exfalso. apply orb_true_iff in B.
    destruct B as [B|B];
      [destruct (normalize (form_get (form_email form)))
      |destruct (form_get (form_password form))];
      try discriminate; congruence.
  - unfold register. destruct (is_authenticated db); reflexivity.
  - intros A method. unfold register. now rewrite A.
Qed.

(** ** The region of a request *)

Lemma api_parse_region float_of_str data region x :
  api_parse float_of_str data = Ok (region, x) ->
  region = match data_region data with
           | Some r => r
           | None => Some "Unknown"
           end.
Proof.
  unfold api_parse.
  destruct (dict_item (data_fever_cases data) "fever_cases") as [v1|];
    cbn [bind]; [|discriminate].
  destruct (py_float float_of_str v1); cbn [bind]; [|discriminate].
  destruct (dict_item (data_cough_cases data) "cough_cases") as [v2|];
    cbn [bind]; [|discriminate].
  destruct (py_float float_of_str v2); cbn [bind]; [|discriminate].
  destruct (dict_item (data_diarrhea_cases data) "diarrhea_cases") as [v3|];
    cbn [bind]; [|discriminate].
  destruct (py_float float_of_str v3); cbn [bind]; [|discriminate].
  destruct (dict_item (data_region_population data) "region_population")
    as [v4|]; cbn [bind]; [|discriminate].
  destruct (py_float float_of_str v4); cbn [bind]; [|discriminate].
  intros H. injection H as <- _. reflexivity.
Qed.

(** X25.  A request to [/api/predict] without a usable region.  When the
    key "region" is absent the row stores "Unknown"; when it is [null] the
    row stores no region and the texts of the suggestions name the region
    "None".  In both cases, and for an empty string, the assessment uses
    the default context (AQI 90, Satisfactory, no hospitals) and the
    dashboard groups the row under "Unknown". *)
Theorem api_region_defaults
    (float_of_str : string -> option float)
    (load_model : option (float -> float -> float -> float -> result float))
    (current_user_id : Z) (store store' : list Prediction.t)
    (data : api_data) (res : api_result) :
  api_predict float_of_str load_model current_user_id store data
  = (Success res, store') ->
  exists row,
    store' = (store ++ [row])%list /\
    (data_region data = None -> Prediction.region row = Some "Unknown") /\
    (data_region data = Some None ->
     Prediction.region row = None /\
     exists x,
       res_suggestions res
       = (tier_directive (res_risk_level res) "None"
          ++ [symptom_directive (top_symptom x);
              air_directive "None" "Satisfactory" 90;
              "No mapped hospitals found for this region. Maintain an updated health facility directory to improve response time.";
              data_quality_item])%list) /\
    (data_region data = None \/ data_region data = Some None
     \/ data_region data = Some (Some EmptyString) ->
     label row = "Unknown" /\
     res_aqi_value res = 90 /\ res_aqi_category res = "Satisfactory" /\
     Prediction.aqi_value row = 90 /\
     Prediction.aqi_category row = "Satisfactory" /\
     res_hospitals res = []).
Proof.
  intros H.
  destruct (api_predict_success_inv _ _ _ _ _ _ _ H)
    as (model & region & x & row & _ & P & A & _ & ->).
  apply api_parse_region in P.
  destruct (assess_inversion _ _ _ _ _ _ A)
    as (p & zf & zc & zd & zn & _ & _ & _ & _ & _ & -> & ->).
  eexists. split; [reflexivity|].
  cbn [db_row label Prediction.region Prediction.aqi_value
       Prediction.aqi_category
       res_suggestions res_risk_level res_aqi_value res_aqi_category
       res_hospitals].
  split; [intros E; rewrite E in P; now subst|].
  split.
  { intros E. rewrite E in P. subst region. split; [reflexivity|].
    exists x. reflexivity. }
  intros [E|[E|E]]; rewrite E in P; subst region; repeat split.
Qed.

Lemma api_region_defaults_witness :
  exists res row,
    api_predict float_of_digits (Some (constant_model 0.82)) 7 []
      {| data_region := Some None;
         data_fever_cases := Some (JInt 50);
         data_cough_cases := Some (JInt 10);
         data_diarrhea_cases := Some (JInt 5);
         data_region_population := Some (JInt 10000) |}
    = (Success res, [row]) /\
    Prediction.region row = None.
Proof.
  assert (E : exists res store',
            api_predict float_of_digits (Some (constant_model 0.82)) 7 []
              {| data_region := Some None;
                 data_fever_cases := Some (JInt 50);
                 data_cough_cases := Some (JInt 10);
                 data_diarrhea_cases := Some (JInt 5);
                 data_region_population := Some (JInt 10000) |}
            = (Success res, store'))
    by (eexists; eexists; reflexivity).
  destruct E as (res & store' & E).
  destruct (api_region_defaults _ _ _ _ _ _ _ E) as (row & -> & _ & N & _).
  exists res, row. split; [exact E|]. now apply N.
Defined.

Lemma lookup_key_trimmed r :
  normalize
    (str_or (Some match strip r with
                  | EmptyString => "Unknown"
                  | s => s
                  end) "unknown")
  = normalize (str_or (Some r) "unknown")
  \/ (strip r = EmptyString /\ r <> EmptyString).
Proof.
  destruct r as [|c r]; [left; reflexivity|].
  destruct (strip (String c r)) as [|d s] eqn:S.
  - right. split; [reflexivity | discriminate].
  - left. cbn [str_or]. rewrite <- S. unfold normalize.
    now rewrite strip_idem.
Qed.

(** X26.  The two routes agree on the context of a region.  The form
    route trims the region and replaces a blank one by "Unknown" before it
    looks the AQI and the hospitals up and stores the row; the API looks
    the region up as sent.  Both lookups give the same answers for the
    same text, so the stored AQI does not depend on the route. *)
Theorem lookups_agree_on_trimmed_region (r : string) :
  let stored := match strip r with
                | EmptyString => "Unknown"
                | s => s
                end in
  get_region_aqi (Some stored) = get_region_aqi (Some r) /\
  get_hospitals_for_region (Some stored) = get_hospitals_for_region (Some r) /\
  (forall float_of_str form x region,
     form_region form = Some r ->
     form_parse float_of_str form = Ok (region, x) ->
     region = stored).
Proof.
  cbv zeta. split; [|split].
  - destruct (lookup_key_trimmed r) as [K|[S N]].
    + now apply get_region_aqi_key.
    + rewrite S. destruct r as [|c r]; [congruence|].
      unfold get_region_aqi. cbn [str_or]. rewrite S. reflexivity.
  - destruct (lookup_key_trimmed r) as [K|[S N]].
    + now apply get_hospitals_for_region_key.
    + rewrite S. destruct r as [|c r]; [congruence|].
      unfold get_hospitals_for_region. cbn [str_or]. rewrite S. reflexivity.
  - intros float_of_str form x region F P.
    apply form_parse_region in P. rewrite F in P. exact P.
Qed.
